(** * Food City supermarket system: the aggregation and reporting engine

    A shallow embedding of the report functions of [app.py]
    ([analyze_monthly_sales], [analyze_price], [parse_date],
    [analyze_weekly_sales], [analyze_total_sales_amount],
    [analyze_all_branches_monthly_sales]) together with the parts of the
    Python runtime they call: list indexing, insertion-ordered dicts,
    [datetime] arithmetic and comparison, [datetime.strptime] for the two
    formats of [parse_date], and the four numpy reductions of
    [analyze_price].

    Conventions.
    - A CSV row is a [list string], as [csv.reader] yields it; the tables
      handed over by [load_data] are lists of rows.
    - Python exceptions are values of [exn]; a computation that may raise
      has type [result A].
    - Python integers are [Z].  A double is held as the rational it
      denotes ([Q]); [Float64.round] rounds to the nearest double, ties to
      even, so that the mean and the median of numpy are the rounded
      values that the program prints.  The numpy reductions are those of
      an array of 64-bit integers, the array that numpy builds from
      amounts that fit that type; doubles stay in the normal range there
      (no infinity, no subnormal number).
    - What a report function prints or plots is returned as a list of
      [event]s, in program order.

    The second part embeds the file layer and the commands: the loader
    and its factory, [load_data], [save_data], [login_user], the two
    commands that write ([RegisterBranchCommand], [RecordSaleCommand]),
    the five analysis commands and the start-up block of [main].
    - The files are a map from names to the rows that [csv.reader] yields
      from them, header row included; a row that is written is read back
      as it was written when no field of it holds a carriage return (a
      carriage return comes back as a line feed, which is not modelled).
    - A computation on files has type [IO A]: it ends with a value or an
      exception, and with the files as it leaves them.
    - The answers to [input] prompts and the values of [datetime.now()]
      and [datetime.today()] are arguments.  The menu loop of [main] is
      not embedded. *)

From Stdlib Require Import ZArith QArith List String Ascii Bool Lia.
From Stdlib Require Import Qreduction Qabs Permutation Sorted.
From Stdlib Require Qcanon.
Import ListNotations.

Local Open Scope string_scope.
Local Open Scope Z_scope.

(* ================================================================== *)
(** * Python runtime                                                   *)
(* ================================================================== *)

Module Py.

(** The exceptions that the modelled code can raise. *)
Inductive exn : Type :=
| ValueError (msg : string)
| KeyError (key : string)
| IndexError (msg : string)
| OverflowError (msg : string).

Inductive result (A : Type) : Type :=
| Ok (a : A)
| Raise (e : exn).
Arguments Ok {A} a.
Arguments Raise {A} e.

Definition bind {A B} (m : result A) (k : A -> result B) : result B :=
  match m with
  | Ok a => k a
  | Raise e => Raise e
  end.

(** [try: m except ValueError: h] *)
Definition except_ValueError {A} (m : result A) (h : result A) : result A :=
  match m with
  | Raise (ValueError _) => h
  | other => other
  end.

(** [row[i]] for a non-negative literal index. *)
Definition index (row : list string) (i : nat) : result string :=
  match nth_error row i with
  | Some x => Ok x
  | None => Raise (IndexError "list index out of range")
  end.

(** [sum(xs)] on a list of integers: left to right from 0. *)
Definition sum (xs : list Z) : Z := fold_left Z.add xs 0.

(** Values that an f-string of the reports interpolates. *)
Inductive pyval : Type :=
| PyInt (z : Z)
| PyFloat (q : Q)
| PyNaN.

(** ** Insertion-ordered dictionaries with string keys *)

Definition dict := list (string * Z).

Fixpoint dict_get (d : dict) (k : string) : option Z :=
  match d with
  | [] => None
  | (k', v) :: d' => if String.eqb k' k then Some v else dict_get d' k
  end.

(** [d[k] = v]: an existing key keeps its position. *)
Fixpoint dict_set (d : dict) (k : string) (v : Z) : dict :=
  match d with
  | [] => [(k, v)]
  | (k', v') :: d' =>
      if String.eqb k' k then (k', v) :: d' else (k', v') :: dict_set d' k v
  end.

(** [list(d)]: the keys, in insertion order. *)
Definition keys (d : dict) : list string := map fst d.

(** [d[k]] as an expression. *)
Definition dict_lookup (d : dict) (k : string) : result Z :=
  match dict_get d k with
  | Some v => Ok v
  | None => Raise (KeyError k)
  end.

(** [a, b = zip( *d.items())]: the items are transposed into the tuple
    of keys and the tuple of values; no item gives nothing to unpack. *)
Definition unzip_items (d : dict) : result (list string * list Z) :=
  match d with
  | [] => Raise (ValueError "not enough values to unpack (expected 2, got 0)")
  | _ => Ok (map fst d, map snd d)
  end.

End Py.
Export Py.

Declare Scope py_scope.
Delimit Scope py_scope with py.
Notation "x <- m ;; k" := (bind m (fun x => k))
  (at level 61, m at next level, right associativity) : py_scope.
Notation "' pat <- m ;; k" := (bind m (fun x => match x with pat => k end))
  (at level 61, pat pattern, m at next level, right associativity) : py_scope.
Local Open Scope py_scope.

(** [[elt(x) for x in xs if cond(x)]]: for each element the condition is
    evaluated first, then the element expression; the first exception
    aborts the whole comprehension. *)
Fixpoint comprehension {A B} (cond : A -> result bool) (elt : A -> result B)
    (xs : list A) : result (list B) :=
  match xs with
  | [] => Ok []
  | x :: xs' =>
      c <- cond x ;;
      if (c : bool) then
        y <- elt x ;;
        ys <- comprehension cond elt xs' ;;
        Ok (y :: ys)
      else comprehension cond elt xs'
  end.

(* ================================================================== *)
(** * The datetime module                                              *)
(* ================================================================== *)

Module Datetime.

Definition MAXYEAR : Z := 9999.
Definition MAXORDINAL : Z := 3652059.

Definition DAYS_IN_MONTH : list Z :=
  [-1; 31; 28; 31; 30; 31; 30; 31; 31; 30; 31; 30; 31].
Definition DAYS_BEFORE_MONTH : list Z :=
  [-1; 0; 31; 59; 90; 120; 151; 181; 212; 243; 273; 304; 334].

Definition is_leap (year : Z) : bool :=
  (year mod 4 =? 0) && (negb (year mod 100 =? 0) || (year mod 400 =? 0)).

Definition days_before_year (year : Z) : Z :=
  let y := year - 1 in
  y * 365 + y / 4 - y / 100 + y / 400.

Definition days_in_month (year month : Z) : Z :=
  if (month =? 2) && is_leap year then 29
  else nth (Z.to_nat month) DAYS_IN_MONTH 0.

Definition days_before_month (year month : Z) : Z :=
  nth (Z.to_nat month) DAYS_BEFORE_MONTH 0
  + (if (month >? 2) && is_leap year then 1 else 0).

Definition ymd2ord (year month day : Z) : Z :=
  days_before_year year + days_before_month year month + day.

Definition DI400Y : Z := days_before_year 401.
Definition DI100Y : Z := days_before_year 101.
Definition DI4Y : Z := days_before_year 5.

Definition ord2ymd (n : Z) : Z * Z * Z :=
  let n := n - 1 in
  let n400 := n / DI400Y in
  let n := n mod DI400Y in
  let year := n400 * 400 + 1 in
  let n100 := n / DI100Y in
  let n := n mod DI100Y in
  let n4 := n / DI4Y in
  let n := n mod DI4Y in
  let n1 := n / 365 in
  let n := n mod 365 in
  let year := year + n100 * 100 + n4 * 4 + n1 in
  if (n1 =? 4) || (n100 =? 4) then (year - 1, 12, 31)
  else
    let leapyear := (n1 =? 3) && (negb (n4 =? 24) || (n100 =? 3)) in
    let month := Z.shiftr (n + 50) 5 in
    let preceding :=
      nth (Z.to_nat month) DAYS_BEFORE_MONTH 0
      + (if (month >? 2) && leapyear then 1 else 0) in
    if preceding >? n then
      let month := month - 1 in
      let preceding :=
        preceding
        - (nth (Z.to_nat month) DAYS_IN_MONTH 0
           + (if (month =? 2) && leapyear then 1 else 0)) in
      (year, month, n - preceding + 1)
    else (year, month, n - preceding + 1).

(** A naive [datetime] object. *)
Record datetime : Type := mkDatetime {
  year : Z; month : Z; day : Z;
  hour : Z; minute : Z; second : Z; microsecond : Z
}.

(** [datetime(year, month, day)], with the range checks of the
    constructor; the time of day defaults to midnight. *)
Definition make_date (y m d : Z) : result datetime :=
  if negb ((1 <=? y) && (y <=? MAXYEAR)) then
    Raise (ValueError "year is out of range")
  else if negb ((1 <=? m) && (m <=? 12)) then
    Raise (ValueError "month must be in 1..12")
  else if negb ((1 <=? d) && (d <=? days_in_month y m)) then
    Raise (ValueError "day is out of range for month")
  else Ok (mkDatetime y m d 0 0 0 0).

Definition toordinal (t : datetime) : Z :=
  ymd2ord (year t) (month t) (day t).

(** Monday is 0, Sunday is 6. *)
Definition weekday (t : datetime) : Z := (toordinal t + 6) mod 7.

(** [t + timedelta(days=n)] ([t - timedelta(days=k)] is the case
    [n = -k]): a whole number of days leaves the time of day as it is. *)
Definition add_days (t : datetime) (n : Z) : result datetime :=
  let days := toordinal t + n in
  if (0 <? days) && (days <=? MAXORDINAL) then
    let '(y, m, d) := ord2ymd days in
    Ok (mkDatetime y m d (hour t) (minute t) (second t) (microsecond t))
  else Raise (OverflowError "date value out of range").

Definition fields (t : datetime) : list Z :=
  [year t; month t; day t; hour t; minute t; second t; microsecond t].

(** Tuples of integers compare lexicographically. *)
Fixpoint tuple_le (a b : list Z) : bool :=
  match a, b with
  | [], _ => true
  | _ :: _, [] => false
  | x :: a', y :: b' =>
      if x <? y then true else if y <? x then false else tuple_le a' b'
  end.

(** [a <= b] on naive datetimes. *)
Definition le (a b : datetime) : bool := tuple_le (fields a) (fields b).

(** ** [strptime] and [isoformat]

    [_strptime] turns a format into a regular expression, matches it at
    the start of the text, rejects a match that does not reach the end of
    the text, converts the named groups with [int] and builds the date.
    The directives below are the ones the program uses, with the
    regular expression of each:
    - [%Y]: four digits;
    - [%m]: [1[0-2]|0[1-9]|[1-9]];
    - [%d]: [3[01]|[12]\d|0[1-9]|[1-9]| [1-9]];
    any other character of these formats matches itself.  Texts are
    sequences of 8-bit characters, so that [\d] is an ASCII digit. *)

Inductive directive : Type :=
| DirY
| Dirm
| Dird
| Lit (c : ascii).

Definition code (c : ascii) : Z := Z.of_N (N_of_ascii c).

Definition between (lo hi : ascii) (c : ascii) : bool :=
  (code lo <=? code c) && (code c <=? code hi).

Definition is_digit : ascii -> bool := between "0" "9".

Definition is_char (x : ascii) (c : ascii) : bool := Ascii.eqb x c.

Definition digit_val (c : ascii) : Z := code c - 48.

(** [int(group)] on the text of a group: digits, after an optional
    leading blank. *)
Definition group_int (g : list ascii) : Z :=
  fold_left (fun acc c => if is_digit c then 10 * acc + digit_val c else acc)
            g 0.

(** One branch of an alternation, of one, two or four character
    classes: the matched text and the rest, or no match. *)
Definition one (p : ascii -> bool) (s : list ascii)
    : list (list ascii * list ascii) :=
  match s with
  | c :: r => if p c then [([c], r)] else []
  | _ => []
  end.

Definition two (p1 p2 : ascii -> bool) (s : list ascii)
    : list (list ascii * list ascii) :=
  match s with
  | c1 :: c2 :: r => if p1 c1 && p2 c2 then [([c1; c2], r)] else []
  | _ => []
  end.

Definition four (p : ascii -> bool) (s : list ascii)
    : list (list ascii * list ascii) :=
  match s with
  | c1 :: c2 :: c3 :: c4 :: r =>
      if p c1 && p c2 && p c3 && p c4 then [([c1; c2; c3; c4], r)] else []
  | _ => []
  end.

(** The ways a directive matches at the start of [s], in the order the
    backtracking matcher tries them. *)
Definition alternatives (d : directive) (s : list ascii)
    : list (list ascii * list ascii) :=
  match d with
  | DirY => four is_digit s
  | Dirm =>
      two (is_char "1") (between "0" "2") s
      ++ two (is_char "0") (between "1" "9") s
      ++ one (between "1" "9") s
  | Dird =>
      two (is_char "3") (between "0" "1") s
      ++ two (between "1" "2") is_digit s
      ++ two (is_char "0") (between "1" "9") s
      ++ one (between "1" "9") s
      ++ two (is_char " ") (between "1" "9") s
  | Lit c => one (is_char c) s
  end.

(** The named groups of a match. *)
Record groups : Type := mkGroups {
  group_Y : option Z; group_m : option Z; group_d : option Z
}.

Definition no_groups : groups := mkGroups None None None.

Definition set_group (d : directive) (text : list ascii) (g : groups)
    : groups :=
  match d with
  | DirY => mkGroups (Some (group_int text)) (group_m g) (group_d g)
  | Dirm => mkGroups (group_Y g) (Some (group_int text)) (group_d g)
  | Dird => mkGroups (group_Y g) (group_m g) (Some (group_int text))
  | Lit _ => g
  end.

(** All matches of the format at the start of [s], first match first:
    each with its groups and the unmatched rest. *)
Fixpoint re_match (format : list directive) (s : list ascii) (g : groups)
    : list (groups * list ascii) :=
  match format with
  | [] => [(g, s)]
  | d :: format' =>
      flat_map (fun '(text, rest) => re_match format' rest (set_group d text g))
               (alternatives d s)
  end.

Definition default (x : option Z) (d : Z) : Z :=
  match x with Some v => v | None => d end.

(** [datetime.strptime(data_string, format)].  Every failure is a
    [ValueError]; the messages are shortened, as no caller reads them. *)
Definition strptime (data_string : string) (format : list directive)
    : result datetime :=
  match re_match format (list_ascii_of_string data_string) no_groups with
  | [] => Raise (ValueError "time data does not match format")
  | (g, rest) :: _ =>
      match rest with
      | _ :: _ => Raise (ValueError "unconverted data remains")
      | [] =>
          let month := default (group_m g) 1 in
          let day := default (group_d g) 1 in
          let year :=
            match group_Y g with
            | Some y => y
            | None => if (month =? 2) && (day =? 29) then 1904 else 1900
            end in
          make_date year month day
      end
  end.

Definition digit_char (k : Z) : ascii := ascii_of_N (Z.to_N (48 + k)).

(** The decimal digits of [n], zero-padded to [width] characters. *)
Fixpoint zfill (width : nat) (n : Z) : list ascii :=
  match width with
  | O => []
  | S w => zfill w (n / 10) ++ [digit_char (n mod 10)]
  end.

(** [t.date().isoformat()], the text ['%04d-%02d-%02d' % (year, month,
    day)]: the date in the shape [YYYY-MM-DD]. *)
Definition isoformat (t : datetime) : string :=
  string_of_list_ascii
    (zfill 4 (year t) ++ ["-"%char] ++ zfill 2 (month t) ++ ["-"%char]
     ++ zfill 2 (day t)).

End Datetime.

(* ================================================================== *)
(** * Double precision                                                 *)
(* ================================================================== *)

Module Float64.

(** The position of the leading bit of the positive rational [a / b]:
    the [l] with [2 ^ l <= a / b < 2 ^ (l + 1)]. *)
Definition ilog2 (a b : Z) : Z :=
  let k := Z.log2 a - Z.log2 b in
  if (if 0 <=? k then b * 2 ^ k <=? a else b <=? a * 2 ^ (- k)) then k else k - 1.

(** The integer nearest to [num / den], the even one of two nearest. *)
Definition round_even (num den : Z) : Z :=
  let q := num / den in
  let r := num mod den in
  if 2 * r <? den then q
  else if den <? 2 * r then q + 1
  else if Z.even q then q else q + 1.

(** [a / b], for positive [a] and [b], rounded to 53 significant bits. *)
Definition round_pos (a b : Z) : Q :=
  let e := ilog2 a b - 52 in
  if 0 <=? e then inject_Z (round_even a (b * 2 ^ e) * 2 ^ e)
  else Qred (Qmake (round_even (a * 2 ^ (- e)) b) (Z.to_pos (2 ^ (- e)))).

(** The double nearest to [q], as a fraction in lowest terms. *)
Definition round (q : Q) : Q :=
  let c := Qred q in
  match Qnum c with
  | Z0 => 0%Q
  | Zpos a => round_pos (Zpos a) (Zpos (Qden c))
  | Zneg a => Qopp (round_pos (Zpos a) (Zpos (Qden c)))
  end.

(** The conversion of an integer, and the two operations of the
    reductions: each is the exact result, rounded. *)
Definition of_int (z : Z) : Q := round (inject_Z z).

Definition add (x y : Q) : Q := round (x + y).

Definition div (x y : Q) : Q := round (x / y).

End Float64.

(* ================================================================== *)
(** * The numpy reductions                                             *)
(* ================================================================== *)

Module Numpy.

(** ** The sum of [np.mean]

    [np.mean] adds the elements as doubles ([umr_sum] with
    [dtype=float64]): the integers are converted in buffers of
    [BUFSIZE] elements, and each buffer is added to the result by the
    pairwise summation of the [add] loop, which adds fewer than 8
    elements one after the other, up to [PW_BLOCKSIZE] elements with
    eight accumulators, and more by halves. *)

Definition PW_BLOCKSIZE : nat := 128.

Definition BUFSIZE : nat := Z.to_nat 8192.

(** [for x in a: acc += x] *)
Definition add_all (acc : Q) (a : list Q) : Q := fold_left Float64.add a acc.

(** [r[j] += a[j]] for each accumulator. *)
Fixpoint add_each (r a : list Q) : list Q :=
  match r, a with
  | x :: r', y :: a' => Float64.add x y :: add_each r' a'
  | _, _ => r
  end.

(** The unrolled loop: [groups] times eight elements onto the eight
    accumulators; what is left of the array is returned too. *)
Fixpoint unrolled (groups : nat) (r a : list Q) : list Q * list Q :=
  match groups with
  | O => (r, a)
  | S g => unrolled g (add_each r (firstn 8 a)) (skipn 8 a)
  end.

(** A block of 8 to [PW_BLOCKSIZE] elements. *)
Definition block_sum (a : list Q) : Q :=
  let '(r, rest) := unrolled (List.length a / 8 - 1) (firstn 8 a) (skipn 8 a) in
  match r with
  | [r0; r1; r2; r3; r4; r5; r6; r7] =>
      add_all (Float64.add (Float64.add (Float64.add r0 r1) (Float64.add r2 r3))
                           (Float64.add (Float64.add r4 r5) (Float64.add r6 r7)))
              rest
  | _ => add_all 0%Q a
  end.

(** The pairwise sum; [fuel] bounds the depth of the recursion, and the
    length of the array is enough of it. *)
Fixpoint pairwise_sum (fuel : nat) (a : list Q) : Q :=
  match fuel with
  | O => add_all 0%Q a
  | S f =>
      let n := List.length a in
      if (n <? 8)%nat then add_all 0%Q a
      else if (n <=? PW_BLOCKSIZE)%nat then block_sum a
      else
        let n2 := (n / 2 - (n / 2) mod 8)%nat in
        Float64.add (pairwise_sum f (firstn n2 a)) (pairwise_sum f (skipn n2 a))
  end.

(** The reduction, buffer after buffer. *)
Fixpoint add_reduce (fuel : nat) (acc : Q) (a : list Q) : Q :=
  match fuel, a with
  | S f, _ :: _ =>
      let chunk := firstn BUFSIZE a in
      add_reduce f (Float64.add acc (pairwise_sum (List.length chunk) chunk))
                 (skipn BUFSIZE a)
  | _, _ => acc
  end.

Definition sum_float64 (xs : list Z) : Q :=
  let a := map Float64.of_int xs in
  add_reduce (List.length a) 0%Q a.

(** [np.mean(xs)]: the sum as a double, divided by the number of
    elements; [nan] on an empty list. *)
Definition mean (xs : list Z) : pyval :=
  match xs with
  | [] => PyNaN
  | _ =>
      PyFloat (Float64.div (sum_float64 xs)
                           (Float64.of_int (Z.of_nat (List.length xs))))
  end.

(** [np.max(xs)] and [np.min(xs)]: an empty list has no maximum. *)
Definition max (xs : list Z) : result Z :=
  match xs with
  | [] => Raise (ValueError "zero-size array to reduction operation maximum which has no identity")
  | x :: xs' => Ok (fold_left Z.max xs' x)
  end.

Definition min (xs : list Z) : result Z :=
  match xs with
  | [] => Raise (ValueError "zero-size array to reduction operation minimum which has no identity")
  | x :: xs' => Ok (fold_left Z.min xs' x)
  end.

Fixpoint insert (x : Z) (l : list Z) : list Z :=
  match l with
  | [] => [x]
  | y :: l' => if x <=? y then x :: l else y :: insert x l'
  end.

Definition sort (xs : list Z) : list Z := fold_right insert [] xs.

(** [np.median(xs)]: [np.mean] of the middle element of the sorted data,
    or of the two middle elements when the length is even. *)
Definition median (xs : list Z) : pyval :=
  match xs with
  | [] => PyNaN
  | _ =>
      let s := sort xs in
      let n := List.length s in
      let h := Nat.div n 2 in
      if Nat.even n then mean [nth (h - 1)%nat s 0; nth h s 0]
      else mean [nth h s 0]
  end.

End Numpy.

(* ================================================================== *)
(** * The report functions of app.py                                   *)
(* ================================================================== *)

Import Datetime.

(** What a report function shows: a printed line, a printed line that
    interpolates a number, or the data handed to a plot ([plt.hist],
    [plt.boxplot], [plt.bar]; the calls that only decorate a figure are
    left out). *)
Inductive event : Type :=
| Print (line : string)
| PrintValue (before : string) (v : pyval) (after : string)
| Hist (xs : list Z)
| Boxplot (xs : list Z)
| Bar (keys : list string) (heights : list Z).

Definition nl : string := String (ascii_of_nat 10) EmptyString.

(** The first line of every report: a blank line, then the title between
    angle brackets. *)
Definition banner (title : string) : event :=
  Print (nl ++ "<<<< " ++ title ++ " >>>>").

(** The lines printed when no sale matches the requested key. *)
Definition no_branch_data (branch_id : string) : event :=
  Print ("No sales information is present for Branch ID" ++ branch_id ++ ".").

Definition no_product_data (product_id : string) : event :=
  Print ("No sales information is present for Product ID " ++ product_id ++ ".").

(** The formats of [parse_date], in the order of its tuple:
    ['%Y-%m-%d'] and ['%m/%d/%Y']. *)
Definition FMT_Y_m_d : list directive := [DirY; Lit "-"; Dirm; Lit "-"; Dird].
Definition FMT_m_d_Y : list directive := [Dirm; Lit "/"; Dird; Lit "/"; DirY].
Definition DATE_FORMATS : list (list directive) := [FMT_Y_m_d; FMT_m_d_Y].

(** The message of the [ValueError] that [parse_date] raises. *)
Definition not_recognized (date_str : string) : string :=
  "Date format '" ++ date_str ++ "' is not recognized".

(** The loop of [parse_date] over the formats still to try. *)
Fixpoint parse_date_from (formats : list (list directive)) (date_str : string)
    : result datetime :=
  match formats with
  | [] => Raise (ValueError (not_recognized date_str))
  | fmt :: formats' =>
      except_ValueError (strptime date_str fmt)
                        (parse_date_from formats' date_str)
  end.

Definition parse_date (date_str : string) : result datetime :=
  parse_date_from DATE_FORMATS date_str.

(** Lines 182-185 of [analyze_price]: mean, maximum, minimum, median. *)
Definition price_statistics (product_sales : list Z)
    : result (pyval * Z * Z * pyval) :=
  let average_price := Numpy.mean product_sales in
  max_price <- Numpy.max product_sales ;;
  min_price <- Numpy.min product_sales ;;
  let median_price := Numpy.median product_sales in
  Ok (average_price, max_price, min_price, median_price).

Section Reports.

(** The builtin [int] on a string. *)
Variable py_int : string -> result Z.

(** [int(sale[2])] *)
Definition amount_of (sale : list string) : result Z :=
  a <- index sale 2 ;; py_int a.

(** [sale[i] == key] *)
Definition field_is (i : nat) (key : string) (sale : list string)
    : result bool :=
  x <- index sale i ;; Ok (String.eqb x key).

Definition analyze_monthly_sales (branch_id : string)
    (sales_data : list (list string)) : result (list event) :=
  let header := banner ("Monthly Sales Analysis for Branch " ++ branch_id) in
  branch_sales <- comprehension (field_is 0 branch_id) amount_of sales_data ;;
  match branch_sales with
  | [] =>
      Ok [header; no_branch_data branch_id]
  | _ => Ok [header; Hist branch_sales]
  end.

Definition analyze_price (product_id : string)
    (sales_data : list (list string)) : result (list event) :=
  let header := banner ("Product Price Analysis for Product " ++ product_id) in
  product_sales <- comprehension (field_is 1 product_id) amount_of sales_data ;;
  match product_sales with
  | [] =>
      Ok [header; no_product_data product_id]
  | _ =>
      '(average_price, max_price, min_price, median_price) <-
        price_statistics product_sales ;;
      Ok [header;
          PrintValue "Average Price: " average_price " LKR";
          PrintValue "Maximum Price: " (PyInt max_price) " LKR";
          PrintValue "Minimum Price: " (PyInt min_price) " LKR";
          PrintValue "Median Price: " median_price " LKR";
          Boxplot product_sales]
  end.

(** The first two assignments of [analyze_weekly_sales], for a given
    value of [datetime.today()]. *)
Definition week_window (current_date : datetime)
    : result (datetime * datetime) :=
  week_start <- add_days current_date (- weekday current_date) ;;
  week_end <- add_days week_start 6 ;;
  Ok (week_start, week_end).

(** [week_start <= parse_date(sale[3]) <= week_end] *)
Definition in_week (week_start week_end : datetime) (sale : list string)
    : result bool :=
  s <- index sale 3 ;;
  d <- parse_date s ;;
  Ok (le week_start d && le d week_end).

(** The comprehension of lines 218-219. *)
Definition weekly_sales (week_start week_end : datetime)
    (sales_data : list (list string)) : result (list Z) :=
  comprehension (in_week week_start week_end) amount_of sales_data.

Definition analyze_weekly_sales (current_date : datetime)
    (sales_data : list (list string)) : result (list event) :=
  let header := banner "Weekly Sales Analysis for the Supermarket Network" in
  '(week_start, week_end) <- week_window current_date ;;
  weekly <- weekly_sales week_start week_end sales_data ;;
  let total_sales := sum weekly in
  let average_sales :=
    match weekly with
    | [] => PyInt 0
    | _ => Numpy.mean weekly
    end in
  Ok [header;
      PrintValue "Weekly Sales Total: " (PyInt total_sales) " LKR";
      PrintValue "Average Sales per Day: " average_sales " LKR"].

Definition analyze_total_sales_amount (sales_data : list (list string))
    : result (list event) :=
  let header := banner "Total Sales Revenue Analysis" in
  amounts <- comprehension (fun _ => Ok true) amount_of sales_data ;;
  let total_sales := sum amounts in
  Ok [header; PrintValue "Overall Sales Revenue: " (PyInt total_sales) " LKR"].

(** [{branch[0]: 0 for branch in branch_data}] *)
Fixpoint seed_summary (branch_data : list (list string)) (d : dict)
    : result dict :=
  match branch_data with
  | [] => Ok d
  | branch :: rest =>
      k <- index branch 0 ;;
      seed_summary rest (dict_set d k 0)
  end.

(** The loop over the sales: the entry of the dictionary is read before
    the amount is converted, and written back after the addition. *)
Fixpoint add_sales (sales_data : list (list string)) (d : dict)
    : result dict :=
  match sales_data with
  | [] => Ok d
  | sale :: rest =>
      branch_id <- index sale 0 ;;
      old <- dict_lookup d branch_id ;;
      a <- amount_of sale ;;
      add_sales rest (dict_set d branch_id (old + a))
  end.

(** The summary dictionary as it stands after the loop. *)
Definition monthly_sales_summary (sales_data branch_data : list (list string))
    : result dict :=
  d <- seed_summary branch_data [] ;;
  add_sales sales_data d.

Definition analyze_all_branches_monthly_sales
    (sales_data branch_data : list (list string)) : result (list event) :=
  let header := banner "Monthly Sales Analysis for All Branches" in
  summary <- monthly_sales_summary sales_data branch_data ;;
  '(branch_ids, sales_amounts) <- unzip_items summary ;;
  Ok [header; Bar branch_ids sales_amounts].

End Reports.

(** [int] restricted to the plain decimal literals, non-empty runs of
    ASCII digits (the builtin also accepts a sign, blanks around the
    number and underscores between digits, and its message quotes the
    text): the instance at which the reports are run on the small store
    below, whose amounts are plain literals.  The theorems are stated
    for every [py_int]. *)
Definition int_decimal (s : string) : result Z :=
  match list_ascii_of_string s with
  | [] => Raise (ValueError "invalid literal for int() with base 10")
  | cs =>
      if forallb is_digit cs then Ok (group_int cs)
      else Raise (ValueError "invalid literal for int() with base 10")
  end.

(* ================================================================== *)
(** * The data model of the specification                              *)
(* ================================================================== *)

Record SaleRecord : Type := mkSale {
  sale_branch : string;
  sale_product : string;
  sale_amount : Z;
  sale_date : string
}.

Record Branch : Type := mkBranch {
  branch_key : string;
  branch_name : string;
  branch_location : string
}.

(** A stored row holds a sale: the four fields are where the program reads
    them, and [int] converts the third to the amount. *)
Definition sale_row (py_int : string -> result Z) (row : list string)
    (s : SaleRecord) : Prop :=
  index row 0 = Ok (sale_branch s)
  /\ index row 1 = Ok (sale_product s)
  /\ amount_of py_int row = Ok (sale_amount s)
  /\ index row 3 = Ok (sale_date s).

Definition branch_row (row : list string) (b : Branch) : Prop :=
  index row 0 = Ok (branch_key b)
  /\ index row 1 = Ok (branch_name b)
  /\ index row 2 = Ok (branch_location b).

(** A snapshot of the sale log, and of the branch table, as stored. *)
Definition sales_snapshot (py_int : string -> result Z)
    (rows : list (list string)) (sales : list SaleRecord) : Prop :=
  Forall2 (sale_row py_int) rows sales.

Definition branches_snapshot (rows : list (list string))
    (branches : list Branch) : Prop :=
  Forall2 branch_row rows branches.

(** The sum of a list of amounts, and the amounts of the sales selected by
    a test, in the order of the log. *)
Definition total (xs : list Z) : Z := fold_right Z.add 0 xs.

Definition amounts_where (p : SaleRecord -> bool) (sales : list SaleRecord)
    : list Z :=
  map sale_amount (filter p sales).

Definition of_branch (branch_id : string) (s : SaleRecord) : bool :=
  String.eqb (sale_branch s) branch_id.

Definition of_product (product_id : string) (s : SaleRecord) : bool :=
  String.eqb (sale_product s) product_id.

(** The date of the sale parses to a moment of the closed interval. *)
Definition dated_within (week_start week_end : datetime) (s : SaleRecord)
    : bool :=
  match parse_date (sale_date s) with
  | Ok d => le week_start d && le d week_end
  | Raise _ => false
  end.

Definition date_parses (s : SaleRecord) : Prop :=
  exists d, parse_date (sale_date s) = Ok d.

(** The sum of the absolute values. *)
Definition abs_total (xs : list Z) : Z :=
  fold_right (fun x s => Z.abs x + s) 0 xs.

(** The arithmetic mean of [xs], exactly. *)
Definition exact_mean (xs : list Z) : Q :=
  Qmake (total xs) (Pos.of_nat (List.length xs)).

(** [v] is [q] up to a relative error of [2 ^ -53], half a unit in the
    last place of a double. *)
Definition close (v q : Q) : Prop :=
  (Qabs (v - q) * inject_Z (2 ^ 53) <= Qabs q)%Q.

(** [q] is the arithmetic mean of the non-empty list [xs] in double
    precision. *)
Definition is_double_mean (q : Q) (xs : list Z) : Prop :=
  q = Float64.round (exact_mean xs) /\ close q (exact_mean xs).

(** [q] is the conventional median of [xs]: with [xs] sorted into [s], the
    middle element, or half the sum of the two middle elements. *)
Definition is_median (q : Q) (xs : list Z) : Prop :=
  exists s, Permutation s xs /\ StronglySorted Z.le s /\
    let h := Nat.div (List.length s) 2 in
    if Nat.even (List.length s) then
      (q * 2 == inject_Z (nth (h - 1)%nat s 0%Z + nth h s 0%Z))%Q
    else (q == inject_Z (nth h s 0%Z))%Q.

(** A text of the shape [YYYY-MM-DD], ten characters, that names a day of
    the calendar. *)
Definition valid_iso_date (s : string) : bool :=
  match list_ascii_of_string s with
  | [y1; y2; y3; y4; h1; m1; m2; h2; d1; d2] =>
      forallb is_digit [y1; y2; y3; y4; m1; m2; d1; d2]
      && is_char "-" h1 && is_char "-" h2
      && (let y := group_int [y1; y2; y3; y4] in
          let m := group_int [m1; m2] in
          let d := group_int [d1; d2] in
          (1 <=? y) && (1 <=? m) && (m <=? 12)
          && (1 <=? d) && (d <=? days_in_month y m))
  | _ => false
  end.

(** ** A small store

    Four sales of two branches, in both date formats, the branch tables
    with both branches and with the first one only, and a Wednesday
    morning as current date. *)

Definition demo_sales : list SaleRecord :=
  [mkSale "1" "1" 100 "2024-01-05";
   mkSale "1" "2" 50 "01/06/2024";
   mkSale "2" "1" 7 "2024-01-01";
   mkSale "2" "1" 9 "2023-12-31"].

Definition demo_rows : list (list string) :=
  [["1"; "1"; "100"; "2024-01-05"];
   ["1"; "2"; "50"; "01/06/2024"];
   ["2"; "1"; "7"; "2024-01-01"];
   ["2"; "1"; "9"; "2023-12-31"]].

Definition demo_branches : list Branch :=
  [mkBranch "1" "A" "X"; mkBranch "2" "B" "Y"].

Definition demo_branch_rows : list (list string) :=
  [["1"; "A"; "X"]; ["2"; "B"; "Y"]].

Definition first_branch : list Branch := [mkBranch "1" "A" "X"].

Definition first_branch_rows : list (list string) := [["1"; "A"; "X"]].

(** A log whose second record has a date in neither format. *)
Definition dotted_sales : list SaleRecord :=
  [mkSale "1" "1" 100 "2024-01-05"; mkSale "1" "2" 50 "2024.01.06"].

Definition dotted_rows : list (list string) :=
  [["1"; "1"; "100"; "2024-01-05"]; ["1"; "2"; "50"; "2024.01.06"]].

(** Wednesday 3 January 2024, 10:30. *)
Definition wednesday : datetime := mkDatetime 2024 1 3 10 30 0 0.

(* ================================================================== *)
(** * Files, loaders, commands and start-up                            *)
(* ================================================================== *)

(** The file system is the set of CSV files of the working directory.  A
    file is held as the rows that [csv.reader] yields from it, header row
    included; [csv.writer] appends rows to it.  (The text of a row, its
    quoting and its line ends, is the business of the [csv] module.)  A
    file that is there ends with a line end, as every file that the
    program writes does, so that appended rows start a new line. *)

Definition table : Type := list (list string).

Definition files : Type := string -> option table.

(** The exceptions of the file layer, beside those of the reports. *)
Inductive io_exn : Type :=
| Builtin (e : exn)
| FileNotFoundError (file_name : string)
| StopIteration.

(** A run ends with a value or with an exception, and with the files as
    it leaves them. *)
Inductive outcome (A : Type) : Type :=
| Done (a : A) (fs : files)
| Fail (e : io_exn) (fs : files).
Arguments Done {A} a fs.
Arguments Fail {A} e fs.

Definition IO (A : Type) : Type := files -> outcome A.

Definition io_ret {A} (a : A) : IO A := fun fs => Done a fs.

Definition io_bind {A B} (m : IO A) (k : A -> IO B) : IO B :=
  fun fs =>
    match m fs with
    | Done a fs' => k a fs'
    | Fail e fs' => Fail e fs'
    end.

Definition io_raise {A} (e : io_exn) : IO A := fun fs => Fail e fs.

(** A computation that touches no file. *)
Definition lift {A} (r : result A) : IO A :=
  match r with
  | Ok a => io_ret a
  | Raise e => io_raise (Builtin e)
  end.

Declare Scope io_scope.
Delimit Scope io_scope with io.
Notation "x <- m ;; k" := (io_bind m (fun x => k))
  (at level 61, m at next level, right associativity) : io_scope.
Notation "m ;;; k" := (io_bind m (fun _ => k))
  (at level 61, right associativity) : io_scope.

(** [os.path.exists(name)] *)
Definition path_exists (name : string) : IO bool :=
  fun fs => Done (match fs name with Some _ => true | None => false end) fs.

(** [os.remove(name)] *)
Definition os_remove (name : string) : IO unit :=
  fun fs =>
    match fs name with
    | Some _ => Done tt (fun n => if String.eqb n name then None else fs n)
    | None => Fail (FileNotFoundError name) fs
    end.

(** [open(name, mode='r')] and a [csv.reader] over it: all the rows. *)
Definition read_rows (name : string) : IO table :=
  fun fs =>
    match fs name with
    | Some rows => Done rows fs
    | None => Fail (FileNotFoundError name) fs
    end.

(** Rows written through a [csv.writer] over [open(name, mode='a')]:
    appended to the file, which is created when it is not there.  The
    rows are appended as a reader yields them later, which is as they are
    written for every field but one that holds a carriage return:
    [save_data] writes with [newline=''] and the readers open the file
    with universal newlines, so that a carriage return inside a field
    comes back as a line feed.  That translation is left out here; the
    statements about rows read after they were written are for fields
    without a carriage return ([plain_rows]). *)
Definition append_rows (name : string) (rows : table) : IO unit :=
  fun fs =>
    let old := match fs name with Some t => t | None => [] end in
    Done tt (fun n => if String.eqb n name then Some (old ++ rows)%list else fs n).

Definition USER_DATA_FILE : string := "users.csv".
Definition BRANCH_DATA_FILE : string := "branches.csv".
Definition PRODUCT_DATA_FILE : string := "products.csv".
Definition SALES_DATA_FILE : string := "sales.csv".

(** [l] starts with [p]. *)
Fixpoint starts_with (p l : list ascii) : bool :=
  match p, l with
  | [], _ => true
  | _ :: _, [] => false
  | a :: p', b :: l' => Ascii.eqb a b && starts_with p' l'
  end.

(** [s.endswith(suffix)] *)
Definition endswith (s suffix : string) : bool :=
  starts_with (rev (list_ascii_of_string suffix)) (rev (list_ascii_of_string s)).

(** A loader remembers the name of its file. *)
Record CSVDataLoader : Type := mkCSVDataLoader { file_name : string }.

(** [DataLoaderCreator.create_loader] *)
Definition create_loader (file_name : string) : result CSVDataLoader :=
  if endswith file_name "users.csv" then Ok (mkCSVDataLoader file_name)
  else if endswith file_name "branches.csv" then Ok (mkCSVDataLoader file_name)
  else if endswith file_name "products.csv" then Ok (mkCSVDataLoader file_name)
  else if endswith file_name "sales.csv" then Ok (mkCSVDataLoader file_name)
  else Raise (ValueError "Unsupported file type").

Local Open Scope io_scope.

(** [CSVDataLoader.load_data]: [next(reader)] skips the header row, and
    raises [StopIteration] when the file has no row at all. *)
Definition CSVDataLoader_load_data (self : CSVDataLoader) : IO table :=
  present <- path_exists (file_name self) ;;
  if (present : bool) then
    rows <- read_rows (file_name self) ;;
    match rows with
    | [] => io_raise StopIteration
    | _ :: data => io_ret data
    end
  else io_ret [].

Definition load_data (file_name : string) : IO table :=
  loader <- lift (create_loader file_name) ;;
  CSVDataLoader_load_data loader.

(** The truth value of the [headers] argument: [None] and the empty list
    are false. *)
Definition truthy (headers : option (list string)) : bool :=
  match headers with
  | Some (_ :: _) => true
  | _ => false
  end.

Definition save_data (file_name : string) (data : table)
    (headers : option (list string)) : IO unit :=
  file_exists <- path_exists file_name ;;
  append_rows file_name [] ;;;
  (if negb file_exists && truthy headers
   then append_rows file_name [match headers with Some h => h | None => [] end]
   else io_ret tt) ;;;
  append_rows file_name data.

(** The loop of [login_user] over the rows of the user file, the header
    row among them. *)
Fixpoint login_rows (username password : string) (rows : table) : result bool :=
  match rows with
  | [] => Ok false
  | row :: rest =>
      (r0 <- index row 0 ;;
       if String.eqb r0 username then
         r1 <- index row 1 ;;
         if String.eqb r1 password then Ok true
         else login_rows username password rest
       else login_rows username password rest)%py
  end.

(** [login_user], with the two answers to its prompts as arguments. *)
Definition login_user (username password : string) : IO (list event * bool) :=
  rows <- read_rows USER_DATA_FILE ;;
  found <- lift (login_rows username password rows) ;;
  io_ret ([Print "<<<< User Login >>>>"], found).

(** [RegisterBranchCommand.execute], with the three answers to its
    prompts as arguments. *)
Definition RegisterBranchCommand_execute
    (branch_id branch_name branch_location : string) : IO (list event) :=
  branches_data <- load_data BRANCH_DATA_FILE ;;
  let new_branch_entry := [branch_id; branch_name; branch_location] in
  let branches_data := (branches_data ++ [new_branch_entry])%list in
  os_remove BRANCH_DATA_FILE ;;;
  save_data BRANCH_DATA_FILE branches_data
            (Some ["Branch ID"; "Branch Name"; "Location"]) ;;;
  io_ret [Print (nl ++ "<<<< Register a New Branch >>>>");
          Print ("Branch " ++ branch_name ++ " has been successfully added.")].

Section Commands.

(** The builtin [int], and the year as [strftime] prints it for ['%Y']:
    the C library's text, four digits from year 1000 on. *)
Variable py_int : string -> result Z.
Variable year_text : Z -> list ascii.

(** [now.strftime('%Y-%m-%d')] *)
Definition strftime_Y_m_d (now : datetime) : string :=
  string_of_list_ascii
    (year_text (year now) ++ ["-"%char] ++ zfill 2 (month now) ++ ["-"%char]
     ++ zfill 2 (day now)).

(** [RecordSaleCommand.execute], with the value of [datetime.now()] and the
    three answers to its prompts as arguments. *)
Definition RecordSaleCommand_execute (now : datetime)
    (branch_id product_id amount_sold : string) : IO (list event) :=
  sales_data <- load_data SALES_DATA_FILE ;;
  let new_sale_entry :=
    [branch_id; product_id; amount_sold; strftime_Y_m_d now] in
  let sales_data := (sales_data ++ [new_sale_entry])%list in
  os_remove SALES_DATA_FILE ;;;
  save_data SALES_DATA_FILE sales_data
            (Some ["Branch ID"; "Product ID"; "Amount Sold"; "Date"]) ;;;
  io_ret [Print (nl ++ "<<<< Record a New Sale >>>>");
          Print "The sale has been successfully recorded."].

(** The analysis commands: each [execute] calls its report function, which
    loads the tables it reads. *)
Definition BranchMonthlySalesAnalysisCommand_execute (branch_id : string)
    : IO (list event) :=
  sales_data <- load_data SALES_DATA_FILE ;;
  lift (analyze_monthly_sales py_int branch_id sales_data).

Definition ProductPriceAnalysisCommand_execute (product_id : string)
    : IO (list event) :=
  sales_data <- load_data SALES_DATA_FILE ;;
  lift (analyze_price py_int product_id sales_data).

Definition NetworkWeeklySalesAnalysisCommand_execute (today : datetime)
    : IO (list event) :=
  sales_data <- load_data SALES_DATA_FILE ;;
  lift (analyze_weekly_sales py_int today sales_data).

Definition TotalSalesAnalysisCommand_execute : IO (list event) :=
  sales_data <- load_data SALES_DATA_FILE ;;
  lift (analyze_total_sales_amount py_int sales_data).

Definition AllBranchesMonthlySalesAnalysisCommand_execute : IO (list event) :=
  sales_data <- load_data SALES_DATA_FILE ;;
  branch_data <- load_data BRANCH_DATA_FILE ;;
  lift (analyze_all_branches_monthly_sales py_int sales_data branch_data).

End Commands.

(** The first block of [main]: each of the four files that is not there
    is created with its header row. *)
Definition ensure_file (name : string) (headers : list string) : IO unit :=
  present <- path_exists name ;;
  if (present : bool) then io_ret tt else save_data name [] (Some headers).

Definition main_start_up : IO unit :=
  ensure_file USER_DATA_FILE ["Username"; "Password"] ;;;
  ensure_file BRANCH_DATA_FILE ["Branch ID"; "Branch Name"; "Location"] ;;;
  ensure_file PRODUCT_DATA_FILE ["Product ID"; "Product Name"] ;;;
  ensure_file SALES_DATA_FILE ["Branch ID"; "Product ID"; "Amount Sold"; "Date"].

(** The date in the shape [MM/DD/YYYY], the text
    ['%02d/%02d/%04d' % (month, day, year)]. *)
Definition slashformat (t : datetime) : string :=
  string_of_list_ascii
    (zfill 2 (month t) ++ ["/"%char] ++ zfill 2 (day t) ++ ["/"%char]
     ++ zfill 4 (year t)).

(** No file at all, and the files of a day of trading. *)
Definition no_files : files := fun _ => None.

Definition demo_files : files :=
  fun name =>
    if String.eqb name "users.csv" then
      Some [["Username"; "Password"]; ["kusal"; "secret"]]
    else if String.eqb name "branches.csv" then
      Some (["Branch ID"; "Branch Name"; "Location"] :: demo_branch_rows)
    else if String.eqb name "sales.csv" then
      Some (["Branch ID"; "Product ID"; "Amount Sold"; "Date"] :: demo_rows)
    else None.

Local Close Scope io_scope.

(** ** The vocabulary of the properties *)

(** A name that ends with one of the four file names of the program. *)
Definition supported (name : string) : Prop :=
  exists x base,
    In base [USER_DATA_FILE; BRANCH_DATA_FILE; PRODUCT_DATA_FILE; SALES_DATA_FILE]
    /\ name = x ++ base.

(** Texts and rows without a carriage return: what the program writes of
    them, it reads back unchanged. *)
Definition no_carriage_return (s : string) : bool :=
  forallb (fun c => negb (Ascii.eqb c "013"%char)) (list_ascii_of_string s).

Definition plain_rows (rows : table) : bool :=
  forallb (forallb no_carriage_return) rows.

(** The header row that [main] writes to each of the four files. *)
Definition header_of (name : string) : list string :=
  if String.eqb name USER_DATA_FILE then ["Username"; "Password"]
  else if String.eqb name BRANCH_DATA_FILE then
    ["Branch ID"; "Branch Name"; "Location"]
  else if String.eqb name PRODUCT_DATA_FILE then ["Product ID"; "Product Name"]
  else ["Branch ID"; "Product ID"; "Amount Sold"; "Date"].

(** A day of the calendar. *)
Definition calendar_day (y m d : Z) : Prop :=
  1 <= y <= 9999 /\ 1 <= m <= 12 /\ 1 <= d <= days_in_month y m.

(** The time of day: midnight, the four fields as a tuple, and fields
    that are not negative. *)
Definition midnight (t : datetime) : Prop :=
  hour t = 0 /\ minute t = 0 /\ second t = 0 /\ microsecond t = 0.

Definition time_fields (t : datetime) : list Z :=
  [hour t; minute t; second t; microsecond t].

Definition time_of_day_valid (t : datetime) : Prop :=
  0 <= hour t /\ 0 <= minute t /\ 0 <= second t /\ 0 <= microsecond t.

Definition year_length (y : Z) : Z := if is_leap y then 366 else 365.

(** The sale is dated in the Monday-to-Sunday week of the calendar that
    holds the day of [today]. *)
Definition in_calendar_week (today : datetime) (s : SaleRecord) : bool :=
  match parse_date (sale_date s) with
  | Ok d =>
      let monday := toordinal today - weekday today in
      (monday <=? toordinal d) && (toordinal d <=? monday + 6)
  | Raise _ => false
  end.

Definition is_midnight (t : datetime) : bool :=
  (hour t =? 0) && (minute t =? 0) && (second t =? 0) && (microsecond t =? 0).

(** The sale is dated in the week of [today], from its Monday to its
    Sunday; on the Monday itself only when [today] is at midnight. *)
Definition counted_in_week (today : datetime) (s : SaleRecord) : bool :=
  match parse_date (sale_date s) with
  | Ok d =>
      let monday := toordinal today - weekday today in
      (monday <=? toordinal d) && (toordinal d <=? monday + 6)
      && (negb (toordinal d =? monday) || is_midnight today)
  | Raise _ => false
  end.

(** From year 1000 on, every C library prints the four digits of the
    year for ['%Y']. *)
Definition four_digit_years (year_text : Z -> list ascii) : Prop :=
  forall y, 1000 <= y <= 9999 -> year_text y = zfill 4 y.

(** [p] holds of the [n] integers from [i] on. *)
Fixpoint holds_from (n : nat) (i : Z) (p : Z -> bool) : bool :=
  match n with
  | O => true
  | S k => if p i then holds_from k (i + 1) p else false
  end.

Definition day_ok (y m d : Z) : bool :=
  (1 <=? m) && (m <=? 12) && (1 <=? d) && (d <=? days_in_month y m).

(** Day [r + 1] of the first 400 years: [ord2ymd] gives a day of the
    calendar, in the years 1 to 400, whose ordinal is [r + 1]. *)
Definition cycle_ok (r : Z) : bool :=
  let '(y, m, d) := ord2ymd (r + 1) in
  (ymd2ord y m d =? r + 1) && day_ok y m d && (1 <=? y) && (y <=? 400).

(** Noon of the same Wednesday. *)
Definition wednesday_noon : datetime := mkDatetime 2024 1 3 12 0 0 0.

(** The files of the day of trading, with the first branch alone in the
    branch file. *)
Definition one_branch_files : files :=
  fun name =>
    if String.eqb name "branches.csv" then
      Some (["Branch ID"; "Branch Name"; "Location"] :: first_branch_rows)
    else demo_files name.

(* ================================================================== *)
(** * Properties                                                       *)
(* ================================================================== *)

(** ** Sums and comprehensions *)

Lemma fold_left_add_total (xs : list Z) (a : Z) :
  fold_left Z.add xs a = a + total xs.
Proof.
  revert a; induction xs as [|x xs IH]; intros a; simpl.
  - lia.
  - rewrite IH. lia.
Qed.

Lemma sum_total (xs : list Z) : sum xs = total xs.
Proof. unfold sum. rewrite fold_left_add_total. lia. Qed.

(** A comprehension over stored rows computes the map of the filter over
    the records they hold, as soon as condition and element expression
    succeed on every stored row. *)
Lemma comprehension_rows {R S B} (holds : R -> S -> Prop)
    (cond : R -> result bool) (elt : R -> result B)
    (p : S -> bool) (f : S -> B) (rows : list R) (recs : list S) :
  (forall r s, holds r s -> cond r = Ok (p s)) ->
  (forall r s, holds r s -> elt r = Ok (f s)) ->
  Forall2 holds rows recs ->
  comprehension cond elt rows = Ok (map f (filter p recs)).
Proof.
  intros Hc He HF.
  induction HF as [|r s rows recs Hrs _ IH]; simpl.
  - reflexivity.
  - rewrite (Hc _ _ Hrs). simpl.
    destruct (p s); simpl.
    + rewrite (He _ _ Hrs). simpl. rewrite IH. reflexivity.
    + exact IH.
Qed.

Lemma filter_all {A} (l : list A) : filter (fun _ => true) l = l.
Proof. induction l; simpl; congruence. Qed.

(** ** Dates *)

Lemma make_date_raises y m d e :
  make_date y m d = Raise e -> exists msg, e = ValueError msg.
Proof.
  unfold make_date.
  repeat match goal with
         | |- context [if ?b then _ else _] => destruct b
         end;
    intros H; inversion H; eexists; reflexivity.
Qed.

(** [strptime] raises nothing but [ValueError]. *)
Lemma strptime_raises s fmt e :
  strptime s fmt = Raise e -> exists msg, e = ValueError msg.
Proof.
  unfold strptime.
  destruct (re_match fmt (list_ascii_of_string s) no_groups) as [|[g rest] tl].
  - intros H; inversion H; eexists; reflexivity.
  - destruct rest.
    + apply make_date_raises.
    + intros H; inversion H; eexists; reflexivity.
Qed.

Lemma parse_date_unfold date_str :
  parse_date date_str =
    match strptime date_str FMT_Y_m_d with
    | Ok t => Ok t
    | Raise _ =>
        match strptime date_str FMT_m_d_Y with
        | Ok t => Ok t
        | Raise _ => Raise (ValueError (not_recognized date_str))
        end
    end.
Proof.
  unfold parse_date, DATE_FORMATS, parse_date_from.
  destruct (strptime date_str FMT_Y_m_d) as [t|e] eqn:E1; [reflexivity | ].
  destruct (strptime_raises _ _ _ E1) as [msg ->]. simpl.
  destruct (strptime date_str FMT_m_d_Y) as [t|e] eqn:E2; [reflexivity | ].
  destruct (strptime_raises _ _ _ E2) as [msg' ->]. reflexivity.
Qed.

(** The only exception of [parse_date] is its own. *)
Lemma parse_date_raises date_str e :
  parse_date date_str = Raise e -> e = ValueError (not_recognized date_str).
Proof.
  rewrite parse_date_unfold.
  destruct (strptime date_str FMT_Y_m_d); [discriminate | ].
  destruct (strptime date_str FMT_m_d_Y); [discriminate | ].
  intros H; inversion H; reflexivity.
Qed.


(** *** Digits *)

Lemma is_digit_cases c :
  is_digit c = true ->
  In c ["0"; "1"; "2"; "3"; "4"; "5"; "6"; "7"; "8"; "9"]%char.
Proof.
  destruct c as [[] [] [] [] [] [] [] []]; intros H;
    try discriminate H; simpl; auto 12.
Qed.

Lemma digit_val_range c : is_digit c = true -> 0 <= digit_val c <= 9.
Proof.
  intros H. apply is_digit_cases in H. simpl in H.
  repeat (destruct H as [<- | H]; [vm_compute; split; discriminate | ]).
  destruct H.
Qed.

Lemma digit_char_val c : is_digit c = true -> digit_char (digit_val c) = c.
Proof.
  intros H. apply is_digit_cases in H. simpl in H.
  repeat (destruct H as [<- | H]; [reflexivity | ]).
  destruct H.
Qed.

Lemma group_int_snoc cs c :
  is_digit c = true -> group_int (cs ++ [c]) = 10 * group_int cs + digit_val c.
Proof.
  intros H. unfold group_int. rewrite fold_left_app. simpl. rewrite H.
  reflexivity.
Qed.

Lemma group_int_nonneg cs : 0 <= group_int cs.
Proof.
  induction cs as [|c cs IH] using rev_ind.
  - vm_compute. discriminate.
  - unfold group_int in *. rewrite fold_left_app. cbn [fold_left].
    destruct (is_digit c) eqn:Hc; [ | exact IH].
    pose proof (digit_val_range c Hc). lia.
Qed.

(** Printing the value of a run of digits at its own width gives the run
    back. *)
Lemma zfill_group_int cs :
  forallb is_digit cs = true -> zfill (List.length cs) (group_int cs) = cs.
Proof.
  induction cs as [|c cs IH] using rev_ind; intros H.
  - reflexivity.
  - rewrite forallb_app in H. apply andb_true_iff in H as [Hcs Hc].
    simpl in Hc. rewrite andb_true_r in Hc.
    rewrite length_app, Nat.add_1_r. simpl zfill.
    rewrite (group_int_snoc _ _ Hc).
    pose proof (digit_val_range c Hc) as Hr.
    replace ((10 * group_int cs + digit_val c) / 10) with (group_int cs)
      by (apply (Z.div_unique _ 10 _ (digit_val c)); lia).
    replace ((10 * group_int cs + digit_val c) mod 10) with (digit_val c)
      by (apply (Z.mod_unique _ 10 (group_int cs)); lia).
    rewrite (IH Hcs), (digit_char_val c Hc). reflexivity.
Qed.

(** *** The first match of a well-formed text *)

Lemma alternatives_Y y1 y2 y3 y4 rest :
  forallb is_digit [y1; y2; y3; y4] = true ->
  alternatives DirY (y1 :: y2 :: y3 :: y4 :: rest) = [([y1; y2; y3; y4], rest)].
Proof.
  cbn [forallb alternatives four]. intros H.
  destruct (is_digit y1), (is_digit y2), (is_digit y3), (is_digit y4);
    try discriminate H; reflexivity.
Qed.

Ltac digit_pairs H1 H2 :=
  apply is_digit_cases in H1; apply is_digit_cases in H2;
  cbn [In] in H1, H2;
  repeat (destruct H1 as [<- | H1]); try (destruct H1);
  repeat (destruct H2 as [<- | H2]); try (destruct H2).

Lemma alternatives_m m1 m2 rest :
  is_digit m1 = true -> is_digit m2 = true ->
  1 <= group_int [m1; m2] <= 12 ->
  exists tl, alternatives Dirm (m1 :: m2 :: rest) = ([m1; m2], rest) :: tl.
Proof.
  intros H1 H2 Hr. digit_pairs H1 H2;
    vm_compute in Hr;
    try (exfalso; destruct Hr as [Ha Hb]; (now apply Ha) || (now apply Hb));
    eexists; reflexivity.
Qed.

Lemma alternatives_d d1 d2 rest :
  is_digit d1 = true -> is_digit d2 = true ->
  1 <= group_int [d1; d2] <= 31 ->
  exists tl, alternatives Dird (d1 :: d2 :: rest) = ([d1; d2], rest) :: tl.
Proof.
  intros H1 H2 Hr. digit_pairs H1 H2;
    vm_compute in Hr;
    try (exfalso; destruct Hr as [Ha Hb]; (now apply Ha) || (now apply Hb));
    eexists; reflexivity.
Qed.

Lemma alternatives_Lit c rest :
  alternatives (Lit c) (c :: rest) = [([c], rest)].
Proof.
  cbn [alternatives one]. unfold is_char. rewrite Ascii.eqb_refl. reflexivity.
Qed.

(** The first alternative of a directive that lets the rest of the format
    match gives the first match of the whole format. *)
Lemma re_match_first d fmt s g text rest tl x :
  alternatives d s = (text, rest) :: tl ->
  (exists xs, re_match fmt rest (set_group d text g) = x :: xs) ->
  exists ys, re_match (d :: fmt) s g = x :: ys.
Proof.
  intros Ha [xs Hm]. cbn [re_match]. rewrite Ha. cbn [flat_map]. rewrite Hm.
  eexists. reflexivity.
Qed.

Lemma days_in_month_le_31 y m : 1 <= m <= 12 -> days_in_month y m <= 31.
Proof.
  intros Hm. unfold days_in_month.
  destruct ((m =? 2) && is_leap y); [lia | ].
  assert (C : m = 1 \/ m = 2 \/ m = 3 \/ m = 4 \/ m = 5 \/ m = 6 \/ m = 7
              \/ m = 8 \/ m = 9 \/ m = 10 \/ m = 11 \/ m = 12) by lia.
  repeat (destruct C as [-> | C]; [vm_compute; discriminate | ]).
  subst m. vm_compute. discriminate.
Qed.

Lemma group_int_4_le y1 y2 y3 y4 :
  forallb is_digit [y1; y2; y3; y4] = true ->
  group_int [y1; y2; y3; y4] <= 9999.
Proof.
  cbn [forallb]. rewrite !andb_true_iff. intros (H1 & H2 & H3 & H4 & _).
  change [y1; y2; y3; y4] with (((([] ++ [y1]) ++ [y2]) ++ [y3]) ++ [y4])%list.
  rewrite !group_int_snoc by assumption.
  pose proof (digit_val_range _ H1). pose proof (digit_val_range _ H2).
  pose proof (digit_val_range _ H3). pose proof (digit_val_range _ H4).
  change (group_int []) with 0. lia.
Qed.

(** C9. A text of the shape [YYYY-MM-DD] that names a day of the calendar
    parses, and formatting the parsed date back to [YYYY-MM-DD] gives the
    text back. *)
Theorem parse_date_iso_round_trip (s : string) :
  valid_iso_date s = true ->
  exists t, parse_date s = Ok t /\ isoformat t = s.
Proof.
  unfold valid_iso_date.
  destruct (list_ascii_of_string s)
    as [|y1 [|y2 [|y3 [|y4 [|h1 [|m1 [|m2 [|h2 [|d1 [|d2 [|x l]]]]]]]]]]] eqn:Hs;
    try discriminate.
  cbv zeta. rewrite !andb_true_iff, !Z.leb_le.
  intros [[[Hdig Hh1] Hh2] [[[[Hy Hm1] Hm12] Hd1] Hd]].
  apply Ascii.eqb_eq in Hh1, Hh2. subst h1 h2.
  assert (Hyd : forallb is_digit [y1; y2; y3; y4] = true).
  { cbn [forallb] in *. rewrite !andb_true_iff in *. tauto. }
  assert (Hmd : forallb is_digit [m1; m2] = true).
  { cbn [forallb] in *. rewrite !andb_true_iff in *. tauto. }
  assert (Hdd : forallb is_digit [d1; d2] = true).
  { cbn [forallb] in *. rewrite !andb_true_iff in *. tauto. }
  set (Y := group_int [y1; y2; y3; y4]) in *.
  set (M := group_int [m1; m2]) in *.
  set (D := group_int [d1; d2]) in *.
  assert (Hm1' : is_digit m1 = true /\ is_digit m2 = true).
  { cbn [forallb] in Hmd. rewrite !andb_true_iff in Hmd. tauto. }
  assert (Hd1' : is_digit d1 = true /\ is_digit d2 = true).
  { cbn [forallb] in Hdd. rewrite !andb_true_iff in Hdd. tauto. }
  pose proof (days_in_month_le_31 Y M (conj Hm1 Hm12)) as H31.
  (* the first match of the format *)
  destruct (alternatives_d d1 d2 [] (proj1 Hd1') (proj2 Hd1')
              ltac:(fold D; lia)) as [tld Had].
  destruct (alternatives_m m1 m2 ("-" :: [d1; d2])%char (proj1 Hm1') (proj2 Hm1')
              ltac:(fold M; lia)) as [tlm Ham].
  assert (Hmatch : exists ys,
    re_match FMT_Y_m_d [y1; y2; y3; y4; "-"; m1; m2; "-"; d1; d2]%char no_groups
    = (mkGroups (Some Y) (Some M) (Some D), []) :: ys).
  { unfold FMT_Y_m_d.
    eapply re_match_first; [apply alternatives_Y; exact Hyd | ].
    eapply re_match_first; [apply alternatives_Lit | ].
    eapply re_match_first; [exact Ham | ].
    eapply re_match_first; [apply alternatives_Lit | ].
    eapply re_match_first; [exact Had | ].
    eexists. reflexivity. }
  destruct Hmatch as [ys Hmatch].
  exists (mkDatetime Y M D 0 0 0 0). split.
  - rewrite parse_date_unfold. unfold strptime. rewrite Hs, Hmatch.
    cbn [group_Y group_m group_d default]. unfold make_date.
    pose proof (group_int_4_le _ _ _ _ Hyd) as HY. fold Y in HY.
    replace ((1 <=? Y) && (Y <=? MAXYEAR)) with true
      by (symmetry; apply andb_true_iff; unfold MAXYEAR; split; apply Z.leb_le; lia).
    replace ((1 <=? M) && (M <=? 12)) with true
      by (symmetry; apply andb_true_iff; split; apply Z.leb_le; lia).
    replace ((1 <=? D) && (D <=? days_in_month Y M)) with true
      by (symmetry; apply andb_true_iff; split; apply Z.leb_le; lia).
    reflexivity.
  - unfold isoformat.
    cbn [year month day].
    change 4%nat with (List.length [y1; y2; y3; y4]).
    change 2%nat with (List.length [m1; m2]) at 1.
    change 2%nat with (List.length [d1; d2]).
    unfold Y, M, D. rewrite !zfill_group_int by assumption.
    cbn [app]. rewrite <- Hs. apply string_of_list_ascii_of_string.
Qed.

(** ** Doubles *)

Lemma pow2_pos k : 0 <= k -> 0 < 2 ^ k.
Proof. intros. apply Z.pow_pos_nonneg; lia. Qed.

Lemma pow2_split j k : 0 <= k -> k <= j -> 2 ^ j = 2 ^ k * 2 ^ (j - k).
Proof. intros. rewrite <- Z.pow_add_r by lia. f_equal. lia. Qed.

Lemma pow2_double j k : 0 <= j -> j < k -> 2 * 2 ^ j <= 2 ^ k.
Proof.
  intros Hj Hk. rewrite (pow2_split k (j + 1)) by lia.
  rewrite Z.pow_add_r by lia. change (2 ^ 1) with 2.
  pose proof (pow2_pos (k - (j + 1)) ltac:(lia)). pose proof (pow2_pos j Hj). nia.
Qed.

Lemma Qden_pow2 k : 0 <= k -> Z.pos (Z.to_pos (2 ^ k)) = 2 ^ k.
Proof. intros. apply Z2Pos.id. now apply pow2_pos. Qed.

(** The nearest integer lies between the integers below and above the
    quotient, within one half of it. *)
Lemma round_even_ge num den c :
  0 < den -> c * den <= num -> c <= Float64.round_even num den.
Proof.
  intros Hd H. unfold Float64.round_even.
  assert (c <= num / den) by (apply Z.div_le_lower_bound; lia).
  destruct (2 * (num mod den) <? den); [lia | ].
  destruct (den <? 2 * (num mod den)); [lia | ].
  destruct (Z.even (num / den)); lia.
Qed.

Lemma round_even_le num den c :
  0 < den -> num <= c * den -> Float64.round_even num den <= c.
Proof.
  intros Hd H. unfold Float64.round_even.
  pose proof (Z.div_mod num den ltac:(lia)) as E.
  pose proof (Z.mod_pos_bound num den Hd) as B.
  assert (num / den <= c) by (apply Z.div_le_upper_bound; lia).
  destruct (Z.ltb_spec (2 * (num mod den)) den); [lia | ].
  assert (num / den < c) by nia.
  destruct (den <? 2 * (num mod den)); [lia | ].
  destruct (Z.even (num / den)); lia.
Qed.

Lemma round_even_exact den c : 0 < den -> Float64.round_even (c * den) den = c.
Proof.
  intros Hd. apply Z.le_antisymm.
  - apply round_even_le; lia.
  - apply round_even_ge; lia.
Qed.

Lemma round_even_half num den :
  0 < den -> 2 * Z.abs (Float64.round_even num den * den - num) <= den.
Proof.
  intros Hd. unfold Float64.round_even.
  pose proof (Z.div_mod num den ltac:(lia)) as E.
  pose proof (Z.mod_pos_bound num den Hd) as B.
  set (q := num / den) in *. set (r := num mod den) in *.
  destruct (Z.ltb_spec (2 * r) den); [nia | ].
  destruct (Z.ltb_spec den (2 * r)); [nia | ].
  destruct (Z.even q); nia.
Qed.

(** The leading bit: [2 ^ l <= a / b] for [l := ilog2 a b]. *)
Lemma ilog2_lower a b :
  0 < a -> 0 < b ->
  (0 <= Float64.ilog2 a b -> b * 2 ^ Float64.ilog2 a b <= a)
  /\ (Float64.ilog2 a b < 0 -> b <= a * 2 ^ (- Float64.ilog2 a b)).
Proof.
  intros Ha Hb. unfold Float64.ilog2. cbv zeta.
  destruct (Z.log2_spec a Ha) as [La Ua].
  destruct (Z.log2_spec b Hb) as [Lb Ub].
  pose proof (Z.log2_nonneg a) as Na. pose proof (Z.log2_nonneg b) as Nb.
  set (la := Z.log2 a) in *. set (lb := Z.log2 b) in *.
  destruct (Z.leb_spec 0 (la - lb)) as [Hk | Hk].
  - destruct (Z.leb_spec (b * 2 ^ (la - lb)) a) as [Ht | Ht].
    + split; [intros _; exact Ht | lia].
    + split.
      * intros H0.
        assert (E : 2 ^ la = 2 ^ (lb + 1) * 2 ^ (la - lb - 1))
          by (rewrite <- Z.pow_add_r by lia; f_equal; lia).
        pose proof (pow2_pos (la - lb - 1) ltac:(lia)).
        nia.
      * intros H0. assert (la = lb) as -> by lia.
        replace (- (lb - lb - 1)) with 1 by lia.
        replace (Z.succ lb) with (lb + 1) in * by lia.
        rewrite Z.pow_add_r in Ub by lia. change (2 ^ 1) with 2 in *. lia.
  - destruct (Z.leb_spec b (a * 2 ^ (- (la - lb)))) as [Ht | Ht].
    + split; [lia | intros _; exact Ht].
    + split; [lia | ]. intros _.
      replace (- (la - lb - 1)) with (lb + 1 - la) by lia.
      assert (E : 2 ^ (lb + 1) = 2 ^ la * 2 ^ (lb + 1 - la))
        by (rewrite <- Z.pow_add_r by lia; f_equal; lia).
      replace (Z.succ lb) with (lb + 1) in * by lia.
      pose proof (pow2_pos (lb + 1 - la) ltac:(lia)).
      nia.
Qed.

(** At the scale of [round_pos] the quotient has its leading bit at
    position 52. *)
Lemma ilog2_scaled a b :
  0 < a -> 0 < b ->
  let e := Float64.ilog2 a b - 52 in
  (0 <= e -> 2 ^ 52 * (b * 2 ^ e) <= a)
  /\ (e < 0 -> 2 ^ 52 * b <= a * 2 ^ (- e)).
Proof.
  intros Ha Hb e. destruct (ilog2_lower a b Ha Hb) as [H1 H2].
  set (l := Float64.ilog2 a b) in *. subst e. split.
  - intros He. specialize (H1 ltac:(lia)).
    replace l with (52 + (l - 52)) in H1 at 1 by lia.
    rewrite Z.pow_add_r in H1 by lia. lia.
  - intros He. destruct (Z.le_gt_cases 0 l) as [Hl | Hl].
    + specialize (H1 Hl).
      assert (E : 2 ^ 52 = 2 ^ l * 2 ^ (- (l - 52)))
        by (rewrite <- Z.pow_add_r by lia; f_equal; lia).
      pose proof (pow2_pos (- (l - 52)) ltac:(lia)).
      rewrite E. nia.
    + specialize (H2 Hl).
      assert (E : 2 ^ (- (l - 52)) = 2 ^ 52 * 2 ^ (- l))
        by (rewrite <- Z.pow_add_r by lia; f_equal; lia).
      rewrite E. nia.
Qed.

(** A dyadic number [z / 2 ^ k] with [z <= 2 ^ 53] below the quotient
    stays below the rounded quotient, and likewise above. *)
Lemma round_pos_ge a b z k :
  0 < a -> 0 < b -> 0 <= k -> z * b <= a * 2 ^ k -> z <= 2 ^ 53 ->
  (z # Z.to_pos (2 ^ k) <= Float64.round_pos a b)%Q.
Proof.
  intros Ha Hb Hk Hz Hz53. unfold Float64.round_pos.
  destruct (ilog2_scaled a b Ha Hb) as [S1 S2]. cbv zeta in S1, S2.
  set (e := Float64.ilog2 a b - 52) in *.
  pose proof (pow2_pos k Hk) as Pk.
  destruct (Z.leb_spec 0 e) as [He | He].
  - specialize (S1 He). pose proof (pow2_pos e He) as Pe.
    set (m := Float64.round_even a (b * 2 ^ e)).
    assert (Hm : 2 ^ 52 <= m) by (apply round_even_ge; lia).
    unfold Qle. cbn [Qnum Qden inject_Z]. rewrite Qden_pow2 by lia.
    destruct (Z.eq_dec (e + k) 0) as [E0 | E0].
    + assert (e = 0) as Ee by lia. assert (k = 0) as -> by lia.
      assert (z <= m).
      { apply round_even_ge; [lia | ]. rewrite Ee. change (2 ^ 0) with 1 in *. lia. }
      rewrite Ee. change (2 ^ 0) with 1. lia.
    + assert (2 <= 2 ^ e * 2 ^ k).
      { rewrite <- Z.pow_add_r by lia. change 2 with (2 ^ 1) at 1.
        apply Z.pow_le_mono_r; lia. }
      change (2 ^ 53) with (2 ^ 52 * 2) in Hz53. nia.
  - specialize (S2 He). set (j := - e) in *.
    pose proof (pow2_pos j ltac:(lia)) as Pj.
    set (m := Float64.round_even (a * 2 ^ j) b).
    rewrite Qred_correct.
    unfold Qle. cbn [Qnum Qden]. rewrite !Qden_pow2 by lia.
    destruct (Z.le_gt_cases k j) as [Hkj | Hkj].
    + assert (Hc : z * 2 ^ (j - k) <= m).
      { apply round_even_ge; [lia | ].
        pose proof (pow2_pos (j - k) ltac:(lia)).
        rewrite (pow2_split j k) by lia. nia. }
      rewrite (pow2_split j k) by lia. nia.
    + assert (Hm : 2 ^ 52 <= m) by (apply round_even_ge; lia).
      pose proof (pow2_double j k ltac:(lia) Hkj).
      change (2 ^ 53) with (2 ^ 52 * 2) in Hz53. nia.
Qed.

Lemma round_pos_le a b z k :
  0 < a -> 0 < b -> 0 <= k -> a * 2 ^ k <= z * b -> z <= 2 ^ 53 ->
  (Float64.round_pos a b <= z # Z.to_pos (2 ^ k))%Q.
Proof.
  intros Ha Hb Hk Hz Hz53. unfold Float64.round_pos.
  destruct (ilog2_scaled a b Ha Hb) as [S1 S2]. cbv zeta in S1, S2.
  set (e := Float64.ilog2 a b - 52) in *.
  pose proof (pow2_pos k Hk) as Pk.
  destruct (Z.leb_spec 0 e) as [He | He].
  - specialize (S1 He). pose proof (pow2_pos e He) as Pe.
    unfold Qle. cbn [Qnum Qden inject_Z]. rewrite Qden_pow2 by lia.
    destruct (Z.eq_dec (e + k) 0) as [E0 | E0].
    + assert (e = 0) as Ee by lia. assert (k = 0) as -> by lia.
      assert (Float64.round_even a (b * 2 ^ e) <= z).
      { apply round_even_le; [lia | ]. rewrite Ee. change (2 ^ 0) with 1 in *. lia. }
      rewrite Ee at 2. change (2 ^ 0) with 1. lia.
    + assert (H2 : 2 <= 2 ^ e * 2 ^ k).
      { rewrite <- Z.pow_add_r by lia. change 2 with (2 ^ 1) at 1.
        apply Z.pow_le_mono_r; lia. }
      change (2 ^ 53) with (2 ^ 52 * 2) in Hz53.
      assert (Ea : a = 2 ^ 52 * (b * 2 ^ e)) by nia.
      assert (Ez : z = 2 ^ 52 * 2 /\ 2 ^ e * 2 ^ k = 2) by nia.
      destruct Ez as [Ez E2].
      rewrite Ea, round_even_exact by lia. nia.
  - specialize (S2 He). set (j := - e) in *.
    pose proof (pow2_pos j ltac:(lia)) as Pj.
    rewrite Qred_correct.
    unfold Qle. cbn [Qnum Qden]. rewrite !Qden_pow2 by lia.
    destruct (Z.le_gt_cases k j) as [Hkj | Hkj].
    + assert (Hc : Float64.round_even (a * 2 ^ j) b <= z * 2 ^ (j - k)).
      { apply round_even_le; [lia | ].
        pose proof (pow2_pos (j - k) ltac:(lia)).
        rewrite (pow2_split j k) by lia. nia. }
      rewrite (pow2_split j k) at 2 by lia. nia.
    + pose proof (pow2_double j k ltac:(lia) Hkj) as Hd.
      change (2 ^ 53) with (2 ^ 52 * 2) in Hz53.
      assert (Ea : a * 2 ^ j = 2 ^ 52 * b) by nia.
      assert (Ez : z = 2 ^ 52 * 2 /\ 2 ^ k = 2 * 2 ^ j) by nia.
      destruct Ez as [Ez E2].
      rewrite Ea, round_even_exact by lia. nia.
Qed.

(** [round] depends on the value of the rational only, and returns a
    fraction in lowest terms. *)
Lemma round_Qeq q q' : (q == q')%Q -> Float64.round q = Float64.round q'.
Proof. intros H. unfold Float64.round. now rewrite (Qred_complete q q' H). Qed.

Lemma Qred_inject_Z z : Qred (inject_Z z) = inject_Z z.
Proof.
  apply Qcanon.Qred_identity. cbn [Qnum Qden inject_Z]. apply Z.gcd_1_r.
Qed.

Lemma round_pos_canonical a b :
  Qred (Float64.round_pos a b) = Float64.round_pos a b.
Proof.
  unfold Float64.round_pos. destruct (0 <=? Float64.ilog2 a b - 52).
  - apply Qred_inject_Z.
  - apply Qcanon.Qred_involutive.
Qed.

Lemma round_canonical q : Qred (Float64.round q) = Float64.round q.
Proof.
  unfold Float64.round. destruct (Qnum (Qred q)).
  - reflexivity.
  - apply round_pos_canonical.
  - rewrite Qred_opp. now rewrite round_pos_canonical.
Qed.

Lemma Qopp_neg z p : (- ((- z) # p))%Q = (z # p)%Q.
Proof. unfold Qopp. cbn [Qnum Qden]. now rewrite Z.opp_involutive. Qed.

(** Rounding is monotone against dyadic numbers of at most 53
    significant bits. *)
Lemma round_ge q z k :
  0 <= k -> Z.abs z <= 2 ^ 53 ->
  (z # Z.to_pos (2 ^ k) <= q)%Q -> (z # Z.to_pos (2 ^ k) <= Float64.round q)%Q.
Proof.
  intros Hk Hz Hq. rewrite <- (Qred_correct q) in Hq. unfold Float64.round.
  destruct (Qred q) as [n d]. cbn [Qnum Qden].
  unfold Qle in Hq. cbn [Qnum Qden] in Hq. rewrite Qden_pow2 in Hq by lia.
  pose proof (pow2_pos k Hk) as Pk.
  destruct n as [|a|a].
  - unfold Qle. cbn [Qnum Qden]. lia.
  - destruct (Z.le_gt_cases z 0) as [Hz0 | Hz0].
    + apply Qle_trans with (0 # Z.to_pos (2 ^ k))%Q.
      * unfold Qle. cbn [Qnum Qden]. lia.
      * apply round_pos_ge; lia.
    + apply round_pos_ge; lia.
  - assert (H : (Float64.round_pos (Z.pos a) (Z.pos d) <= (- z) # Z.to_pos (2 ^ k))%Q)
      by (apply round_pos_le; lia).
    apply Qopp_le_compat in H. now rewrite Qopp_neg in H.
Qed.

Lemma round_le q z k :
  0 <= k -> Z.abs z <= 2 ^ 53 ->
  (q <= z # Z.to_pos (2 ^ k))%Q -> (Float64.round q <= z # Z.to_pos (2 ^ k))%Q.
Proof.
  intros Hk Hz Hq. rewrite <- (Qred_correct q) in Hq. unfold Float64.round.
  destruct (Qred q) as [n d]. cbn [Qnum Qden].
  unfold Qle in Hq. cbn [Qnum Qden] in Hq. rewrite Qden_pow2 in Hq by lia.
  pose proof (pow2_pos k Hk) as Pk.
  destruct n as [|a|a].
  - unfold Qle. cbn [Qnum Qden]. lia.
  - apply round_pos_le; lia.
  - destruct (Z.le_gt_cases 0 z) as [Hz0 | Hz0].
    + apply Qle_trans with (0 # Z.to_pos (2 ^ k))%Q.
      * assert (H : (0 # Z.to_pos (2 ^ k) <= Float64.round_pos (Z.pos a) (Z.pos d))%Q)
          by (apply round_pos_ge; lia).
        apply Qopp_le_compat in H. exact H.
      * unfold Qle. cbn [Qnum Qden]. lia.
    + assert (H : ((- z) # Z.to_pos (2 ^ k) <= Float64.round_pos (Z.pos a) (Z.pos d))%Q)
        by (apply round_pos_ge; lia).
      apply Qopp_le_compat in H. now rewrite Qopp_neg in H.
Qed.

(** Dyadic numbers of at most 53 significant bits are doubles. *)
Lemma round_exact z k :
  0 <= k -> Z.abs z <= 2 ^ 53 ->
  (Float64.round (z # Z.to_pos (2 ^ k)) == z # Z.to_pos (2 ^ k))%Q.
Proof.
  intros Hk Hz. apply Qle_antisym.
  - apply round_le; [lia | lia | apply Qle_refl].
  - apply round_ge; [lia | lia | apply Qle_refl].
Qed.

Lemma round_int z :
  Z.abs z <= 2 ^ 53 -> Float64.round (inject_Z z) = inject_Z z.
Proof.
  intros Hz. rewrite <- round_canonical. rewrite <- (Qred_inject_Z z) at 2.
  apply Qred_complete. exact (round_exact z 0 ltac:(lia) Hz).
Qed.

Lemma add_exact a b :
  Z.abs (a + b) <= 2 ^ 53 ->
  Float64.add (inject_Z a) (inject_Z b) = inject_Z (a + b).
Proof.
  intros H. unfold Float64.add. rewrite <- (round_int (a + b) H).
  apply round_Qeq. unfold Qeq, Qplus, inject_Z. cbn [Qnum Qden]. lia.
Qed.

(** Rounding moves a number by at most half a unit in the last place. *)
Lemma round_pos_error a b :
  0 < a -> 0 < b ->
  exists vn vd,
    0 < vd /\ (Float64.round_pos a b == vn # Z.to_pos vd)%Q
    /\ 2 ^ 53 * Z.abs (vn * b - a * vd) <= a * vd.
Proof.
  intros Ha Hb. unfold Float64.round_pos.
  destruct (ilog2_scaled a b Ha Hb) as [S1 S2]. cbv zeta in S1, S2.
  set (e := Float64.ilog2 a b - 52) in *.
  destruct (Z.leb_spec 0 e) as [He | He].
  - specialize (S1 He). pose proof (pow2_pos e He) as Pe.
    pose proof (round_even_half a (b * 2 ^ e) ltac:(lia)) as Hh.
    exists (Float64.round_even a (b * 2 ^ e) * 2 ^ e), 1.
    split; [lia | split; [reflexivity | ]].
    change (2 ^ 53) with (2 * 2 ^ 52). nia.
  - specialize (S2 He). pose proof (pow2_pos (- e) ltac:(lia)) as Pj.
    pose proof (round_even_half (a * 2 ^ (- e)) b Hb) as Hh.
    exists (Float64.round_even (a * 2 ^ (- e)) b), (2 ^ (- e)).
    split; [lia | split; [apply Qred_correct | ]].
    change (2 ^ 53) with (2 * 2 ^ 52). nia.
Qed.

Lemma close_pos a d :
  close (Float64.round_pos (Z.pos a) (Z.pos d)) (Z.pos a # d).
Proof.
  destruct (round_pos_error (Z.pos a) (Z.pos d) ltac:(lia) ltac:(lia))
    as (vn & vd & Hvd & Ev & Hb).
  unfold close. rewrite Ev.
  unfold Qle, Qabs, Qminus, Qplus, Qopp, Qmult, inject_Z. cbn [Qnum Qden].
  rewrite !Pos2Z.inj_mul, Z2Pos.id by lia.
  change (Z.abs (Z.pos a)) with (Z.pos a).
  replace (vn * Z.pos d + - Z.pos a * vd) with (vn * Z.pos d - Z.pos a * vd) by lia.
  nia.
Qed.

Lemma close_opp v q : close v q -> close (- v) (- q).
Proof.
  unfold close. intros H.
  assert (E : (- v - - q == - (v - q))%Q) by ring.
  now rewrite E, !Qabs_opp.
Qed.

Lemma round_close q : close (Float64.round q) q.
Proof.
  assert (G : forall c, close (Float64.round c) (Qred c)).
  { intros c. unfold Float64.round. destruct (Qred c) as [n d]. cbn [Qnum Qden].
    destruct n as [|a|a].
    - unfold close, Qle, Qabs, Qminus, Qplus, Qopp, Qmult, inject_Z.
      cbn [Qnum Qden]. cbn. lia.
    - apply close_pos.
    - change (Z.neg a # d)%Q with (- (Z.pos a # d))%Q.
      apply close_opp, close_pos. }
  specialize (G q). unfold close in *. now rewrite (Qred_correct q) in G.
Qed.

(** ** Sums of doubles that are exact *)

Lemma abs_total_nonneg xs : 0 <= abs_total xs.
Proof. induction xs as [|x xs IH]; simpl; lia. Qed.

Lemma abs_total_app xs ys : abs_total (xs ++ ys) = abs_total xs + abs_total ys.
Proof. induction xs as [|x xs IH]; simpl; lia. Qed.

Lemma total_app xs ys : total (xs ++ ys) = total xs + total ys.
Proof. unfold total. induction xs as [|x xs IH]; simpl; lia. Qed.

Lemma total_abs xs : Z.abs (total xs) <= abs_total xs.
Proof. induction xs as [|x xs IH]; simpl; [lia | ]. fold (total xs). lia. Qed.

Lemma abs_total_In x xs : In x xs -> Z.abs x <= abs_total xs.
Proof.
  induction xs as [|y xs IH]; simpl; [tauto | ].
  pose proof (abs_total_nonneg xs) as Hn.
  intros [-> | Hx]; [lia | ]. specialize (IH Hx). lia.
Qed.

Lemma total_split n xs : total (firstn n xs) + total (skipn n xs) = total xs.
Proof. rewrite <- total_app, firstn_skipn. reflexivity. Qed.

Lemma abs_total_split n xs :
  abs_total (firstn n xs) + abs_total (skipn n xs) = abs_total xs.
Proof. rewrite <- abs_total_app, firstn_skipn. reflexivity. Qed.

Lemma abs_total_perm xs ys : Permutation xs ys -> abs_total xs = abs_total ys.
Proof. induction 1; simpl; lia. Qed.

Lemma abs_total_pair s i :
  (S i < List.length s)%nat ->
  Z.abs (nth i s 0) + Z.abs (nth (S i) s 0) <= abs_total s.
Proof.
  revert i. induction s as [|x s IH]; intros i Hi; [simpl in Hi; lia | ].
  destruct i as [|i].
  - cbn [nth abs_total fold_right]. fold (abs_total s).
    assert (H0 : (0 < List.length s)%nat) by (simpl in Hi; lia).
    pose proof (abs_total_In (nth 0 s 0) s (nth_In s 0 H0)). lia.
  - cbn [nth abs_total fold_right]. fold (abs_total s).
    specialize (IH i ltac:(simpl in Hi; lia)). lia.
Qed.

Lemma map_of_int_exact xs :
  abs_total xs <= 2 ^ 53 -> map Float64.of_int xs = map inject_Z xs.
Proof.
  intros H. apply map_ext_in. intros x Hx. apply round_int.
  pose proof (abs_total_In x xs Hx). lia.
Qed.

Lemma add_all_exact c zs :
  Z.abs c + abs_total zs <= 2 ^ 53 ->
  Numpy.add_all (inject_Z c) (map inject_Z zs) = inject_Z (c + total zs).
Proof.
  unfold Numpy.add_all. revert c.
  induction zs as [|z zs IH]; intros c H; simpl in *.
  - f_equal. lia.
  - pose proof (abs_total_nonneg zs).
    rewrite add_exact by lia. rewrite IH by lia. fold (total zs). f_equal. lia.
Qed.

Lemma add_each_exact cs zs :
  abs_total cs + abs_total zs <= 2 ^ 53 ->
  exists cs',
    Numpy.add_each (map inject_Z cs) (map inject_Z zs) = map inject_Z cs'
    /\ List.length cs' = List.length cs
    /\ total cs' = total cs + total (firstn (List.length cs) zs)
    /\ abs_total cs' <= abs_total cs + abs_total (firstn (List.length cs) zs).
Proof.
  revert zs. induction cs as [|c cs IH]; intros zs H.
  - exists []. simpl. repeat split; lia.
  - destruct zs as [|z zs].
    + exists (c :: cs). simpl. repeat split; lia.
    + simpl in H. pose proof (abs_total_nonneg cs). pose proof (abs_total_nonneg zs).
      destruct (IH zs ltac:(lia)) as (cs' & E & L & T & A).
      exists (c + z :: cs'). cbn [map Numpy.add_each List.length firstn].
      rewrite E, add_exact by lia.
      repeat split; [simpl; lia | | ].
      * simpl. fold (total cs') (total cs) (total (firstn (List.length cs) zs)). lia.
      * simpl. lia.
Qed.

Lemma unrolled_exact g cs zs :
  abs_total cs + abs_total zs <= 2 ^ 53 ->
  List.length cs = 8%nat ->
  exists cs' zs',
    Numpy.unrolled g (map inject_Z cs) (map inject_Z zs)
      = (map inject_Z cs', map inject_Z zs')
    /\ List.length cs' = 8%nat
    /\ total cs' + total zs' = total cs + total zs
    /\ abs_total cs' + abs_total zs' <= abs_total cs + abs_total zs.
Proof.
  revert cs zs. induction g as [|g IH]; intros cs zs H L.
  - exists cs, zs. simpl. repeat split; lia.
  - cbn [Numpy.unrolled]. rewrite firstn_map, skipn_map.
    pose proof (abs_total_split 8 zs) as As. pose proof (total_split 8 zs) as Ts.
    pose proof (abs_total_nonneg (skipn 8 zs)).
    destruct (add_each_exact cs (firstn 8 zs) ltac:(lia)) as (cs1 & E & L1 & T1 & A1).
    rewrite L, firstn_firstn in T1, A1. cbn [Nat.min] in T1, A1.
    rewrite E.
    destruct (IH cs1 (skipn 8 zs) ltac:(lia) ltac:(lia))
      as (cs' & zs' & E' & L' & T' & A').
    exists cs', zs'. rewrite E'. repeat split; lia.
Qed.

Lemma block_sum_exact zs :
  (8 <= List.length zs)%nat -> abs_total zs <= 2 ^ 53 ->
  Numpy.block_sum (map inject_Z zs) = inject_Z (total zs).
Proof.
  intros Hn H. unfold Numpy.block_sum. rewrite length_map, firstn_map, skipn_map.
  pose proof (abs_total_split 8 zs) as As. pose proof (total_split 8 zs) as Ts.
  destruct (unrolled_exact (List.length zs / 8 - 1) (firstn 8 zs) (skipn 8 zs)
              ltac:(lia) ltac:(rewrite length_firstn; lia))
    as (cs' & zs' & E & L & T & A).
  rewrite E.
  destruct cs' as [|r0 [|r1 [|r2 [|r3 [|r4 [|r5 [|r6 [|r7 [|r8 cs']]]]]]]]];
    try discriminate L.
  cbn [map]. pose proof (abs_total_nonneg zs').
  cbn [abs_total fold_right] in A. fold (abs_total zs') in A.
  cbn [total fold_right] in T. fold (total zs') in T.
  rewrite !add_exact by lia. rewrite add_all_exact by lia. f_equal. lia.
Qed.

Lemma pairwise_sum_unfold f a :
  Numpy.pairwise_sum (S f) a =
    if (List.length a <? 8)%nat then Numpy.add_all 0%Q a
    else if (List.length a <=? Numpy.PW_BLOCKSIZE)%nat then Numpy.block_sum a
    else
      Float64.add
        (Numpy.pairwise_sum f
           (firstn (List.length a / 2 - (List.length a / 2) mod 8) a))
        (Numpy.pairwise_sum f
           (skipn (List.length a / 2 - (List.length a / 2) mod 8) a)).
Proof. reflexivity. Qed.

(** More depth than the length of the array changes nothing: the
    recursion of [pairwise_sum] never runs out. *)
Lemma pairwise_sum_fuel fuel a :
  (List.length a <= fuel)%nat ->
  Numpy.pairwise_sum (S fuel) a = Numpy.pairwise_sum fuel a.
Proof.
  revert a. induction fuel as [|f IH]; intros a Hf.
  - destruct a; [reflexivity | simpl in Hf; lia].
  - rewrite (pairwise_sum_unfold (S f) a), (pairwise_sum_unfold f a).
    destruct (Nat.ltb_spec (List.length a) 8); [reflexivity | ].
    destruct (Nat.leb_spec (List.length a) Numpy.PW_BLOCKSIZE) as [Hb | Hb];
      [reflexivity | ].
    unfold Numpy.PW_BLOCKSIZE in Hb.
    set (n := List.length a) in *.
    pose proof (Nat.div_mod_eq n 2) as E2.
    pose proof (Nat.mod_upper_bound n 2 ltac:(lia)) as B2.
    pose proof (Nat.mod_upper_bound (n / 2) 8 ltac:(lia)) as B8.
    rewrite !IH; [reflexivity | | ].
    + rewrite length_skipn. fold n. lia.
    + rewrite length_firstn. fold n. lia.
Qed.

Lemma pairwise_sum_exact fuel zs :
  abs_total zs <= 2 ^ 53 ->
  Numpy.pairwise_sum fuel (map inject_Z zs) = inject_Z (total zs).
Proof.
  revert zs. induction fuel as [|f IH]; intros zs H.
  - simpl. change 0%Q with (inject_Z 0). pose proof (abs_total_nonneg zs).
    now rewrite add_all_exact by lia.
  - rewrite pairwise_sum_unfold, length_map.
    pose proof (abs_total_nonneg zs).
    destruct (Nat.ltb_spec (List.length zs) 8).
    { change 0%Q with (inject_Z 0). now rewrite add_all_exact by lia. }
    destruct (Nat.leb_spec (List.length zs) Numpy.PW_BLOCKSIZE).
    { now apply block_sum_exact. }
    set (n2 := (List.length zs / 2 - (List.length zs / 2) mod 8)%nat).
    rewrite firstn_map, skipn_map.
    pose proof (abs_total_split n2 zs) as As. pose proof (total_split n2 zs) as Ts.
    pose proof (abs_total_nonneg (firstn n2 zs)).
    pose proof (abs_total_nonneg (skipn n2 zs)).
    rewrite !IH by lia.
    pose proof (total_abs zs). rewrite add_exact by lia. f_equal. lia.
Qed.

Lemma add_reduce_exact fuel c zs :
  (List.length zs <= fuel)%nat ->
  Z.abs c + abs_total zs <= 2 ^ 53 ->
  Numpy.add_reduce fuel (inject_Z c) (map inject_Z zs) = inject_Z (c + total zs).
Proof.
  revert c zs. induction fuel as [|f IH]; intros c zs Hf H.
  - destruct zs; [ | simpl in Hf; lia]. simpl. f_equal. lia.
  - destruct zs as [|z zs]; [simpl; f_equal; lia | ].
    cbn [Numpy.add_reduce map]. cbv zeta.
    change (inject_Z z :: map inject_Z zs) with (map inject_Z (z :: zs)).
    set (l := z :: zs) in *.
    rewrite firstn_map, skipn_map, length_map.
    pose proof (abs_total_split Numpy.BUFSIZE l) as As.
    pose proof (total_split Numpy.BUFSIZE l) as Ts.
    pose proof (abs_total_nonneg (firstn Numpy.BUFSIZE l)).
    pose proof (abs_total_nonneg (skipn Numpy.BUFSIZE l)).
    pose proof (total_abs (firstn Numpy.BUFSIZE l)).
    rewrite pairwise_sum_exact by lia. rewrite add_exact by lia.
    rewrite IH.
    + f_equal. lia.
    + rewrite length_skipn. subst l. cbn [List.length] in *.
      assert (1 <= Numpy.BUFSIZE)%nat by (unfold Numpy.BUFSIZE; lia). lia.
    + lia.
Qed.

(** When the absolute values of the elements sum to at most [2 ^ 53], no
    addition of [np.mean] rounds: the sum is the exact sum. *)
Lemma sum_float64_exact xs :
  abs_total xs <= 2 ^ 53 -> Numpy.sum_float64 xs = inject_Z (total xs).
Proof.
  intros H. unfold Numpy.sum_float64. cbv zeta.
  rewrite map_of_int_exact by exact H.
  change 0%Q with (inject_Z 0). pose proof (abs_total_nonneg xs).
  rewrite add_reduce_exact; [reflexivity | rewrite length_map; lia | lia].
Qed.

(** ** Statistics *)

Lemma insert_perm x l : Permutation (Numpy.insert x l) (x :: l).
Proof.
  induction l as [|y l IH]; simpl.
  - reflexivity.
  - destruct (x <=? y).
    + reflexivity.
    + rewrite IH. apply perm_swap.
Qed.

Lemma sort_perm l : Permutation (Numpy.sort l) l.
Proof.
  induction l as [|x l IH]; simpl.
  - reflexivity.
  - unfold Numpy.sort in *. simpl. rewrite insert_perm. now constructor.
Qed.

Lemma insert_sorted x l :
  StronglySorted Z.le l -> StronglySorted Z.le (Numpy.insert x l).
Proof.
  induction 1 as [|y l Hs IH Hall]; simpl.
  - repeat constructor.
  - destruct (Z.leb_spec x y) as [Hxy | Hxy].
    + constructor; [now constructor | ].
      constructor; [exact Hxy | ].
      eapply Forall_impl; [ | exact Hall]. intros z Hz. simpl in Hz. lia.
    + constructor; [exact IH | ].
      eapply Permutation_Forall; [symmetry; apply insert_perm | ].
      constructor; [lia | exact Hall].
Qed.

Lemma sort_sorted l : StronglySorted Z.le (Numpy.sort l).
Proof.
  induction l as [|x l IH]; simpl.
  - constructor.
  - apply insert_sorted. exact IH.
Qed.

Lemma fold_max_bounds xs a :
  a <= fold_left Z.max xs a
  /\ (forall x, In x xs -> x <= fold_left Z.max xs a)
  /\ (fold_left Z.max xs a = a \/ In (fold_left Z.max xs a) xs).
Proof.
  revert a; induction xs as [|y xs IH]; intros a; simpl.
  - repeat split; [lia | intros x [] | now left].
  - destruct (IH (Z.max a y)) as (H1 & H2 & H3).
    repeat split.
    + lia.
    + intros x [<- | Hx]; [lia | now apply H2].
    + destruct H3 as [H3 | H3]; [ | now right; right].
      rewrite H3. destruct (Z.max_spec a y) as [[_ ->] | [_ ->]]; auto.
Qed.

Lemma fold_min_bounds xs a :
  fold_left Z.min xs a <= a
  /\ (forall x, In x xs -> fold_left Z.min xs a <= x)
  /\ (fold_left Z.min xs a = a \/ In (fold_left Z.min xs a) xs).
Proof.
  revert a; induction xs as [|y xs IH]; intros a; simpl.
  - repeat split; [lia | intros x [] | now left].
  - destruct (IH (Z.min a y)) as (H1 & H2 & H3).
    repeat split.
    + lia.
    + intros x [<- | Hx]; [lia | now apply H2].
    + destruct H3 as [H3 | H3]; [ | now right; right].
      rewrite H3. destruct (Z.min_spec a y) as [[_ ->] | [_ ->]]; auto.
Qed.

Lemma total_bounds xs lo hi :
  (forall x, In x xs -> lo <= x <= hi) ->
  lo * Z.of_nat (List.length xs) <= total xs <= hi * Z.of_nat (List.length xs).
Proof.
  induction xs as [|x xs IH]; intros H.
  - simpl. lia.
  - cbn [List.length total fold_right].
    specialize (IH (fun z Hz => H z (or_intror Hz))).
    pose proof (H x (or_introl eq_refl)).
    fold (total xs). lia.
Qed.

Lemma Zpos_of_nat_length {A} (x : A) xs :
  Z.pos (Pos.of_nat (List.length (x :: xs))) = Z.of_nat (List.length (x :: xs)).
Proof.
  cbn [List.length]. rewrite <- Pos.of_nat_succ, Zpos_P_of_succ_nat, Nat2Z.inj_succ.
  reflexivity.
Qed.

Lemma exact_mean_quotient x xs :
  (inject_Z (total (x :: xs)) / inject_Z (Z.of_nat (List.length (x :: xs)))
   == exact_mean (x :: xs))%Q.
Proof.
  unfold exact_mean. rewrite <- (Zpos_of_nat_length x xs).
  unfold Qdiv, Qinv, Qmult, inject_Z, Qeq. cbn [Qnum Qden]. lia.
Qed.

Lemma mean_cons x xs : exists q, Numpy.mean (x :: xs) = PyFloat q.
Proof. eexists. reflexivity. Qed.

(** Within the bounds, [np.mean] is the exact mean, rounded once. *)
Lemma mean_value xs :
  xs <> [] -> abs_total xs <= 2 ^ 53 -> Z.of_nat (List.length xs) <= 2 ^ 53 ->
  Numpy.mean xs = PyFloat (Float64.round (exact_mean xs)).
Proof.
  intros Hne Ha Hn. destruct xs as [|x xs]; [congruence | ].
  unfold Numpy.mean. f_equal. rewrite sum_float64_exact by exact Ha.
  unfold Float64.of_int. rewrite round_int by lia.
  unfold Float64.div. apply round_Qeq, exact_mean_quotient.
Qed.

Lemma mean_one a :
  Z.abs a <= 2 ^ 53 -> Numpy.mean [a] = PyFloat (inject_Z a).
Proof.
  intros Ha. rewrite mean_value; [ | discriminate | simpl; lia | simpl; lia].
  f_equal. rewrite <- (round_int a Ha). apply round_Qeq.
  unfold exact_mean, Qeq, inject_Z. cbn. lia.
Qed.

Lemma mean_two a b :
  Z.abs a + Z.abs b <= 2 ^ 53 ->
  exists q, Numpy.mean [a; b] = PyFloat q /\ (q == (a + b) # 2)%Q.
Proof.
  intros Hab. rewrite mean_value; [ | discriminate | simpl; lia | simpl; lia].
  eexists. split; [reflexivity | ].
  rewrite (round_Qeq (exact_mean [a; b]) ((a + b) # Z.to_pos (2 ^ 1))).
  - apply (round_exact (a + b) 1); lia.
  - unfold exact_mean, Qeq. cbn. lia.
Qed.

(** C3. On a non-empty list of at most [2 ^ 53] integers whose absolute
    values sum to at most [2 ^ 53], the statistics of the price report
    are the arithmetic mean in double precision, the largest and the
    smallest element and the conventional median, and they satisfy
    [min <= median <= max] and [min <= mean <= max]. *)
Theorem price_statistics_ordered (v : list Z) :
  v <> [] ->
  abs_total v <= 2 ^ 53 ->
  Z.of_nat (List.length v) <= 2 ^ 53 ->
  exists mean mx mn med,
    price_statistics v = Ok (PyFloat mean, mx, mn, PyFloat med)
    /\ is_double_mean mean v /\ is_median med v
    /\ In mx v /\ In mn v /\ (forall x, In x v -> mn <= x <= mx)
    /\ (inject_Z mn <= med)%Q /\ (med <= inject_Z mx)%Q
    /\ (inject_Z mn <= mean)%Q /\ (mean <= inject_Z mx)%Q.
Proof.
  destruct v as [|x xs]; [congruence | intros _ Habs Hcount].
  set (v := x :: xs) in *.
  destruct (fold_max_bounds xs x) as (Hx1 & Hx2 & Hx3).
  destruct (fold_min_bounds xs x) as (Hn1 & Hn2 & Hn3).
  set (mx := fold_left Z.max xs x) in *.
  set (mn := fold_left Z.min xs x) in *.
  assert (Hb : forall z, In z v -> mn <= z <= mx).
  { intros z [<- | Hz]; [lia | ]. split; [now apply Hn2 | now apply Hx2]. }
  assert (Imx : In mx v) by (destruct Hx3 as [-> | H]; [now left | now right]).
  assert (Imn : In mn v) by (destruct Hn3 as [-> | H]; [now left | now right]).
  pose proof (abs_total_In mx v Imx) as Amx.
  pose proof (abs_total_In mn v Imn) as Amn.
  assert (Hs : forall i, (i < List.length (Numpy.sort v))%nat ->
                         mn <= nth i (Numpy.sort v) 0 <= mx).
  { intros i Hi. apply Hb.
    eapply Permutation_in; [apply sort_perm | ]. now apply nth_In. }
  assert (Hlen : List.length (Numpy.sort v) = S (List.length xs)).
  { rewrite (Permutation_length (sort_perm v)). reflexivity. }
  pose proof (abs_total_perm _ _ (sort_perm v)) as Asort.
  pose proof (total_bounds v mn mx Hb) as Ht.
  pose proof (Zpos_of_nat_length x xs) as Hp. fold v in Hp.
  assert (Hmean : exists mean,
    Numpy.mean v = PyFloat mean /\ is_double_mean mean v
    /\ (inject_Z mn <= mean)%Q /\ (mean <= inject_Z mx)%Q).
  { exists (Float64.round (exact_mean v)).
    split; [apply mean_value; [discriminate | exact Habs | exact Hcount] | ].
    split; [split; [reflexivity | apply round_close] | ].
    split.
    - apply (round_ge (exact_mean v) mn 0); [lia | lia | ].
      unfold exact_mean, Qle. cbn [Qnum Qden]. rewrite Hp. lia.
    - apply (round_le (exact_mean v) mx 0); [lia | lia | ].
      unfold exact_mean, Qle. cbn [Qnum Qden]. rewrite Hp. lia. }
  assert (Hmed : exists med,
    Numpy.median v = PyFloat med /\ is_median med v
    /\ (inject_Z mn <= med)%Q /\ (med <= inject_Z mx)%Q).
  { unfold Numpy.median, is_median. cbn [v]. fold v. cbv zeta.
    destruct (Nat.even (List.length (Numpy.sort v))) eqn:Hev.
    - assert (H2 : (2 <= List.length (Numpy.sort v))%nat).
      { rewrite Hlen in *. destruct (List.length xs); [discriminate Hev | lia]. }
      pose proof (Nat.div_lt (List.length (Numpy.sort v)) 2 ltac:(lia) ltac:(lia)) as Hh.
      assert (Hh1 : (1 <= List.length (Numpy.sort v) / 2)%nat)
        by (apply Nat.div_le_lower_bound; lia).
      set (h := (List.length (Numpy.sort v) / 2)%nat) in *.
      pose proof (abs_total_pair (Numpy.sort v) (h - 1) ltac:(lia)) as Hpair.
      replace (S (h - 1)) with h in Hpair by lia.
      destruct (mean_two (nth (h - 1) (Numpy.sort v) 0) (nth h (Numpy.sort v) 0)
                  ltac:(lia)) as (q & Eq & Hq).
      exists q. split; [exact Eq | ]. split.
      + exists (Numpy.sort v).
        split; [apply sort_perm | ]. split; [apply sort_sorted | ].
        fold h. rewrite Hev, Hq.
        unfold Qeq, inject_Z. cbn [Qnum Qden Qmult]. lia.
      + pose proof (Hs h ltac:(lia)). pose proof (Hs (h - 1)%nat ltac:(lia)).
        rewrite Hq. unfold Qle, inject_Z. cbn [Qnum Qden]. lia.
    - pose proof (Nat.div_lt (List.length (Numpy.sort v)) 2 ltac:(lia) ltac:(lia)) as Hh.
      set (h := (List.length (Numpy.sort v) / 2)%nat) in *.
      pose proof (abs_total_In (nth h (Numpy.sort v) 0) (Numpy.sort v)
                    (nth_In _ 0 Hh)) as Hin.
      exists (inject_Z (nth h (Numpy.sort v) 0)).
      split; [apply mean_one; lia | ]. split.
      + exists (Numpy.sort v).
        split; [apply sort_perm | ]. split; [apply sort_sorted | ].
        fold h. rewrite Hev. reflexivity.
      + pose proof (Hs h Hh).
        unfold Qle, inject_Z. cbn [Qnum Qden]. lia. }
  destruct Hmean as (mean & Em & Hm1 & Hm2 & Hm3).
  destruct Hmed as (med & Ed & Hd1 & Hd2 & Hd3).
  exists mean, mx, mn, med.
  split.
  { unfold price_statistics. rewrite Em, Ed. reflexivity. }
  split; [exact Hm1 | split; [exact Hd1 | ]].
  split; [exact Imx | split; [exact Imn | split; [exact Hb | ]]].
  split; [exact Hd2 | split; [exact Hd3 | split; [exact Hm2 | exact Hm3]]].
Qed.

(** ** Dictionaries *)

Lemma dict_get_None d k : dict_get d k = None <-> ~ In k (keys d).
Proof.
  induction d as [|[k' v] d IH]; simpl.
  - tauto.
  - destruct (String.eqb_spec k' k) as [-> | Hne].
    + split; [discriminate | intros H; elim H; now left].
    + rewrite IH. tauto.
Qed.

Lemma dict_get_set_same d k v : dict_get (dict_set d k v) k = Some v.
Proof.
  induction d as [|[k' v'] d IH]; simpl.
  - now rewrite String.eqb_refl.
  - destruct (String.eqb_spec k' k) as [-> | Hne]; simpl.
    + now rewrite String.eqb_refl.
    + destruct (String.eqb_spec k' k); [contradiction | exact IH].
Qed.

Lemma dict_get_set_other d k v k' :
  k <> k' -> dict_get (dict_set d k v) k' = dict_get d k'.
Proof.
  intros Hne. induction d as [|[k0 v0] d IH]; simpl.
  - destruct (String.eqb_spec k k'); [contradiction | reflexivity].
  - destruct (String.eqb_spec k0 k) as [-> | H0]; simpl.
    + destruct (String.eqb_spec k k'); [contradiction | reflexivity].
    + destruct (String.eqb_spec k0 k'); [reflexivity | exact IH].
Qed.

Lemma keys_set_present d k v :
  In k (keys d) -> keys (dict_set d k v) = keys d.
Proof.
  induction d as [|[k' v'] d IH]; simpl.
  - intros [].
  - intros H. destruct (String.eqb_spec k' k) as [-> | Hne]; simpl.
    + reflexivity.
    + f_equal. apply IH. destruct H; [contradiction | assumption].
Qed.

Lemma keys_set_absent d k v :
  ~ In k (keys d) -> keys (dict_set d k v) = (keys d ++ [k])%list.
Proof.
  induction d as [|[k' v'] d IH]; simpl.
  - reflexivity.
  - intros H. destruct (String.eqb_spec k' k) as [-> | Hne]; simpl.
    + elim H. now left.
    + f_equal. apply IH. tauto.
Qed.

Lemma keys_set_cases d k v :
  (In k (keys d) /\ keys (dict_set d k v) = keys d)
  \/ (~ In k (keys d) /\ keys (dict_set d k v) = (keys d ++ [k])%list).
Proof.
  destruct (in_dec string_dec k (keys d)) as [H | H].
  - left. split; [exact H | now apply keys_set_present].
  - right. split; [exact H | now apply keys_set_absent].
Qed.

(** The dictionary comprehension over the branch table: every branch key
    is entered with 0, each key once. *)
Lemma seed_summary_rows brows branches d :
  branches_snapshot brows branches ->
  NoDup (keys d) ->
  (forall k v, dict_get d k = Some v -> v = 0) ->
  exists d',
    seed_summary brows d = Ok d'
    /\ NoDup (keys d')
    /\ (forall k, In k (keys d') <->
                  In k (keys d) \/ In k (map branch_key branches))
    /\ (forall k v, dict_get d' k = Some v -> v = 0).
Proof.
  intros Hsnap. revert d.
  induction Hsnap as [|brow b brows branches Hrow _ IH]; intros d Hnd Hz.
  - exists d. simpl. repeat split; auto. tauto.
  - destruct Hrow as (H0 & _). cbn [seed_summary]. rewrite H0. cbn [bind].
    destruct (IH (dict_set d (branch_key b) 0)) as (d' & E & Hnd' & Hk & Hz').
    + destruct (keys_set_cases d (branch_key b) 0) as [[_ ->] | [Hn ->]];
        [exact Hnd | ].
      apply NoDup_app; [exact Hnd | repeat constructor; intros [] | ].
      intros k Hk [<- | []]. contradiction.
    + intros k v.
      destruct (string_dec (branch_key b) k) as [<- | Hne].
      * rewrite dict_get_set_same. congruence.
      * rewrite dict_get_set_other by exact Hne. apply Hz.
    + exists d'. repeat split; auto.
      * intros Hin. apply Hk in Hin. cbn [map In].
        destruct (keys_set_cases d (branch_key b) 0) as [[_ Hs] | [_ Hs]];
          rewrite Hs in Hin; [tauto | ].
        rewrite in_app_iff in Hin. cbn [In] in Hin. tauto.
      * intros Hin. apply Hk. cbn [map In] in Hin.
        destruct (keys_set_cases d (branch_key b) 0) as [[Hp Hs] | [_ Hs]];
          rewrite Hs.
        -- destruct Hin as [Hin | [<- | Hin]]; auto.
        -- rewrite in_app_iff. cbn [In]. tauto.
Qed.

Section ReportProperties.

Variable py_int : string -> result Z.

Lemma field_is_branch row s branch_id :
  sale_row py_int row s -> field_is 0 branch_id row = Ok (of_branch branch_id s).
Proof.
  intros (H0 & _). unfold field_is. rewrite H0. reflexivity.
Qed.

Lemma field_is_product row s product_id :
  sale_row py_int row s -> field_is 1 product_id row = Ok (of_product product_id s).
Proof.
  intros (_ & H1 & _). unfold field_is. rewrite H1. reflexivity.
Qed.

Lemma amount_of_row row s :
  sale_row py_int row s -> amount_of py_int row = Ok (sale_amount s).
Proof. intros (_ & _ & H2 & _). exact H2. Qed.

Lemma no_amounts_where (p : SaleRecord -> bool) sales :
  amounts_where p sales = [] <-> (forall s, In s sales -> p s = false).
Proof.
  unfold amounts_where. induction sales as [|s sales IH]; simpl.
  - split; [intros _ s [] | reflexivity].
  - destruct (p s) eqn:Hp; simpl.
    + split; [discriminate | ].
      intros H. specialize (H s (or_introl eq_refl)). congruence.
    + rewrite IH. split.
      * intros H x [<- | Hx]; auto.
      * intros H x Hx. apply H. now right.
Qed.

(** C5. On every snapshot of the sale log the total-sales report
    succeeds and shows the sum of the amounts of the whole log; on the
    empty log it succeeds and shows 0. *)
Theorem analyze_total_sales_amount_sum rows sales :
  sales_snapshot py_int rows sales ->
  analyze_total_sales_amount py_int rows =
    Ok [banner "Total Sales Revenue Analysis";
        PrintValue "Overall Sales Revenue: "
                   (PyInt (total (map sale_amount sales))) " LKR"]
  /\ analyze_total_sales_amount py_int [] =
       Ok [banner "Total Sales Revenue Analysis";
           PrintValue "Overall Sales Revenue: " (PyInt 0) " LKR"].
Proof.
  intros Hsnap.
  assert (E : analyze_total_sales_amount py_int rows =
    Ok [banner "Total Sales Revenue Analysis";
        PrintValue "Overall Sales Revenue: "
                   (PyInt (total (map sale_amount sales))) " LKR"]).
  { unfold analyze_total_sales_amount.
    rewrite (comprehension_rows (sale_row py_int) _ _
               (fun _ => true) sale_amount rows sales);
      [ | reflexivity | apply amount_of_row | exact Hsnap ].
    simpl. rewrite filter_all, sum_total. reflexivity. }
  split; [exact E | reflexivity].
Qed.

(** C6. The branch report selects the sales of the given branch over the
    whole log, with no test on the date, and plots their amounts in the
    order of the log; it prints the no-data line, and plots nothing,
    exactly when no sale is of that branch. *)
Theorem analyze_monthly_sales_selects branch_id rows sales :
  sales_snapshot py_int rows sales ->
  analyze_monthly_sales py_int branch_id rows =
    Ok [banner ("Monthly Sales Analysis for Branch " ++ branch_id);
        match amounts_where (of_branch branch_id) sales with
        | [] => no_branch_data branch_id
        | _ => Hist (amounts_where (of_branch branch_id) sales)
        end]
  /\ (amounts_where (of_branch branch_id) sales = [] <->
      (forall s, In s sales -> sale_branch s <> branch_id)).
Proof.
  intros Hsnap. split.
  - unfold analyze_monthly_sales.
    rewrite (comprehension_rows (sale_row py_int) _ _
               (of_branch branch_id) sale_amount rows sales);
      [ | intros; now apply field_is_branch | apply amount_of_row | exact Hsnap ].
    simpl. fold (amounts_where (of_branch branch_id) sales).
    destruct (amounts_where (of_branch branch_id) sales); reflexivity.
  - rewrite no_amounts_where. unfold of_branch.
    split; intros H s Hs; specialize (H s Hs).
    + now apply String.eqb_neq.
    + now apply String.eqb_neq.
Qed.

Lemma median_cons x xs : exists q, Numpy.median (x :: xs) = PyFloat q.
Proof.
  unfold Numpy.median.
  destruct (Nat.even (List.length (Numpy.sort (x :: xs))));
    eexists; reflexivity.
Qed.

Lemma price_statistics_cons x xs :
  exists avg mx mn med,
    price_statistics (x :: xs) = Ok (PyFloat avg, mx, mn, PyFloat med).
Proof.
  destruct (median_cons x xs) as [q Hq].
  unfold price_statistics. rewrite Hq.
  do 4 eexists. reflexivity.
Qed.

(** C8. The price report prints the no-data line, and computes no
    statistic, exactly when no sale is of the given product; otherwise
    it shows the four statistics of the matching amounts. *)
Theorem analyze_price_no_data product_id rows sales :
  sales_snapshot py_int rows sales ->
  ((forall s, In s sales -> sale_product s <> product_id) <->
   analyze_price py_int product_id rows =
     Ok [banner ("Product Price Analysis for Product " ++ product_id);
         no_product_data product_id])
  /\ ((exists s, In s sales /\ sale_product s = product_id) ->
      exists avg mx mn med,
        price_statistics (amounts_where (of_product product_id) sales)
          = Ok (avg, mx, mn, med)
        /\ analyze_price py_int product_id rows =
             Ok [banner ("Product Price Analysis for Product " ++ product_id);
                 PrintValue "Average Price: " avg " LKR";
                 PrintValue "Maximum Price: " (PyInt mx) " LKR";
                 PrintValue "Minimum Price: " (PyInt mn) " LKR";
                 PrintValue "Median Price: " med " LKR";
                 Boxplot (amounts_where (of_product product_id) sales)]).
Proof.
  intros Hsnap.
  assert (E : analyze_price py_int product_id rows =
    match amounts_where (of_product product_id) sales with
    | [] => Ok [banner ("Product Price Analysis for Product " ++ product_id);
                no_product_data product_id]
    | x :: l =>
        let xs := x :: l in
        bind (price_statistics xs)
          (fun '(avg, mx, mn, med) =>
             Ok [banner ("Product Price Analysis for Product " ++ product_id);
                 PrintValue "Average Price: " avg " LKR";
                 PrintValue "Maximum Price: " (PyInt mx) " LKR";
                 PrintValue "Minimum Price: " (PyInt mn) " LKR";
                 PrintValue "Median Price: " med " LKR";
                 Boxplot xs])
    end).
  { unfold analyze_price.
    rewrite (comprehension_rows (sale_row py_int) _ _
               (of_product product_id) sale_amount rows sales);
      [ | intros; now apply field_is_product | apply amount_of_row | exact Hsnap ].
    simpl. fold (amounts_where (of_product product_id) sales).
    destruct (amounts_where (of_product product_id) sales); reflexivity. }
  assert (N : amounts_where (of_product product_id) sales = [] <->
              (forall s, In s sales -> sale_product s <> product_id)).
  { rewrite no_amounts_where. unfold of_product.
    split; intros H s Hs; specialize (H s Hs); now apply String.eqb_neq. }
  split; [split | ].
  - intros H. apply N in H. rewrite E, H. reflexivity.
  - intros H. apply N. rewrite E in H. revert H.
    destruct (amounts_where (of_product product_id) sales) as [|x xs];
      [reflexivity | intros H ].
    destruct (price_statistics_cons x xs) as (avg & mx & mn & med & Hst).
    cbv zeta in H. rewrite Hst in H. simpl in H. discriminate.
  - intros (s & Hs & Hp). rewrite E.
    destruct (amounts_where (of_product product_id) sales) as [|x xs] eqn:Hx.
    + elim (proj1 N eq_refl s Hs Hp).
    + destruct (price_statistics_cons x xs) as (avg & mx & mn & med & Hst).
      exists (PyFloat avg), mx, mn, (PyFloat med).
      cbv zeta. rewrite Hst. split; reflexivity.
Qed.

(** *** The weekly report *)

Lemma in_week_row ws we row s :
  sale_row py_int row s /\ date_parses s ->
  in_week ws we row = Ok (dated_within ws we s).
Proof.
  intros [(_ & _ & _ & H3) [d Hd]]. unfold in_week, dated_within.
  rewrite H3. simpl. rewrite Hd. reflexivity.
Qed.

Lemma Forall2_with_right {A B} (R : A -> B -> Prop) (P : B -> Prop) l l' :
  Forall2 R l l' -> Forall P l' -> Forall2 (fun a b => R a b /\ P b) l l'.
Proof.
  induction 1; intros HP; inversion HP; subst; constructor; auto.
Qed.

Lemma weekly_sales_rows ws we rows sales :
  sales_snapshot py_int rows sales ->
  Forall date_parses sales ->
  weekly_sales py_int ws we rows = Ok (amounts_where (dated_within ws we) sales).
Proof.
  intros Hsnap Hp. unfold weekly_sales, amounts_where.
  apply (comprehension_rows (fun r s => sale_row py_int r s /\ date_parses s)).
  - intros r s. apply in_week_row.
  - intros r s [H _]. now apply amount_of_row.
  - now apply Forall2_with_right.
Qed.

(** C7. When the snapshot holds a record whose date text matches neither
    format, the comprehension that filters by the week raises the
    not-recognized error of [parse_date] for such a record, whatever the
    bounds, and so does the weekly report built on it: nothing is
    skipped and nothing is shown. *)
Theorem weekly_sales_bad_date rows sales :
  sales_snapshot py_int rows sales ->
  Exists (fun s => ~ date_parses s) sales ->
  exists bad,
    In bad sales /\ ~ date_parses bad
    /\ (forall week_start week_end,
           weekly_sales py_int week_start week_end rows =
             Raise (ValueError (not_recognized (sale_date bad))))
    /\ (forall today week_start week_end,
           week_window today = Ok (week_start, week_end) ->
           analyze_weekly_sales py_int today rows =
             Raise (ValueError (not_recognized (sale_date bad)))).
Proof.
  intros Hsnap Hex.
  assert (H : exists bad,
    In bad sales /\ ~ date_parses bad
    /\ (forall week_start week_end,
           weekly_sales py_int week_start week_end rows =
             Raise (ValueError (not_recognized (sale_date bad))))).
  { induction Hsnap as [|row s rows sales Hrow Hsnap IH].
    - inversion Hex.
    - destruct (parse_date (sale_date s)) as [d|e] eqn:Hd.
      + assert (Hex' : Exists (fun s => ~ date_parses s) sales).
        { inversion Hex as [? ? Hbad | ]; subst; [ | assumption].
          elim Hbad. now exists d. }
        destruct (IH Hex') as (bad & Hin & Hbad & Hraise).
        exists bad. split; [now right | split; [exact Hbad | ]].
        intros ws we. specialize (Hraise ws we).
        unfold weekly_sales in *. cbn [comprehension].
        rewrite (in_week_row ws we row s) by (split; [exact Hrow | now exists d]).
        cbn [bind]. destruct (dated_within ws we s); [ | exact Hraise].
        rewrite (amount_of_row _ _ Hrow). cbn [bind].
        rewrite Hraise. reflexivity.
      + exists s. split; [now left | split].
        * intros [d Hd']. congruence.
        * intros ws we. unfold weekly_sales. cbn [comprehension].
          destruct Hrow as (_ & _ & _ & H3). unfold in_week. rewrite H3.
          cbn [bind]. rewrite Hd. cbn [bind].
          rewrite (parse_date_raises _ _ Hd). reflexivity. }
  destruct H as (bad & Hin & Hbad & Hraise).
  exists bad. repeat split; auto.
  intros today ws we Hw. unfold analyze_weekly_sales.
  rewrite Hw. cbn [bind]. rewrite Hraise. reflexivity.
Qed.

(** *** The report over all branches *)

Lemma dict_lookup_present d k :
  In k (keys d) -> exists v, dict_get d k = Some v /\ dict_lookup d k = Ok v.
Proof.
  intros H. unfold dict_lookup.
  destruct (dict_get d k) as [v|] eqn:E.
  - exists v. split; reflexivity.
  - apply dict_get_None in E. contradiction.
Qed.

Lemma dict_lookup_absent d k :
  ~ In k (keys d) -> dict_lookup d k = Raise (KeyError k).
Proof.
  intros H. unfold dict_lookup.
  apply dict_get_None in H. rewrite H. reflexivity.
Qed.

(** The loop over sales of registered branches adds each amount to the
    entry of its branch and leaves the keys as they are. *)
Lemma add_sales_registered rows sales d :
  sales_snapshot py_int rows sales ->
  Forall (fun s => In (sale_branch s) (keys d)) sales ->
  exists d',
    add_sales py_int rows d = Ok d'
    /\ keys d' = keys d
    /\ (forall k v, dict_get d k = Some v ->
                    dict_get d' k =
                      Some (v + total (amounts_where (of_branch k) sales))).
Proof.
  intros Hsnap. revert d.
  induction Hsnap as [|row s rows sales Hrow _ IH]; intros d Hreg.
  - exists d. repeat split; auto.
    intros k v ->. cbn. f_equal. lia.
  - inversion Hreg as [|? ? Hs Hreg']; subst.
    destruct (dict_lookup_present d _ Hs) as (old & Hget & Hlook).
    cbn [add_sales]. destruct Hrow as (H0 & H1 & H2 & H3).
    rewrite H0. cbn [bind]. rewrite Hlook. cbn [bind]. rewrite H2. cbn [bind].
    set (d1 := dict_set d (sale_branch s) (old + sale_amount s)).
    assert (Hk1 : keys d1 = keys d) by (now apply keys_set_present).
    destruct (IH d1) as (d' & E & Hk & Hv).
    { rewrite Hk1. exact Hreg'. }
    exists d'. split; [exact E | split; [congruence | ]].
    intros k v Hkv. unfold amounts_where, of_branch. cbn [filter].
    destruct (String.eqb_spec (sale_branch s) k) as [<- | Hne].
    + rewrite (Hv (sale_branch s) (old + sale_amount s))
        by (unfold d1; apply dict_get_set_same).
      unfold amounts_where, of_branch. cbn [map total fold_right].
      f_equal. assert (v = old) by congruence. subst v.
      fold (total (map sale_amount
        (filter (fun s0 => String.eqb (sale_branch s0) (sale_branch s)) sales))).
      lia.
    + rewrite (Hv k v); [reflexivity | ].
      unfold d1. rewrite dict_get_set_other by exact Hne. exact Hkv.
Qed.

(** The loop stops with a key error at the first sale of a branch that
    is not a key of the dictionary. *)
Lemma add_sales_unregistered rows sales d :
  sales_snapshot py_int rows sales ->
  Exists (fun s => ~ In (sale_branch s) (keys d)) sales ->
  exists s,
    In s sales /\ ~ In (sale_branch s) (keys d)
    /\ add_sales py_int rows d = Raise (KeyError (sale_branch s)).
Proof.
  intros Hsnap. revert d.
  induction Hsnap as [|row s rows sales Hrow _ IH]; intros d Hex.
  - inversion Hex.
  - destruct (in_dec string_dec (sale_branch s) (keys d)) as [Hin | Hout].
    + destruct (dict_lookup_present d _ Hin) as (old & Hget & Hlook).
      assert (Hk1 : keys (dict_set d (sale_branch s) (old + sale_amount s))
                    = keys d) by (now apply keys_set_present).
      destruct (IH (dict_set d (sale_branch s) (old + sale_amount s)))
        as (bad & Hb1 & Hb2 & Hb3).
      { rewrite Hk1. inversion Hex; subst; [contradiction | assumption]. }
      exists bad. split; [now right | split; [now rewrite <- Hk1 | ]].
      cbn [add_sales]. destruct Hrow as (H0 & H1 & H2 & H3).
      rewrite H0. cbn [bind]. rewrite Hlook. cbn [bind]. rewrite H2. cbn [bind].
      exact Hb3.
    + exists s. split; [now left | split; [exact Hout | ]].
      cbn [add_sales]. destruct Hrow as (H0 & _).
      rewrite H0. cbn [bind]. rewrite (dict_lookup_absent _ _ Hout).
      reflexivity.
Qed.

(** A sale of a branch that is not registered is not dropped: the report
    stops with a key error for the first such sale. *)
Lemma all_branches_unregistered_sale rows sales brows branches :
  sales_snapshot py_int rows sales ->
  branches_snapshot brows branches ->
  Exists (fun s => ~ In (sale_branch s) (map branch_key branches)) sales ->
  exists s,
    In s sales /\ ~ In (sale_branch s) (map branch_key branches)
    /\ analyze_all_branches_monthly_sales py_int rows brows =
         Raise (KeyError (sale_branch s)).
Proof.
  intros Hsales Hbranches Hex.
  destruct (seed_summary_rows brows branches [] Hbranches)
    as (d0 & Eseed & Hnd & Hkeys & Hzero).
  { constructor. }
  { intros k v H. discriminate H. }
  assert (Hkeys' : forall k, In k (keys d0) <-> In k (map branch_key branches)).
  { intros k. rewrite Hkeys. cbn. tauto. }
  destruct (add_sales_unregistered rows sales d0 Hsales) as (s & Hs1 & Hs2 & Hs3).
  { eapply Exists_impl; [ | exact Hex]. intros s Hs Hin. apply Hs.
    now apply Hkeys'. }
  exists s. split; [exact Hs1 | ].
  split; [intros Hin; apply Hs2; now apply Hkeys' | ].
  unfold analyze_all_branches_monthly_sales, monthly_sales_summary.
  rewrite Eseed. cbn [bind]. rewrite Hs3. reflexivity.
Qed.

(** C1, as the program has it.  With at least one registered branch and
    every sale of a registered branch, the summary has exactly the
    registered branch keys, each once, each with the sum of the amounts
    of the sales of that branch (0 when there is none), and its keys and
    values are the bars of the chart. *)
Theorem all_branches_summary rows sales brows branches :
  sales_snapshot py_int rows sales ->
  branches_snapshot brows branches ->
  branches <> [] ->
  Forall (fun s => In (sale_branch s) (map branch_key branches)) sales ->
  exists summary,
    monthly_sales_summary py_int rows brows = Ok summary
    /\ NoDup (keys summary)
    /\ (forall k, In k (keys summary) <-> In k (map branch_key branches))
    /\ (forall k, In k (map branch_key branches) ->
                  dict_get summary k =
                    Some (total (amounts_where (of_branch k) sales)))
    /\ analyze_all_branches_monthly_sales py_int rows brows =
         Ok [banner "Monthly Sales Analysis for All Branches";
             Bar (keys summary) (map snd summary)].
Proof.
  intros Hsales Hbranches Hne Hreg.
  destruct (seed_summary_rows brows branches [] Hbranches)
    as (d0 & Eseed & Hnd & Hkeys & Hzero).
  { constructor. }
  { intros k v H. discriminate H. }
  assert (Hkeys' : forall k, In k (keys d0) <-> In k (map branch_key branches)).
  { intros k. rewrite Hkeys. cbn. tauto. }
  destruct (add_sales_registered rows sales d0 Hsales) as (d' & E & Hk & Hv).
  { eapply Forall_impl; [ | exact Hreg]. intros s Hs. now apply Hkeys'. }
  exists d'.
  assert (Esum : monthly_sales_summary py_int rows brows = Ok d').
  { unfold monthly_sales_summary. rewrite Eseed. exact E. }
  split; [exact Esum | ].
  split; [now rewrite Hk | ].
  split; [intros k; rewrite Hk; apply Hkeys' | ].
  split.
  - intros k Hin. apply Hkeys' in Hin.
    destruct (dict_lookup_present d0 k Hin) as (v & Hget & _).
    rewrite (Hv k v Hget). rewrite (Hzero k v Hget). reflexivity.
  - unfold analyze_all_branches_monthly_sales. rewrite Esum. cbn [bind].
    destruct d' as [|kv d'].
    + exfalso. destruct branches as [|b bs]; [congruence | ].
      assert (Hin : In (branch_key b) (keys d0)) by (apply Hkeys'; now left).
      rewrite <- Hk in Hin. exact Hin.
    + reflexivity.
Qed.

(** With no registered branch the report raises on every table of
    rows, well-formed or not. *)
Lemma all_branches_without_branches_any_rows (rows : list (list string)) :
  exists e, analyze_all_branches_monthly_sales py_int rows [] = Raise e.
Proof.
  unfold analyze_all_branches_monthly_sales, monthly_sales_summary.
  cbn [seed_summary bind].
  destruct rows as [|row rows]; [eexists; reflexivity | ].
  cbn [add_sales]. destruct (index row 0) as [b|e]; eexists; reflexivity.
Qed.

(** C10. With no registered branch the report over all branches always
    raises: a key error for the branch of the first sale when the log
    has a sale, and the unpacking error of the empty summary when the
    log is empty. *)
Theorem all_branches_without_branches rows sales :
  sales_snapshot py_int rows sales ->
  (exists e, analyze_all_branches_monthly_sales py_int rows [] = Raise e)
  /\ (sales = [] ->
      analyze_all_branches_monthly_sales py_int rows [] =
        Raise (ValueError "not enough values to unpack (expected 2, got 0)"))
  /\ (forall s rest, sales = s :: rest ->
      analyze_all_branches_monthly_sales py_int rows [] =
        Raise (KeyError (sale_branch s))).
Proof.
  intros Hsnap.
  destruct Hsnap as [|row s rows sales Hrow Hsnap].
  - repeat split.
    + eexists. reflexivity.
    + intros s rest H. discriminate H.
  - assert (E : analyze_all_branches_monthly_sales py_int (row :: rows) [] =
                Raise (KeyError (sale_branch s))).
    { unfold analyze_all_branches_monthly_sales, monthly_sales_summary.
      cbn [seed_summary bind add_sales]. destruct Hrow as (H0 & _).
      rewrite H0. reflexivity. }
    repeat split.
    + eexists. exact E.
    + intros H. discriminate H.
    + intros s' rest H. inversion H; subst. exact E.
Qed.

End ReportProperties.

(* ================================================================== *)
(** * The reports on the small store                                   *)
(* ================================================================== *)

Lemma demo_snapshot : sales_snapshot int_decimal demo_rows demo_sales.
Proof. repeat constructor. Defined.

Lemma demo_branches_snapshot : branches_snapshot demo_branch_rows demo_branches.
Proof. repeat constructor. Defined.

Lemma first_branch_snapshot : branches_snapshot first_branch_rows first_branch.
Proof. repeat constructor. Defined.

Lemma dotted_snapshot : sales_snapshot int_decimal dotted_rows dotted_sales.
Proof. repeat constructor. Defined.

Lemma demo_dates_parse : Forall date_parses demo_sales.
Proof. repeat constructor; eexists; vm_compute; reflexivity. Defined.

(** The scenarios of the specification. *)

Example scenario_all_branches :
  analyze_all_branches_monthly_sales int_decimal
    [["1"; "1"; "100"; "2024-01-05"]; ["1"; "2"; "50"; "2024-01-06"]]
    [["1"; "A"; "X"]]
  = Ok [banner "Monthly Sales Analysis for All Branches"; Bar ["1"] [150]].
Proof. reflexivity. Qed.

Example scenario_price_single_sale :
  analyze_price int_decimal "1" [["1"; "1"; "300"; "01/05/2024"]]
  = Ok [banner "Product Price Analysis for Product 1";
        PrintValue "Average Price: " (PyFloat (300 # 1)) " LKR";
        PrintValue "Maximum Price: " (PyInt 300) " LKR";
        PrintValue "Minimum Price: " (PyInt 300) " LKR";
        PrintValue "Median Price: " (PyFloat (300 # 1)) " LKR";
        Boxplot [300]].
Proof. vm_compute. reflexivity. Qed.

Example scenario_price_nonexistent :
  analyze_price int_decimal "nonexistent" demo_rows
  = Ok [banner "Product Price Analysis for Product nonexistent";
        no_product_data "nonexistent"].
Proof. reflexivity. Qed.

Example weekday_of_known_days :
  weekday (mkDatetime 2024 1 1 0 0 0 0) = 0
  /\ weekday wednesday = 2
  /\ weekday (mkDatetime 2024 1 7 23 59 59 0) = 6.
Proof. repeat split; reflexivity. Qed.

(** On the Wednesday morning the week runs from Monday 10:30 to Sunday
    10:30: the sales of Friday and Saturday are kept, the sale of the
    Sunday before is not, and neither is the sale dated Monday, whose
    parsed date is Monday midnight. *)
Example scenario_weekly :
  week_window wednesday
    = Ok (mkDatetime 2024 1 1 10 30 0 0, mkDatetime 2024 1 7 10 30 0 0)
  /\ analyze_weekly_sales int_decimal wednesday demo_rows
     = Ok [banner "Weekly Sales Analysis for the Supermarket Network";
           PrintValue "Weekly Sales Total: " (PyInt 150) " LKR";
           PrintValue "Average Sales per Day: " (PyFloat (75 # 1)) " LKR"].
Proof. split; vm_compute; reflexivity. Qed.

(** The week of a day after 25 December 9999 ends past the last day that
    a [datetime] holds. *)
Example week_window_last_week :
  week_window (mkDatetime 9999 12 25 10 30 0 0)
    = Ok (mkDatetime 9999 12 20 10 30 0 0, mkDatetime 9999 12 26 10 30 0 0)
  /\ week_window (mkDatetime 9999 12 31 10 30 0 0)
     = Raise (OverflowError "date value out of range").
Proof. split; vm_compute; reflexivity. Qed.

(** At midnight the sale dated Monday is kept; the mean of the three
    amounts is the double that prints as [52.333333333333336]. *)
Example scenario_weekly_at_midnight :
  analyze_weekly_sales int_decimal (mkDatetime 2024 1 3 0 0 0 0) demo_rows
  = Ok [banner "Weekly Sales Analysis for the Supermarket Network";
        PrintValue "Weekly Sales Total: " (PyInt 157) " LKR";
        PrintValue "Average Sales per Day: "
                   (PyFloat (7365261890595499 # 140737488355328)) " LKR"].
Proof. vm_compute. reflexivity. Qed.

(** Doubles as the program prints them: the mean of ten sales by pairwise
    summation, and one amount that is no double. *)
Example means_in_double_precision :
  Numpy.mean [1; 2; 3; 4; 5; 6; 7; 8; 9; 10] = PyFloat (11 # 2)
  /\ Numpy.mean [1; 0; 0] = PyFloat (6004799503160661 # 18014398509481984)
  /\ Numpy.mean [9007199254740993] = PyFloat (9007199254740992 # 1)
  /\ Numpy.median [9007199254740993; 1] = PyFloat (4503599627370496 # 1).
Proof. repeat split; vm_compute; reflexivity. Qed.

(** ['%Y-%m-%d'] also reads months and days of one digit; such a text is
    not of the shape [YYYY-MM-DD]. *)
Example one_digit_month_and_day :
  parse_date "2024-1-5" = Ok (mkDatetime 2024 1 5 0 0 0 0)
  /\ isoformat (mkDatetime 2024 1 5 0 0 0 0) = "2024-01-05"
  /\ valid_iso_date "2024-1-5" = false.
Proof. repeat split; vm_compute; reflexivity. Qed.

(** C3 as the specification words it does not hold: the mean and the
    median are doubles, and [2 ^ 53 + 1] is none; for that one amount
    both are [2 ^ 53], below the minimum. *)
Lemma mean_below_minimum :
  price_statistics [9007199254740993]
    = Ok (PyFloat (inject_Z 9007199254740992), 9007199254740993,
          9007199254740993, PyFloat (inject_Z 9007199254740992))
  /\ ~ (inject_Z 9007199254740993 <= inject_Z 9007199254740992)%Q.
Proof.
  split; [vm_compute; reflexivity | ].
  unfold Qle, inject_Z. cbn [Qnum Qden]. lia.
Qed.


(** C1 as the specification words it does not hold: with only branch 1
    registered, the sales of branch 2 are not dropped from the report; the
    report raises a key error at the first of them. *)
Lemma unregistered_branch_raises :
  sales_snapshot int_decimal demo_rows demo_sales
  /\ branches_snapshot first_branch_rows first_branch
  /\ In (mkSale "2" "1" 7 "2024-01-01") demo_sales
  /\ ~ In "2" (map branch_key first_branch)
  /\ analyze_all_branches_monthly_sales int_decimal demo_rows first_branch_rows
     = Raise (KeyError "2").
Proof.
  split; [exact demo_snapshot | ].
  split; [exact first_branch_snapshot | ].
  split; [simpl; auto | ].
  split; [intros [H | []]; discriminate H | reflexivity].
Qed.

(** ** Instances of the theorems *)

Lemma all_branches_summary_demo :
  sales_snapshot int_decimal demo_rows demo_sales
  /\ branches_snapshot demo_branch_rows demo_branches
  /\ exists summary,
       monthly_sales_summary int_decimal demo_rows demo_branch_rows = Ok summary
       /\ dict_get summary "1" = Some 150
       /\ dict_get summary "2" = Some 16.
Proof.
  split; [exact demo_snapshot | ].
  split; [exact demo_branches_snapshot | ].
  destruct (all_branches_summary int_decimal demo_rows demo_sales
              demo_branch_rows demo_branches
              demo_snapshot demo_branches_snapshot)
    as (summary & E & _ & _ & Hv & _).
  - discriminate.
  - repeat apply Forall_cons; try apply Forall_nil; simpl; auto.
  - exists summary. split; [exact E | ].
    split; [exact (Hv "1" (or_introl eq_refl))
           | exact (Hv "2" (or_intror (or_introl eq_refl)))].
Defined.

Lemma price_statistics_ordered_demo :
  exists mean med,
    price_statistics [100; 7; 9] = Ok (PyFloat mean, 100, 7, PyFloat med)
    /\ (7 # 1 <= med)%Q /\ (med <= 100 # 1)%Q
    /\ (7 # 1 <= mean)%Q /\ (mean <= 100 # 1)%Q.
Proof.
  destruct (price_statistics_ordered [100; 7; 9]) as
    (mean & mx & mn & med & E & _ & _ & _ & _ & _ & H1 & H2 & H3 & H4).
  - discriminate.
  - vm_compute. discriminate.
  - vm_compute. discriminate.
  - assert (E' := E). vm_compute in E'.
    injection E' as _ Emx Emn _. subst mx mn.
    exists mean, med.
    split; [exact E | ]. split; [exact H1 | ]. split; [exact H2 | ].
    split; [exact H3 | exact H4].
Defined.

Lemma analyze_total_sales_amount_sum_demo :
  analyze_total_sales_amount int_decimal demo_rows =
    Ok [banner "Total Sales Revenue Analysis";
        PrintValue "Overall Sales Revenue: " (PyInt 166) " LKR"].
Proof.
  exact (proj1 (analyze_total_sales_amount_sum int_decimal demo_rows demo_sales
                  demo_snapshot)).
Defined.

Lemma analyze_monthly_sales_selects_demo :
  analyze_monthly_sales int_decimal "1" demo_rows =
    Ok [banner "Monthly Sales Analysis for Branch 1"; Hist [100; 50]].
Proof.
  exact (proj1 (analyze_monthly_sales_selects int_decimal "1" demo_rows demo_sales
                  demo_snapshot)).
Defined.

Lemma weekly_sales_bad_date_demo :
  exists bad,
    In bad dotted_sales
    /\ analyze_weekly_sales int_decimal wednesday dotted_rows =
         Raise (ValueError (not_recognized (sale_date bad))).
Proof.
  destruct (weekly_sales_bad_date int_decimal dotted_rows dotted_sales
              dotted_snapshot) as (bad & Hin & _ & _ & Hreport).
  - right. left. intros [d Hd]. discriminate Hd.
  - exists bad. split; [exact Hin | ].
    exact (Hreport wednesday _ _ eq_refl).
Defined.

Lemma analyze_price_no_data_demo :
  analyze_price int_decimal "nonexistent" demo_rows =
    Ok [banner "Product Price Analysis for Product nonexistent";
        no_product_data "nonexistent"].
Proof.
  apply (proj1 (analyze_price_no_data int_decimal "nonexistent" demo_rows
                  demo_sales demo_snapshot)).
  intros s Hs. simpl in Hs.
  repeat (destruct Hs as [<- | Hs]; [discriminate | ]).
  destruct Hs.
Defined.

Lemma parse_date_iso_round_trip_demo :
  exists t, parse_date "2024-02-29" = Ok t /\ isoformat t = "2024-02-29".
Proof.
  exact (parse_date_iso_round_trip "2024-02-29" eq_refl).
Defined.

Lemma all_branches_without_branches_demo :
  analyze_all_branches_monthly_sales int_decimal demo_rows [] =
    Raise (KeyError "1").
Proof.
  exact (proj2 (proj2 (all_branches_without_branches int_decimal demo_rows
                         demo_sales demo_snapshot)) _ _ eq_refl).
Defined.

(* ================================================================== *)
(** * Files, loaders and commands: properties                          *)
(* ================================================================== *)

(** ** File names *)

Lemma starts_with_spec p l :
  starts_with p l = true <-> exists r, l = (p ++ r)%list.
Proof.
  revert l; induction p as [|a p IH]; intros l; simpl.
  - split; [intros _; now exists l | reflexivity].
  - destruct l as [|b l].
    + split; [discriminate | intros [r H]; discriminate H].
    + rewrite andb_true_iff, Ascii.eqb_eq, IH. split.
      * intros [-> [r ->]]. now exists r.
      * intros [r H]. injection H as -> ->. split; [reflexivity | now exists r].
Qed.

Lemma list_ascii_of_string_app a b :
  list_ascii_of_string (a ++ b) =
    (list_ascii_of_string a ++ list_ascii_of_string b)%list.
Proof. induction a as [|c a IH]; simpl; [reflexivity | now rewrite IH]. Qed.

(** [endswith] is true exactly of the texts that end with the suffix. *)
Lemma endswith_spec s suffix :
  endswith s suffix = true <-> exists x, s = x ++ suffix.
Proof.
  unfold endswith. rewrite starts_with_spec. split.
  - intros [r H]. exists (string_of_list_ascii (rev r)).
    apply (f_equal (@rev ascii)) in H.
    rewrite rev_involutive, rev_app_distr, rev_involutive in H.
    rewrite <- (string_of_list_ascii_of_string s), H.
    rewrite <- (string_of_list_ascii_of_string
                  (string_of_list_ascii (rev r) ++ suffix)).
    now rewrite list_ascii_of_string_app, list_ascii_of_string_of_list_ascii.
  - intros [x ->]. exists (rev (list_ascii_of_string x)).
    now rewrite list_ascii_of_string_app, rev_app_distr.
Qed.

Lemma create_loader_supported name :
  supported name -> create_loader name = Ok (mkCSVDataLoader name).
Proof.
  intros (x & base & Hin & ->). unfold create_loader.
  assert (E : forall b, endswith (x ++ b) b = true)
    by (intros b; apply endswith_spec; now exists x).
  simpl in Hin.
  destruct Hin as [<- | [<- | [<- | [<- | []]]]].
  - unfold USER_DATA_FILE. now rewrite E.
  - unfold BRANCH_DATA_FILE. rewrite E.
    now destruct (endswith (x ++ "branches.csv") "users.csv").
  - unfold PRODUCT_DATA_FILE. rewrite E.
    now destruct (endswith (x ++ "products.csv") "users.csv"),
                 (endswith (x ++ "products.csv") "branches.csv").
  - unfold SALES_DATA_FILE. rewrite E.
    now destruct (endswith (x ++ "sales.csv") "users.csv"),
                 (endswith (x ++ "sales.csv") "branches.csv"),
                 (endswith (x ++ "sales.csv") "products.csv").
Qed.

Lemma create_loader_unsupported name :
  ~ supported name -> create_loader name = Raise (ValueError "Unsupported file type").
Proof.
  intros H. unfold create_loader.
  assert (E : forall base,
             In base [USER_DATA_FILE; BRANCH_DATA_FILE; PRODUCT_DATA_FILE;
                      SALES_DATA_FILE] ->
             endswith name base = false).
  { intros base Hin. destruct (endswith name base) eqn:Hb; [ | reflexivity].
    apply endswith_spec in Hb as [x ->]. elim H. now exists x, base. }
  pose proof (E USER_DATA_FILE ltac:(simpl; auto)) as E1.
  pose proof (E BRANCH_DATA_FILE ltac:(simpl; auto)) as E2.
  pose proof (E PRODUCT_DATA_FILE ltac:(simpl; auto)) as E3.
  pose proof (E SALES_DATA_FILE ltac:(simpl; auto 6)) as E4.
  unfold USER_DATA_FILE in E1. unfold BRANCH_DATA_FILE in E2.
  unfold PRODUCT_DATA_FILE in E3. unfold SALES_DATA_FILE in E4.
  now rewrite E1, E2, E3, E4.
Qed.

(** What [load_data] returns for a name that the factory accepts. *)
Lemma load_data_supported name fs :
  supported name ->
  load_data name fs =
    match fs name with
    | None => Done [] fs
    | Some [] => Fail StopIteration fs
    | Some (_ :: data) => Done data fs
    end.
Proof.
  intros H. unfold load_data, io_bind.
  rewrite (create_loader_supported _ H). cbn [lift io_ret file_name].
  unfold CSVDataLoader_load_data, io_bind, path_exists, read_rows.
  cbn [file_name].
  destruct (fs name) as [[|hd data]|] eqn:E; cbv beta iota; rewrite ?E;
    reflexivity.
Qed.

(** X1. [load_data] accepts exactly the names that end with one of the
    four file names of the program; for any other name, whether or not
    such a file is there, it raises "Unsupported file type" and leaves the
    files as they are. *)
Theorem load_data_accepts_four_suffixes name fs :
  (supported name <-> exists r, load_data name fs = Done r fs \/
                                load_data name fs = Fail StopIteration fs)
  /\ (~ supported name <->
      load_data name fs = Fail (Builtin (ValueError "Unsupported file type")) fs).
Proof.
  assert (Hyes : supported name ->
                 exists r, load_data name fs = Done r fs \/
                           load_data name fs = Fail StopIteration fs).
  { intros H. rewrite (load_data_supported _ _ H).
    destruct (fs name) as [[|hd data]|].
    - exists []. now right.
    - exists data. now left.
    - exists []. now left. }
  assert (Hno : ~ supported name ->
                load_data name fs =
                  Fail (Builtin (ValueError "Unsupported file type")) fs).
  { intros H. unfold load_data, io_bind.
    now rewrite (create_loader_unsupported _ H). }
  split; split.
  - exact Hyes.
  - intros [r Hr] .
    destruct (create_loader name) as [l|e] eqn:E.
    + unfold create_loader in E.
      repeat match type of E with
             | context [if endswith name ?b then _ else _] =>
                 let Hb := fresh "Hb" in
                 destruct (endswith name b) eqn:Hb;
                   [apply endswith_spec in Hb as [x Hx]; exists x, b;
                    split; [simpl; auto | exact Hx] | ]
             end.
      discriminate E.
    + unfold load_data, io_bind in Hr. rewrite E in Hr.
      destruct Hr as [Hr | Hr]; discriminate Hr.
  - exact Hno.
  - intros H Hs. destruct (Hyes Hs) as [r [Hr | Hr]]; rewrite Hr in H;
      discriminate H.
Qed.

(** ** Saving and loading *)

(** The file after [save_data]: the rows it had, then the header row when
    the file is new and headers are given, then the data; every other
    file is as before. *)
Lemma save_data_files name data headers fs :
  exists fs',
    save_data name data headers fs = Done tt fs'
    /\ fs' name =
         Some (match fs name with
               | Some old => old ++ data
               | None =>
                   (if truthy headers
                    then [match headers with Some h => h | None => [] end]
                    else []) ++ data
               end)%list
    /\ (forall other, other <> name -> fs' other = fs other).
Proof.
  unfold save_data, io_bind, path_exists, append_rows, io_ret.
  destruct (fs name) as [old|] eqn:E; cbn [negb andb].
  - eexists. split; [reflexivity | ]. cbv beta. split.
    + rewrite !String.eqb_refl. now rewrite !app_nil_r.
    + intros other Ho. apply String.eqb_neq in Ho. now rewrite !Ho.
  - destruct (truthy headers).
    + eexists. split; [reflexivity | ]. cbv beta. split.
      * now rewrite !String.eqb_refl.
      * intros other Ho. apply String.eqb_neq in Ho. now rewrite !Ho.
    + eexists. split; [reflexivity | ]. cbv beta. split.
      * now rewrite !String.eqb_refl.
      * intros other Ho. apply String.eqb_neq in Ho. now rewrite !Ho.
Qed.



(** ** Start-up and login *)

Lemma login_rows_found username password rows :
  Forall (fun row => (2 <= List.length row)%nat) rows ->
  exists found,
    login_rows username password rows = Ok found
    /\ (found = true <->
        exists row, In row rows /\ index row 0 = Ok username
                    /\ index row 1 = Ok password).
Proof.
  induction 1 as [|row rows Hrow _ IH].
  - exists false. split; [reflexivity | ].
    split; [discriminate | intros (row & [] & _)].
  - destruct row as [|r0 [|r1 row]]; cbn [List.length] in Hrow; try lia.
    destruct IH as (found & E & Hfound).
    cbn [login_rows index nth_error bind].
    destruct (String.eqb_spec r0 username) as [-> | H0].
    + destruct (String.eqb_spec r1 password) as [-> | H1].
      * exists true. split; [reflexivity | ].
        split; [intros _ | reflexivity].
        eexists. split; [now left | split; reflexivity].
      * exists found. split; [exact E | ]. rewrite Hfound. split.
        -- intros (row' & Hin & Hu & Hp). exists row'. split; [now right | auto].
        -- intros (row' & [<- | Hin] & Hu & Hp).
           ++ cbn in Hp. congruence.
           ++ now exists row'.
    + exists found. split; [exact E | ]. rewrite Hfound. split.
      * intros (row' & Hin & Hu & Hp). exists row'. split; [now right | auto].
      * intros (row' & [<- | Hin] & Hu & Hp).
        -- cbn in Hu. congruence.
        -- now exists row'.
Qed.

(** X4. When every row of the user file has at least two fields,
    [login_user] returns without touching the files, and returns [True]
    exactly when some row of the file, the header row included, holds the
    user name and the password in its first two fields. *)
Theorem login_user_checks_every_row username password rows fs :
  fs USER_DATA_FILE = Some rows ->
  Forall (fun row => (2 <= List.length row)%nat) rows ->
  exists found,
    login_user username password fs = Done ([Print "<<<< User Login >>>>"], found) fs
    /\ (found = true <->
        exists row, In row rows /\ index row 0 = Ok username
                    /\ index row 1 = Ok password).
Proof.
  intros Hf Hrows.
  destruct (login_rows_found username password rows Hrows) as (found & E & H).
  exists found. split; [ | exact H].
  unfold login_user, io_bind, read_rows. rewrite Hf, E. reflexivity.
Qed.

(** What [ensure_file] leaves: a file that is there is kept, a file that
    is not is created with its header row alone. *)
Lemma ensure_file_files name headers fs :
  headers <> [] ->
  exists fs',
    ensure_file name headers fs = Done tt fs'
    /\ fs' name = Some (match fs name with
                        | Some t => t
                        | None => [headers]
                        end)
    /\ (forall other, other <> name -> fs' other = fs other).
Proof.
  intros Hh. unfold ensure_file, io_bind, path_exists.
  destruct (fs name) as [t|] eqn:E.
  - exists fs. split; [reflexivity | split; [exact E | reflexivity]].
  - destruct (save_data_files name [] (Some headers) fs) as (fs' & Es & Hn & Ho).
    exists fs'. split; [exact Es | split; [ | exact Ho]].
    rewrite Hn, E. destruct headers; [congruence | reflexivity].
Qed.

Lemma main_start_up_files fs :
  exists fs',
    main_start_up fs = Done tt fs'
    /\ (forall name,
           In name [USER_DATA_FILE; BRANCH_DATA_FILE; PRODUCT_DATA_FILE;
                    SALES_DATA_FILE] ->
           fs' name = Some (match fs name with
                            | Some t => t
                            | None => [header_of name]
                            end))
    /\ (forall other,
           ~ In other [USER_DATA_FILE; BRANCH_DATA_FILE; PRODUCT_DATA_FILE;
                       SALES_DATA_FILE] ->
           fs' other = fs other).
Proof.
  unfold main_start_up, io_bind.
  destruct (ensure_file_files USER_DATA_FILE ["Username"; "Password"] fs)
    as (f1 & E1 & N1 & O1); [discriminate | ].
  destruct (ensure_file_files BRANCH_DATA_FILE
              ["Branch ID"; "Branch Name"; "Location"] f1)
    as (f2 & E2 & N2 & O2); [discriminate | ].
  destruct (ensure_file_files PRODUCT_DATA_FILE ["Product ID"; "Product Name"] f2)
    as (f3 & E3 & N3 & O3); [discriminate | ].
  destruct (ensure_file_files SALES_DATA_FILE
              ["Branch ID"; "Product ID"; "Amount Sold"; "Date"] f3)
    as (f4 & E4 & N4 & O4); [discriminate | ].
  exists f4. rewrite E1, E2, E3, E4. split; [reflexivity | split].
  - intros name Hin. simpl in Hin.
    destruct Hin as [<- | [<- | [<- | [<- | []]]]].
    + rewrite O4, O3, O2, N1 by discriminate. reflexivity.
    + rewrite O4, O3, N2, O1 by discriminate. reflexivity.
    + rewrite O4, N3, O2, O1 by discriminate. reflexivity.
    + rewrite N4, O3, O2, O1 by discriminate. reflexivity.
  - intros other Hout. simpl in Hout.
    rewrite O4, O3, O2, O1 by (intros ->; tauto). reflexivity.
Qed.

(** X5. The start-up block of [main] never fails; it keeps every file that
    is there as it is, creates each of the four files that is not there
    with its header row alone, so that loading it gives no row, and
    touches no other file. *)
Theorem main_start_up_creates_missing_files fs :
  exists fs',
    main_start_up fs = Done tt fs'
    /\ (forall name,
           In name [USER_DATA_FILE; BRANCH_DATA_FILE; PRODUCT_DATA_FILE;
                    SALES_DATA_FILE] ->
           (fs name = None ->
            fs' name = Some [header_of name] /\ load_data name fs' = Done [] fs')
           /\ (fs name <> None -> fs' name = fs name))
    /\ (forall other,
           ~ In other [USER_DATA_FILE; BRANCH_DATA_FILE; PRODUCT_DATA_FILE;
                       SALES_DATA_FILE] ->
           fs' other = fs other).
Proof.
  destruct (main_start_up_files fs) as (fs' & E & Hin & Hout).
  exists fs'. split; [exact E | split; [ | exact Hout]].
  intros name Hname. specialize (Hin name Hname).
  assert (Hs : supported name) by (exists "", name; now split).
  split.
  - intros Hnone. rewrite Hnone in Hin. split; [exact Hin | ].
    now rewrite (load_data_supported _ _ Hs), Hin.
  - intros Hsome. destruct (fs name); [exact Hin | congruence].
Qed.

(** X6. On a system without a user file, the start-up block creates one
    that holds the header row only, and [login_user] reads that row as a
    credential: the only user name and password it then accepts are the
    two header texts. *)
Theorem login_after_first_start_up username password fs :
  fs USER_DATA_FILE = None ->
  exists fs' found,
    main_start_up fs = Done tt fs'
    /\ login_user username password fs' =
         Done ([Print "<<<< User Login >>>>"], found) fs'
    /\ (found = true <-> username = "Username" /\ password = "Password").
Proof.
  intros Hnone.
  destruct (main_start_up_files fs) as (fs' & E & Hin & _).
  specialize (Hin USER_DATA_FILE (or_introl eq_refl)). rewrite Hnone in Hin.
  exists fs'.
  unfold login_user, io_bind, read_rows. rewrite Hin.
  cbn [login_rows index nth_error bind header_of]. cbn [String.eqb Ascii.eqb].
  change (header_of USER_DATA_FILE) with ["Username"; "Password"].
  cbn [login_rows index nth_error bind].
  destruct (String.eqb_spec "Username" username) as [<- | Hu].
  - destruct (String.eqb_spec "Password" password) as [<- | Hp].
    + exists true. split; [exact E | split; [reflexivity | ]].
      split; [intros _; split; reflexivity | reflexivity].
    + exists false. split; [exact E | split; [reflexivity | ]].
      split; [discriminate | intros [_ H]; congruence].
  - exists false. split; [exact E | split; [reflexivity | ]].
    split; [discriminate | intros [H _]; congruence].
Qed.

(** ** The two commands that write *)

Lemma register_branch_run branch_id branch_name branch_location fs :
  RegisterBranchCommand_execute branch_id branch_name branch_location fs =
    match fs BRANCH_DATA_FILE with
    | None => Fail (FileNotFoundError BRANCH_DATA_FILE) fs
    | Some [] => Fail StopIteration fs
    | Some (_ :: old) =>
        match save_data BRANCH_DATA_FILE
                (old ++ [[branch_id; branch_name; branch_location]])%list
                (Some ["Branch ID"; "Branch Name"; "Location"])
                (fun n => if String.eqb n BRANCH_DATA_FILE then None else fs n)
        with
        | Done _ fs' =>
            Done [Print (nl ++ "<<<< Register a New Branch >>>>");
                  Print ("Branch " ++ branch_name ++ " has been successfully added.")]
                 fs'
        | Fail e fs' => Fail e fs'
        end
    end.
Proof.
  unfold RegisterBranchCommand_execute, io_bind at 1.
  rewrite (load_data_supported BRANCH_DATA_FILE fs)
    by (exists "", BRANCH_DATA_FILE; split; [simpl; auto | reflexivity]).
  destruct (fs BRANCH_DATA_FILE) as [[|hd old]|] eqn:E.
  - reflexivity.
  - unfold io_bind, os_remove. rewrite E. reflexivity.
  - unfold io_bind, os_remove. rewrite E. reflexivity.
Qed.


(** X8. [RegisterBranchCommand] needs its file: when the branch file is
    not there it raises [FileNotFoundError] (from [os.remove]: loading a
    missing file gives no rows and no error), and when the file has no
    row at all it raises [StopIteration]; in both cases every file is
    left as it was. *)
Theorem register_branch_needs_its_file branch_id branch_name branch_location fs :
  (fs BRANCH_DATA_FILE = None ->
   load_data BRANCH_DATA_FILE fs = Done [] fs
   /\ RegisterBranchCommand_execute branch_id branch_name branch_location fs =
        Fail (FileNotFoundError BRANCH_DATA_FILE) fs)
  /\ (fs BRANCH_DATA_FILE = Some [] ->
      RegisterBranchCommand_execute branch_id branch_name branch_location fs =
        Fail StopIteration fs).
Proof.
  split; intros Hf; rewrite register_branch_run, Hf; [ | reflexivity].
  split; [ | reflexivity].
  rewrite (load_data_supported BRANCH_DATA_FILE fs)
    by (exists "", BRANCH_DATA_FILE; split; [simpl; auto | reflexivity]).
  now rewrite Hf.
Qed.

(** ** Printing a date and reading it back *)

Lemma is_digit_digit_char k : 0 <= k <= 9 -> is_digit (digit_char k) = true.
Proof.
  intros H.
  assert (C : k = 0 \/ k = 1 \/ k = 2 \/ k = 3 \/ k = 4 \/ k = 5 \/ k = 6
              \/ k = 7 \/ k = 8 \/ k = 9) by lia.
  repeat (destruct C as [-> | C]; [reflexivity | ]). now subst k.
Qed.

Lemma digit_val_digit_char k : 0 <= k <= 9 -> digit_val (digit_char k) = k.
Proof.
  intros H.
  assert (C : k = 0 \/ k = 1 \/ k = 2 \/ k = 3 \/ k = 4 \/ k = 5 \/ k = 6
              \/ k = 7 \/ k = 8 \/ k = 9) by lia.
  repeat (destruct C as [-> | C]; [reflexivity | ]). now subst k.
Qed.

Lemma zfill_length w n : List.length (zfill w n) = w.
Proof.
  revert n; induction w as [|w IH]; intros n; cbn [zfill].
  - reflexivity.
  - rewrite length_app, IH. cbn. lia.
Qed.

Lemma zfill_digits w n : forallb is_digit (zfill w n) = true.
Proof.
  revert n; induction w as [|w IH]; intros n; cbn [zfill].
  - reflexivity.
  - rewrite forallb_app, IH. cbn [forallb andb].
    rewrite is_digit_digit_char; [reflexivity | ].
    pose proof (Z.mod_pos_bound n 10). lia.
Qed.

Lemma group_int_zfill w n :
  0 <= n < 10 ^ Z.of_nat w -> group_int (zfill w n) = n.
Proof.
  revert n; induction w as [|w IH]; intros n Hn.
  - cbn in *. change (group_int []) with 0. lia.
  - cbn [zfill].
    assert (Hm : 0 <= n mod 10 <= 9) by (pose proof (Z.mod_pos_bound n 10); lia).
    rewrite group_int_snoc by (now apply is_digit_digit_char).
    rewrite digit_val_digit_char by exact Hm.
    rewrite IH.
    + pose proof (Z.div_mod n 10). lia.
    + rewrite Nat2Z.inj_succ, Z.pow_succ_r in Hn by lia.
      split; [apply Z.div_pos; lia | apply Z.div_lt_upper_bound; lia].
Qed.

Lemma make_date_calendar_day y m d :
  calendar_day y m d -> make_date y m d = Ok (mkDatetime y m d 0 0 0 0).
Proof.
  intros (Hy & Hm & Hd). unfold make_date, MAXYEAR.
  replace ((1 <=? y) && (y <=? 9999)) with true
    by (symmetry; apply andb_true_iff; split; apply Z.leb_le; lia).
  replace ((1 <=? m) && (m <=? 12)) with true
    by (symmetry; apply andb_true_iff; split; apply Z.leb_le; lia).
  replace ((1 <=? d) && (d <=? days_in_month y m)) with true
    by (symmetry; apply andb_true_iff; split; apply Z.leb_le; lia).
  reflexivity.
Qed.

Lemma forallb_digits_2 (c1 c2 : ascii) :
  forallb is_digit [c1; c2] = true -> is_digit c1 = true /\ is_digit c2 = true.
Proof. cbn [forallb]. rewrite !andb_true_iff. tauto. Qed.

(** Ten characters in the shape of ['%Y-%m-%d'] that name a day of the
    calendar are read as that day, at midnight. *)
Lemma strptime_Y_m_d_chars y1 y2 y3 y4 m1 m2 d1 d2 :
  forallb is_digit [y1; y2; y3; y4] = true ->
  forallb is_digit [m1; m2] = true ->
  forallb is_digit [d1; d2] = true ->
  calendar_day (group_int [y1; y2; y3; y4]) (group_int [m1; m2])
               (group_int [d1; d2]) ->
  strptime
    (string_of_list_ascii [y1; y2; y3; y4; "-"; m1; m2; "-"; d1; d2]%char)
    FMT_Y_m_d
  = Ok (mkDatetime (group_int [y1; y2; y3; y4]) (group_int [m1; m2])
                   (group_int [d1; d2]) 0 0 0 0).
Proof.
  intros Hyd Hmd Hdd Hcal.
  destruct (forallb_digits_2 _ _ Hmd) as [Hm1 Hm2].
  destruct (forallb_digits_2 _ _ Hdd) as [Hd1 Hd2].
  pose proof Hcal as (Hy & Hm & Hd).
  pose proof (days_in_month_le_31 (group_int [y1; y2; y3; y4]) _ Hm) as H31.
  destruct (alternatives_d d1 d2 [] Hd1 Hd2 ltac:(lia)) as [tld Had].
  destruct (alternatives_m m1 m2 ("-" :: [d1; d2])%char Hm1 Hm2 ltac:(lia))
    as [tlm Ham].
  assert (Hmatch : exists ys,
    re_match FMT_Y_m_d [y1; y2; y3; y4; "-"; m1; m2; "-"; d1; d2]%char no_groups
    = (mkGroups (Some (group_int [y1; y2; y3; y4])) (Some (group_int [m1; m2]))
                (Some (group_int [d1; d2])), []) :: ys).
  { unfold FMT_Y_m_d.
    eapply re_match_first; [apply alternatives_Y; exact Hyd | ].
    eapply re_match_first; [apply alternatives_Lit | ].
    eapply re_match_first; [exact Ham | ].
    eapply re_match_first; [apply alternatives_Lit | ].
    eapply re_match_first; [exact Had | ].
    eexists. reflexivity. }
  destruct Hmatch as [ys Hmatch].
  unfold strptime. rewrite list_ascii_of_string_of_list_ascii, Hmatch.
  cbn [group_Y group_m group_d default].
  now apply make_date_calendar_day.
Qed.

Lemma zfill_2 n : zfill 2 n = [digit_char (n / 10 mod 10); digit_char (n mod 10)].
Proof. reflexivity. Qed.

Lemma zfill_4 n :
  zfill 4 n = [digit_char (n / 10 / 10 / 10 mod 10);
               digit_char (n / 10 / 10 mod 10);
               digit_char (n / 10 mod 10); digit_char (n mod 10)].
Proof. reflexivity. Qed.

Lemma days_in_month_small y m : 1 <= m <= 12 -> days_in_month y m < 100.
Proof. intros H. pose proof (days_in_month_le_31 y m H). lia. Qed.

Lemma parse_isoformat (t : datetime) :
  calendar_day (year t) (month t) (day t) ->
  parse_date (isoformat t) = Ok (mkDatetime (year t) (month t) (day t) 0 0 0 0).
Proof.
  intros Hcal. pose proof Hcal as (Hy & Hm & Hd).
  pose proof (days_in_month_small (year t) _ Hm) as Hd100.
  assert (Ey : group_int (zfill 4 (year t)) = year t)
    by (apply group_int_zfill; change (10 ^ Z.of_nat 4) with 10000; lia).
  assert (Em : group_int (zfill 2 (month t)) = month t)
    by (apply group_int_zfill; change (10 ^ Z.of_nat 2) with 100; lia).
  assert (Ed : group_int (zfill 2 (day t)) = day t)
    by (apply group_int_zfill; change (10 ^ Z.of_nat 2) with 100; lia).
  pose proof (zfill_digits 4 (year t)) as Dy.
  pose proof (zfill_digits 2 (month t)) as Dm.
  pose proof (zfill_digits 2 (day t)) as Dd.
  rewrite parse_date_unfold. unfold isoformat.
  rewrite zfill_4, !zfill_2 in *. cbn [app].
  rewrite strptime_Y_m_d_chars; try assumption.
  - now rewrite Ey, Em, Ed.
  - now rewrite Ey, Em, Ed.
Qed.

(** Ten characters in the shape of ['%m/%d/%Y'] that name a day of the
    calendar do not match ['%Y-%m-%d'] and are read by ['%m/%d/%Y'] as
    that day, at midnight. *)
Lemma parse_date_m_d_Y_chars y1 y2 y3 y4 m1 m2 d1 d2 :
  forallb is_digit [y1; y2; y3; y4] = true ->
  forallb is_digit [m1; m2] = true ->
  forallb is_digit [d1; d2] = true ->
  calendar_day (group_int [y1; y2; y3; y4]) (group_int [m1; m2])
               (group_int [d1; d2]) ->
  parse_date
    (string_of_list_ascii [m1; m2; "/"; d1; d2; "/"; y1; y2; y3; y4]%char)
  = Ok (mkDatetime (group_int [y1; y2; y3; y4]) (group_int [m1; m2])
                   (group_int [d1; d2]) 0 0 0 0).
Proof.
  intros Hyd Hmd Hdd Hcal.
  destruct (forallb_digits_2 _ _ Hmd) as [Hm1 Hm2].
  destruct (forallb_digits_2 _ _ Hdd) as [Hd1 Hd2].
  pose proof Hcal as (Hy & Hm & Hd).
  pose proof (days_in_month_le_31 (group_int [y1; y2; y3; y4]) _ Hm) as H31.
  destruct (alternatives_d d1 d2 ("/" :: [y1; y2; y3; y4])%char Hd1 Hd2
              ltac:(lia)) as [tld Had].
  destruct (alternatives_m m1 m2 ("/" :: d1 :: d2 :: "/" :: [y1; y2; y3; y4])%char
              Hm1 Hm2 ltac:(lia)) as [tlm Ham].
  assert (Hmatch : exists ys,
    re_match FMT_m_d_Y [m1; m2; "/"; d1; d2; "/"; y1; y2; y3; y4]%char no_groups
    = (mkGroups (Some (group_int [y1; y2; y3; y4])) (Some (group_int [m1; m2]))
                (Some (group_int [d1; d2])), []) :: ys).
  { unfold FMT_m_d_Y.
    eapply re_match_first; [exact Ham | ].
    eapply re_match_first; [apply alternatives_Lit | ].
    eapply re_match_first; [exact Had | ].
    eapply re_match_first; [apply alternatives_Lit | ].
    eapply re_match_first; [apply alternatives_Y; exact Hyd | ].
    eexists. reflexivity. }
  destruct Hmatch as [ys Hmatch].
  assert (Hno : strptime
            (string_of_list_ascii [m1; m2; "/"; d1; d2; "/"; y1; y2; y3; y4]%char)
            FMT_Y_m_d = Raise (ValueError "time data does not match format")).
  { unfold strptime. rewrite list_ascii_of_string_of_list_ascii.
    unfold FMT_Y_m_d. cbn [re_match alternatives four].
    replace (is_digit "/") with false by reflexivity.
    rewrite !andb_false_r. cbn [andb flat_map]. reflexivity. }
  rewrite parse_date_unfold, Hno.
  unfold strptime. rewrite list_ascii_of_string_of_list_ascii, Hmatch.
  cbn [group_Y group_m group_d default].
  now rewrite (make_date_calendar_day _ _ _ Hcal).
Qed.

(** X9. Printing then reading: for every day of the calendar, at any time
    of the day, [parse_date] reads both accepted notations of the date,
    [YYYY-MM-DD] and [MM/DD/YYYY], as that day at midnight. *)
Theorem parse_date_of_printed_date (t : datetime) :
  calendar_day (year t) (month t) (day t) ->
  parse_date (isoformat t) = Ok (mkDatetime (year t) (month t) (day t) 0 0 0 0)
  /\ parse_date (slashformat t)
     = Ok (mkDatetime (year t) (month t) (day t) 0 0 0 0).
Proof.
  intros Hcal. split; [now apply parse_isoformat | ].
  pose proof Hcal as (Hy & Hm & Hd).
  pose proof (days_in_month_small (year t) _ Hm) as Hd100.
  assert (Ey : group_int (zfill 4 (year t)) = year t)
    by (apply group_int_zfill; change (10 ^ Z.of_nat 4) with 10000; lia).
  assert (Em : group_int (zfill 2 (month t)) = month t)
    by (apply group_int_zfill; change (10 ^ Z.of_nat 2) with 100; lia).
  assert (Ed : group_int (zfill 2 (day t)) = day t)
    by (apply group_int_zfill; change (10 ^ Z.of_nat 2) with 100; lia).
  pose proof (zfill_digits 4 (year t)) as Dy.
  pose proof (zfill_digits 2 (month t)) as Dm.
  pose proof (zfill_digits 2 (day t)) as Dd.
  unfold slashformat.
  rewrite zfill_4, !zfill_2 in *. cbn [app].
  rewrite parse_date_m_d_Y_chars; try assumption.
  - now rewrite Ey, Em, Ed.
  - now rewrite Ey, Em, Ed.
Qed.

(** ** Recording a sale *)

Lemma supported_sales : supported SALES_DATA_FILE.
Proof. exists "", SALES_DATA_FILE. split; [simpl; auto 6 | reflexivity]. Qed.

Lemma supported_branches : supported BRANCH_DATA_FILE.
Proof. exists "", BRANCH_DATA_FILE. split; [simpl; auto | reflexivity]. Qed.

Lemma load_sales header rows fs :
  fs SALES_DATA_FILE = Some (header :: rows) ->
  load_data SALES_DATA_FILE fs = Done rows fs.
Proof. intros H. now rewrite (load_data_supported _ _ supported_sales), H. Qed.

Lemma load_branches header rows fs :
  fs BRANCH_DATA_FILE = Some (header :: rows) ->
  load_data BRANCH_DATA_FILE fs = Done rows fs.
Proof. intros H. now rewrite (load_data_supported _ _ supported_branches), H. Qed.

Section CommandProperties.

Variable py_int : string -> result Z.
Variable year_text : Z -> list ascii.

Lemma strftime_isoformat now :
  four_digit_years year_text -> 1000 <= year now <= 9999 ->
  strftime_Y_m_d year_text now = isoformat now.
Proof.
  intros H Hy. unfold strftime_Y_m_d, isoformat. now rewrite (H _ Hy).
Qed.

Lemma record_sale_files now branch_id product_id amount_sold header old fs :
  fs SALES_DATA_FILE = Some (header :: old) ->
  exists fs',
    RecordSaleCommand_execute year_text now branch_id product_id amount_sold fs =
      Done [Print (nl ++ "<<<< Record a New Sale >>>>");
            Print "The sale has been successfully recorded."] fs'
    /\ fs' SALES_DATA_FILE =
         Some (["Branch ID"; "Product ID"; "Amount Sold"; "Date"]
               :: old ++ [[branch_id; product_id; amount_sold;
                           strftime_Y_m_d year_text now]])%list
    /\ (forall other, other <> SALES_DATA_FILE -> fs' other = fs other).
Proof.
  intros Hf.
  unfold RecordSaleCommand_execute, io_bind at 1.
  rewrite (load_sales _ _ _ Hf).
  unfold io_bind at 1, os_remove. rewrite Hf.
  destruct (save_data_files SALES_DATA_FILE
              (old ++ [[branch_id; product_id; amount_sold;
                        strftime_Y_m_d year_text now]])%list
              (Some ["Branch ID"; "Product ID"; "Amount Sold"; "Date"])
              (fun n => if String.eqb n SALES_DATA_FILE then None else fs n))
    as (fs' & E & Hn & Ho).
  exists fs'. unfold io_bind, io_ret. rewrite E.
  split; [reflexivity | ].
  rewrite String.eqb_refl in Hn. cbn [truthy app] in Hn.
  split; [exact Hn | ].
  intros other Hne. rewrite (Ho other Hne).
  apply String.eqb_neq in Hne. now rewrite Hne.
Qed.


End CommandProperties.

(** ** Recording a sale, then reporting *)

Lemma comprehension_app {A B} (cond : A -> result bool) (elt : A -> result B)
    (l1 l2 : list A) :
  comprehension cond elt (l1 ++ l2) =
    (ys1 <- comprehension cond elt l1 ;;
     ys2 <- comprehension cond elt l2 ;;
     Ok (ys1 ++ ys2)%list)%py.
Proof.
  induction l1 as [|x l1 IH]; cbn [app comprehension bind].
  - destruct (comprehension cond elt l2); reflexivity.
  - destruct (cond x) as [[|]|e]; cbn [bind]; [ | exact IH | reflexivity].
    destruct (elt x) as [y|e]; cbn [bind]; [ | reflexivity].
    rewrite IH.
    destruct (comprehension cond elt l1) as [ys1|e]; cbn [bind]; [ | reflexivity].
    destruct (comprehension cond elt l2) as [ys2|e]; reflexivity.
Qed.

Section RecordThenReport.

Variable py_int : string -> result Z.
Variable year_text : Z -> list ascii.

(** The amounts that the total report adds up. *)
Lemma all_amounts rows sales :
  sales_snapshot py_int rows sales ->
  comprehension (fun _ => Ok true) (amount_of py_int) rows
  = Ok (map sale_amount sales).
Proof.
  intros Hsnap.
  rewrite (comprehension_rows (sale_row py_int) _ _
             (fun _ => true) sale_amount rows sales);
    [ | reflexivity | apply amount_of_row | exact Hsnap ].
  now rewrite filter_all.
Qed.

Lemma total_command_run header rows fs :
  fs SALES_DATA_FILE = Some (header :: rows) ->
  TotalSalesAnalysisCommand_execute py_int fs =
    lift (analyze_total_sales_amount py_int rows) fs.
Proof.
  intros H. unfold TotalSalesAnalysisCommand_execute, io_bind.
  now rewrite (load_sales _ _ _ H).
Qed.



End RecordThenReport.

(** ** The report over all branches, from the files *)

Lemma values_set d k v old :
  dict_get d k = Some old ->
  total (map snd (dict_set d k v)) = total (map snd d) - old + v.
Proof.
  unfold total. induction d as [|[k' v'] d IH]; simpl; [discriminate | ].
  destruct (String.eqb_spec k' k) as [-> | Hne]; simpl.
  - intros H. injection H as ->. lia.
  - intros H. rewrite (IH H). lia.
Qed.

Lemma values_all_zero d :
  NoDup (keys d) ->
  (forall k v, dict_get d k = Some v -> v = 0) ->
  total (map snd d) = 0.
Proof.
  unfold total. induction d as [|[k0 v0] d IH]; simpl; intros Hnd Hz.
  - reflexivity.
  - inversion Hnd as [|? ? Hnotin Hnd']; subst.
    rewrite IH; [ | exact Hnd' | ].
    + pose proof (Hz k0 v0) as H0. rewrite String.eqb_refl in H0.
      rewrite (H0 eq_refl). reflexivity.
    + intros k v Hk. apply (Hz k v).
      destruct (String.eqb_spec k0 k) as [-> | _]; [ | exact Hk].
      exfalso. apply Hnotin.
      destruct (in_dec string_dec k (keys d)) as [Hin | Hout]; [exact Hin | ].
      apply dict_get_None in Hout. congruence.
Qed.

Section AllBranchesFromFiles.

Variable py_int : string -> result Z.
Variable year_text : Z -> list ascii.

Lemma add_sales_app rows1 rows2 d :
  add_sales py_int (rows1 ++ rows2) d =
    (d' <- add_sales py_int rows1 d ;; add_sales py_int rows2 d')%py.
Proof.
  revert d; induction rows1 as [|row rows1 IH]; intros d; cbn [app add_sales bind].
  - reflexivity.
  - destruct (index row 0) as [b|e]; cbn [bind]; [ | reflexivity].
    destruct (dict_lookup d b) as [old|e]; cbn [bind]; [ | reflexivity].
    destruct (amount_of py_int row) as [a|e]; cbn [bind]; [ | reflexivity].
    apply IH.
Qed.

(** The loop over sales of registered branches keeps the keys and adds
    every amount to the sum of the values. *)
Lemma add_sales_sum rows sales d :
  sales_snapshot py_int rows sales ->
  Forall (fun s => In (sale_branch s) (keys d)) sales ->
  exists d',
    add_sales py_int rows d = Ok d'
    /\ keys d' = keys d
    /\ total (map snd d') = total (map snd d) + total (map sale_amount sales).
Proof.
  intros Hsnap. revert d.
  induction Hsnap as [|row s rows sales Hrow _ IH]; intros d Hreg.
  - exists d. repeat split; auto. cbn. lia.
  - inversion Hreg as [|? ? Hs Hreg']; subst.
    destruct (dict_lookup_present d _ Hs) as (old & Hget & Hlook).
    cbn [add_sales]. destruct Hrow as (H0 & H1 & H2 & H3).
    rewrite H0. cbn [bind]. rewrite Hlook. cbn [bind]. rewrite H2. cbn [bind].
    pose proof (keys_set_present d (sale_branch s) (old + sale_amount s) Hs) as Hk1.
    destruct (IH (dict_set d (sale_branch s) (old + sale_amount s)))
      as (d' & E & Hk & Hv).
    { rewrite Hk1. exact Hreg'. }
    exists d'. split; [exact E | split; [congruence | ]].
    rewrite Hv, (values_set _ _ _ _ Hget). cbn [map total fold_right].
    fold (total (map sale_amount sales)). lia.
Qed.

(** The loop stops with a key error at the first row whose branch is not
    a key, before its amount is converted. *)
Lemma add_sales_first_unregistered rows sales row rest b d :
  sales_snapshot py_int rows sales ->
  Forall (fun s => In (sale_branch s) (keys d)) sales ->
  index row 0 = Ok b ->
  ~ In b (keys d) ->
  add_sales py_int (rows ++ row :: rest) d = Raise (KeyError b).
Proof.
  intros Hsnap Hreg Hb Hout.
  destruct (add_sales_sum rows sales d Hsnap Hreg) as (d' & E & Hk & _).
  rewrite add_sales_app, E. cbn [bind add_sales]. rewrite Hb. cbn [bind].
  rewrite dict_lookup_absent by (now rewrite Hk). reflexivity.
Qed.

Lemma seeded brows branches :
  branches_snapshot brows branches ->
  exists d0,
    seed_summary brows [] = Ok d0
    /\ NoDup (keys d0)
    /\ (forall k, In k (keys d0) <-> In k (map branch_key branches))
    /\ total (map snd d0) = 0.
Proof.
  intros Hb.
  destruct (seed_summary_rows brows branches [] Hb)
    as (d0 & Eseed & Hnd & Hkeys & Hzero).
  { constructor. }
  { intros k v H. discriminate H. }
  exists d0. split; [exact Eseed | split; [exact Hnd | split]].
  - intros k. rewrite Hkeys. cbn. tauto.
  - now apply values_all_zero.
Qed.

Lemma all_branches_command_run h1 rows h2 brows fs :
  fs SALES_DATA_FILE = Some (h1 :: rows) ->
  fs BRANCH_DATA_FILE = Some (h2 :: brows) ->
  AllBranchesMonthlySalesAnalysisCommand_execute py_int fs =
    lift (analyze_all_branches_monthly_sales py_int rows brows) fs.
Proof.
  intros H1 H2. unfold AllBranchesMonthlySalesAnalysisCommand_execute, io_bind.
  now rewrite (load_sales _ _ _ H1), (load_branches _ _ _ H2).
Qed.

(** X13. From the files: when the sale file holds a row of a branch that
    the branch file does not list, after rows of listed branches only,
    the report over all branches raises a key error for that branch, even
    before the amount of the row is looked at, and changes no file. *)
Theorem all_branches_command_key_error h1 rows row rest h2 brows
    sales branches b fs :
  fs SALES_DATA_FILE = Some (h1 :: rows ++ row :: rest)%list ->
  fs BRANCH_DATA_FILE = Some (h2 :: brows) ->
  sales_snapshot py_int rows sales ->
  branches_snapshot brows branches ->
  Forall (fun s => In (sale_branch s) (map branch_key branches)) sales ->
  index row 0 = Ok b ->
  ~ In b (map branch_key branches) ->
  AllBranchesMonthlySalesAnalysisCommand_execute py_int fs =
    Fail (Builtin (KeyError b)) fs.
Proof.
  intros Hs Hb Hsnap Hbsnap Hreg Hrow Hout.
  rewrite (all_branches_command_run _ _ _ _ _ Hs Hb).
  destruct (seeded brows branches Hbsnap) as (d0 & Eseed & _ & Hkeys & _).
  unfold analyze_all_branches_monthly_sales, monthly_sales_summary.
  rewrite Eseed. cbn [bind].
  rewrite (add_sales_first_unregistered rows sales row rest b d0 Hsnap).
  - reflexivity.
  - eapply Forall_impl; [ | exact Hreg]. intros s Hin. now apply Hkeys.
  - exact Hrow.
  - intros Hin. apply Hout. now apply Hkeys.
Qed.

(** X14. With at least one branch listed and every sale of a listed
    branch, the report over all branches succeeds, and its bars add up to
    the revenue that the total report shows. *)
Theorem all_branches_bars_add_up_to_total h1 rows h2 brows sales branches fs :
  fs SALES_DATA_FILE = Some (h1 :: rows) ->
  fs BRANCH_DATA_FILE = Some (h2 :: brows) ->
  sales_snapshot py_int rows sales ->
  branches_snapshot brows branches ->
  branches <> [] ->
  Forall (fun s => In (sale_branch s) (map branch_key branches)) sales ->
  exists ids heights,
    AllBranchesMonthlySalesAnalysisCommand_execute py_int fs =
      Done [banner "Monthly Sales Analysis for All Branches"; Bar ids heights] fs
    /\ TotalSalesAnalysisCommand_execute py_int fs =
         Done [banner "Total Sales Revenue Analysis";
               PrintValue "Overall Sales Revenue: " (PyInt (total heights)) " LKR"]
              fs.
Proof.
  intros Hs Hb Hsnap Hbsnap Hne Hreg.
  destruct (seeded brows branches Hbsnap) as (d0 & Eseed & _ & Hkeys & Hzero).
  destruct (add_sales_sum rows sales d0 Hsnap) as (d' & E & Hk & Hsum).
  { eapply Forall_impl; [ | exact Hreg]. intros s Hin. now apply Hkeys. }
  exists (keys d'), (map snd d'). split.
  - rewrite (all_branches_command_run _ _ _ _ _ Hs Hb).
    unfold analyze_all_branches_monthly_sales, monthly_sales_summary.
    rewrite Eseed. cbn [bind]. rewrite E. cbn [bind].
    destruct d' as [|kv d'].
    + exfalso. destruct branches as [|br bs]; [congruence | ].
      assert (Hin : In (branch_key br) (keys d0)) by (apply Hkeys; now left).
      rewrite <- Hk in Hin. exact Hin.
    + reflexivity.
  - unfold TotalSalesAnalysisCommand_execute, io_bind.
    rewrite (load_sales _ _ _ Hs). unfold analyze_total_sales_amount.
    rewrite (all_amounts _ _ _ Hsnap). cbn [bind lift].
    rewrite sum_total, Hsum, Hzero. reflexivity.
Qed.


End AllBranchesFromFiles.

(** ** More on dates *)

Lemma make_date_ok y m d t :
  make_date y m d = Ok t ->
  t = mkDatetime y m d 0 0 0 0 /\ calendar_day y m d.
Proof.
  unfold make_date, calendar_day, MAXYEAR.
  destruct ((1 <=? y) && (y <=? 9999)) eqn:Hy; cbn [negb]; [ | discriminate].
  destruct ((1 <=? m) && (m <=? 12)) eqn:Hm; cbn [negb]; [ | discriminate].
  destruct ((1 <=? d) && (d <=? days_in_month y m)) eqn:Hd; cbn [negb];
    [ | discriminate].
  intros H. injection H as <-.
  apply andb_true_iff in Hy, Hm, Hd. rewrite !Z.leb_le in *.
  split; [reflexivity | lia].
Qed.

Lemma strptime_ok s fmt t :
  strptime s fmt = Ok t ->
  calendar_day (year t) (month t) (day t)
  /\ hour t = 0 /\ minute t = 0 /\ second t = 0 /\ microsecond t = 0.
Proof.
  unfold strptime.
  destruct (re_match fmt (list_ascii_of_string s) no_groups) as [|[g rest] tl];
    [discriminate | ].
  destruct rest; [ | discriminate].
  intros H. apply make_date_ok in H as [-> Hcal]. cbn. auto.
Qed.

Lemma parse_date_ok s t :
  parse_date s = Ok t ->
  calendar_day (year t) (month t) (day t) /\ midnight t.
Proof.
  rewrite parse_date_unfold. unfold midnight.
  destruct (strptime s FMT_Y_m_d) as [t1|e1] eqn:E1.
  - intros H. injection H as <-. exact (strptime_ok _ _ _ E1).
  - destruct (strptime s FMT_m_d_Y) as [t2|e2] eqn:E2; [ | discriminate].
    intros H. injection H as <-. exact (strptime_ok _ _ _ E2).
Qed.

(** X16. Whatever [parse_date] returns is a day of the calendar, in the
    years 1 to 9999, at midnight: no text makes it return a time of day,
    a thirtieth of February or a year outside that range. *)
Theorem parse_date_returns_midnight s t :
  parse_date s = Ok t ->
  1 <= year t <= 9999 /\ 1 <= month t <= 12
  /\ 1 <= day t <= days_in_month (year t) (month t)
  /\ fields t = [year t; month t; day t; 0; 0; 0; 0].
Proof.
  intros H. destruct (parse_date_ok s t H) as [(Hy & Hm & Hd) (E1 & E2 & E3 & E4)].
  unfold fields. rewrite E1, E2, E3, E4. auto.
Qed.

Lemma slash_is_no_digit c : is_digit c = true -> is_char "/" c = false.
Proof.
  intros H. apply is_digit_cases in H. simpl in H.
  repeat (destruct H as [<- | H]; [reflexivity | ]). destruct H.
Qed.

(** X17. No text is accepted by both formats: a text that ['%Y-%m-%d']
    reads is rejected by ['%m/%d/%Y'], so that the order in which
    [parse_date] tries them never decides what it returns. *)
Theorem date_formats_exclude_each_other s t :
  strptime s FMT_Y_m_d = Ok t ->
  exists e, strptime s FMT_m_d_Y = Raise e.
Proof.
  unfold strptime at 1.
  destruct (re_match FMT_Y_m_d (list_ascii_of_string s) no_groups)
    as [|[g rest] tl] eqn:Hm; [discriminate | intros _].
  assert (Hfour : four is_digit (list_ascii_of_string s) <> []).
  { intros H. unfold FMT_Y_m_d in Hm. cbn [re_match alternatives] in Hm.
    rewrite H in Hm. discriminate Hm. }
  destruct (list_ascii_of_string s) as [|c1 [|c2 [|c3 [|c4 r]]]] eqn:Hs;
    try (elim Hfour; reflexivity).
  cbn [four] in Hfour.
  destruct (is_digit c1) eqn:D1; [ | elim Hfour; reflexivity].
  destruct (is_digit c2) eqn:D2; [ | elim Hfour; reflexivity].
  destruct (is_digit c3) eqn:D3; [ | elim Hfour; reflexivity].
  pose proof (slash_is_no_digit _ D2) as S2.
  pose proof (slash_is_no_digit _ D3) as S3.
  assert (Hno : re_match FMT_m_d_Y (c1 :: c2 :: c3 :: c4 :: r) no_groups = []).
  { unfold FMT_m_d_Y. cbn [re_match alternatives two one].
    destruct (is_char "1" c1 && between "0" "2" c2);
      destruct (is_char "0" c1 && between "1" "9" c2);
      destruct (between "1" "9" c1);
      cbn [app flat_map re_match alternatives one]; rewrite ?S2, ?S3;
      reflexivity. }
  unfold strptime. rewrite Hs, Hno. eexists. reflexivity.
Qed.

(* ================================================================== *)
(** * The calendar and the week of the weekly report                   *)
(* ================================================================== *)

(** ** Ordinals and dates

    The proleptic Gregorian calendar repeats every 400 years, 146097
    days: the first cycle is checked day by day, and every other day is
    a day of the first cycle shifted by whole cycles. *)

Lemma holds_from_spec n i p :
  holds_from n i p = true -> forall j, i <= j < i + Z.of_nat n -> p j = true.
Proof.
  revert i; induction n as [|n IH]; intros i H j Hj.
  - lia.
  - cbn [holds_from] in H. destruct (p i) eqn:Hp; [ | discriminate].
    destruct (Z.eq_dec j i) as [-> | Hne]; [exact Hp | ].
    apply (IH (i + 1) H). lia.
Qed.

Lemma cycle_checked : holds_from (Z.to_nat 146097) 0 cycle_ok = true.
Proof. vm_compute. reflexivity. Qed.

Lemma is_leap_shift y q : is_leap (y + 400 * q) = is_leap y.
Proof.
  unfold is_leap.
  replace ((y + 400 * q) mod 4) with (y mod 4)
    by (replace (y + 400 * q) with (y + (100 * q) * 4) by lia;
        now rewrite Z.mod_add).
  replace ((y + 400 * q) mod 100) with (y mod 100)
    by (replace (y + 400 * q) with (y + (4 * q) * 100) by lia;
        now rewrite Z.mod_add).
  replace ((y + 400 * q) mod 400) with (y mod 400)
    by (replace (y + 400 * q) with (y + q * 400) by lia;
        now rewrite Z.mod_add).
  reflexivity.
Qed.

Lemma days_before_year_shift y q :
  days_before_year (y + 400 * q) = days_before_year y + 146097 * q.
Proof.
  unfold days_before_year. cbv zeta.
  replace ((y + 400 * q - 1) / 4) with ((y - 1) / 4 + 100 * q)
    by (replace (y + 400 * q - 1) with (y - 1 + (100 * q) * 4) by lia;
        now rewrite Z.div_add).
  replace ((y + 400 * q - 1) / 100) with ((y - 1) / 100 + 4 * q)
    by (replace (y + 400 * q - 1) with (y - 1 + (4 * q) * 100) by lia;
        now rewrite Z.div_add).
  replace ((y + 400 * q - 1) / 400) with ((y - 1) / 400 + q)
    by (replace (y + 400 * q - 1) with (y - 1 + q * 400) by lia;
        now rewrite Z.div_add).
  lia.
Qed.

Lemma ymd2ord_shift y m d q :
  ymd2ord (y + 400 * q) m d = ymd2ord y m d + 146097 * q.
Proof.
  unfold ymd2ord, days_before_month.
  rewrite days_before_year_shift, is_leap_shift. lia.
Qed.

Lemma days_in_month_shift y m q :
  days_in_month (y + 400 * q) m = days_in_month y m.
Proof. unfold days_in_month. now rewrite is_leap_shift. Qed.

Lemma ord2ymd_shift r q :
  0 <= r < 146097 ->
  ord2ymd (r + 1 + 146097 * q) =
    let '(y, m, d) := ord2ymd (r + 1) in (y + 400 * q, m, d).
Proof.
  intros Hr. unfold ord2ymd. cbv zeta.
  change DI400Y with 146097.
  replace (r + 1 + 146097 * q - 1) with (r + q * 146097) by lia.
  replace (r + 1 - 1) with r by lia.
  rewrite Z.div_add, Z.mod_add by lia.
  rewrite (Z.div_small r 146097), (Z.mod_small r 146097) by lia.
  set (n100 := r / DI100Y).
  set (n1 := r mod DI100Y).
  set (n4 := n1 / DI4Y).
  set (n2 := n1 mod DI4Y).
  set (k1 := n2 / 365).
  set (n3 := n2 mod 365).
  destruct ((k1 =? 4) || (n100 =? 4)).
  - f_equal. f_equal. lia.
  - set (leapyear := (k1 =? 3) && (negb (n4 =? 24) || (n100 =? 3))).
    set (month := Z.shiftr (n3 + 50) 5).
    set (preceding := nth (Z.to_nat month) DAYS_BEFORE_MONTH 0
                      + (if (month >? 2) && leapyear then 1 else 0)).
    destruct (preceding >? n3); f_equal; f_equal; lia.
Qed.

Lemma day_ok_spec y m d :
  day_ok y m d = true <-> 1 <= m <= 12 /\ 1 <= d <= days_in_month y m.
Proof. unfold day_ok. rewrite !andb_true_iff, !Z.leb_le. lia. Qed.

(** Every ordinal is the ordinal of the date that [ord2ymd] gives for it,
    and that date is a day of the calendar. *)
Lemma ord2ymd_ymd2ord n y m d :
  1 <= n ->
  ord2ymd n = (y, m, d) ->
  ymd2ord y m d = n /\ 1 <= m <= 12 /\ 1 <= d <= days_in_month y m
  /\ 1 + 400 * ((n - 1) / 146097) <= y <= 400 + 400 * ((n - 1) / 146097).
Proof.
  intros Hn.
  set (q := (n - 1) / 146097). set (r := (n - 1) mod 146097).
  assert (Hr : 0 <= r < 146097) by (apply Z.mod_pos_bound; lia).
  assert (En : n = r + 1 + 146097 * q)
    by (unfold q, r; pose proof (Z.div_mod (n - 1) 146097); lia).
  replace (ord2ymd n) with (ord2ymd (r + 1 + 146097 * q)) by (f_equal; lia).
  rewrite (ord2ymd_shift r q Hr).
  pose proof (holds_from_spec _ _ _ cycle_checked r) as Hc.
  rewrite Z2Nat.id in Hc by lia. specialize (Hc ltac:(lia)).
  unfold cycle_ok in Hc.
  destruct (ord2ymd (r + 1)) as [[y0 m0] d0].
  rewrite !andb_true_iff in Hc. destruct Hc as [[[Hord Hday] Hy1] Hy2].
  apply day_ok_spec in Hday. apply Z.eqb_eq in Hord. apply Z.leb_le in Hy1, Hy2.
  intros H. cbv beta iota in H.
  assert (Ey : y = y0 + 400 * q /\ m = m0 /\ d = d0) by (repeat split; congruence).
  destruct Ey as (-> & -> & ->).
  rewrite ymd2ord_shift, days_in_month_shift, Hord. unfold q. lia.
Qed.

Lemma days_before_month_bounds y m :
  1 <= m <= 12 -> 0 <= days_before_month y m <= 335.
Proof.
  intros Hm. unfold days_before_month.
  assert (C : m = 1 \/ m = 2 \/ m = 3 \/ m = 4 \/ m = 5 \/ m = 6 \/ m = 7
              \/ m = 8 \/ m = 9 \/ m = 10 \/ m = 11 \/ m = 12) by lia.
  destruct (is_leap y);
    repeat (destruct C as [-> | C]; [vm_compute; split; discriminate | ]);
    subst m; vm_compute; split; discriminate.
Qed.

Lemma days_before_year_nonneg y : 1 <= y -> 0 <= days_before_year y.
Proof.
  intros Hy. unfold days_before_year. cbv zeta.
  Z.div_mod_to_equations. lia.
Qed.

Lemma days_before_year_mono a b :
  a <= b -> days_before_year a <= days_before_year b.
Proof.
  intros H. unfold days_before_year. cbv zeta.
  Z.div_mod_to_equations. lia.
Qed.

Lemma ymd2ord_pos y m d : calendar_day y m d -> 1 <= ymd2ord y m d.
Proof.
  intros (Hy & Hm & Hd). unfold ymd2ord.
  pose proof (days_before_year_nonneg y ltac:(lia)).
  pose proof (days_before_month_bounds y m Hm). lia.
Qed.

(** The date of an ordinal in range is a day of the calendar with that
    ordinal. *)
Lemma ord2ymd_calendar_day n y m d :
  1 <= n <= MAXORDINAL ->
  ord2ymd n = (y, m, d) ->
  ymd2ord y m d = n /\ calendar_day y m d.
Proof.
  intros Hn E.
  destruct (ord2ymd_ymd2ord n y m d ltac:(lia) E) as (Ho & Hm & Hd & Hy).
  split; [exact Ho | ].
  unfold calendar_day. split; [ | tauto].
  unfold MAXORDINAL in Hn.
  assert (Hq : 0 <= (n - 1) / 146097 <= 24) by (Z.div_mod_to_equations; lia).
  split; [lia | ].
  destruct (Z.eq_dec y 10000) as [-> | Hne]; [ | lia].
  exfalso. unfold ymd2ord in Ho.
  pose proof (days_before_month_bounds 10000 m Hm).
  change (days_before_year 10000) with 3652059 in Ho. lia.
Qed.

(** [t + timedelta(days=n)] within the range of the calendar: the day
    moves by [n], the time of day stays. *)
Lemma add_days_ok t n :
  1 <= toordinal t + n <= MAXORDINAL ->
  exists t',
    add_days t n = Ok t'
    /\ toordinal t' = toordinal t + n
    /\ calendar_day (year t') (month t') (day t')
    /\ hour t' = hour t /\ minute t' = minute t /\ second t' = second t
    /\ microsecond t' = microsecond t.
Proof.
  intros H. unfold add_days. cbv zeta.
  replace ((0 <? toordinal t + n) && (toordinal t + n <=? MAXORDINAL)) with true
    by (symmetry; apply andb_true_iff; split; [apply Z.ltb_lt | apply Z.leb_le]; lia).
  destruct (ord2ymd (toordinal t + n)) as [[y m] d] eqn:E.
  destruct (ord2ymd_calendar_day _ _ _ _ H E) as [Ho Hc].
  eexists. split; [reflexivity | ]. cbn. unfold toordinal. cbn. auto 10.
Qed.

Lemma week_window_ok today :
  calendar_day (year today) (month today) (day today) ->
  toordinal today - weekday today + 6 <= MAXORDINAL ->
  exists week_start week_end,
    week_window today = Ok (week_start, week_end)
    /\ weekday week_start = 0 /\ weekday week_end = 6
    /\ toordinal week_start <= toordinal today <= toordinal week_end
    /\ toordinal week_end = toordinal week_start + 6
    /\ calendar_day (year week_start) (month week_start) (day week_start)
    /\ calendar_day (year week_end) (month week_end) (day week_end)
    /\ time_fields week_start = time_fields today
    /\ time_fields week_end = time_fields today.
Proof.
  intros Hcal Hmax.
  pose proof (ymd2ord_pos _ _ _ Hcal) as Hpos. fold (toordinal today) in Hpos.
  assert (Hw : 0 <= weekday today <= 6 /\ weekday today <= toordinal today - 1
               /\ (toordinal today - weekday today + 6) mod 7 = 0).
  { unfold weekday. Z.div_mod_to_equations. lia. }
  destruct (add_days_ok today (- weekday today) ltac:(lia))
    as (ws & Ews & Ows & Cws & Hh & Hmi & Hs & Hus).
  destruct (add_days_ok ws 6 ltac:(lia))
    as (we & Ewe & Owe & Cwe & Hh' & Hmi' & Hs' & Hus').
  exists ws, we. unfold week_window. rewrite Ews. cbn [bind]. rewrite Ewe. cbn [bind].
  split; [reflexivity | ].
  split; [unfold weekday; rewrite Ows; Z.div_mod_to_equations; lia | ].
  split; [unfold weekday; rewrite Owe, Ows; Z.div_mod_to_equations; lia | ].
  split; [lia | split; [lia | ]].
  split; [exact Cws | split; [exact Cwe | ]].
  unfold time_fields. split; congruence.
Qed.

(** X18. For every current date of the calendar whose week ends by
    31 December 9999, [analyze_weekly_sales] computes as [week_start] the
    Monday on or before the current date and as [week_end] the Sunday six
    days later, both at the time of day of the current date, not at
    midnight. *)
Theorem week_window_monday_to_sunday today :
  calendar_day (year today) (month today) (day today) ->
  toordinal today - weekday today + 6 <= MAXORDINAL ->
  exists week_start week_end,
    week_window today = Ok (week_start, week_end)
    /\ weekday week_start = 0 /\ weekday week_end = 6
    /\ toordinal today - 6 <= toordinal week_start <= toordinal today
    /\ toordinal week_end = toordinal week_start + 6
    /\ time_fields week_start = time_fields today
    /\ time_fields week_end = time_fields today.
Proof.
  intros Hcal Hmax.
  destruct (week_window_ok today Hcal Hmax)
    as (ws & we & Ew & Hmon & Hsun & Hin & Hend & _ & _ & Fws & Fwe).
  exists ws, we. repeat split; try assumption; lia.
Qed.

(** ** Comparing datetimes *)

Lemma days_before_year_succ y :
  days_before_year (y + 1) = days_before_year y + year_length y.
Proof.
  unfold days_before_year, year_length, is_leap. cbv zeta.
  destruct (Z.eqb_spec (y mod 4) 0) as [H4 | H4];
    destruct (Z.eqb_spec (y mod 100) 0) as [H100 | H100];
    destruct (Z.eqb_spec (y mod 400) 0) as [H400 | H400];
    cbn [negb andb orb]; Z.div_mod_to_equations; lia.
Qed.

Ltac month_cases m :=
  let C := fresh "C" in
  assert (C : m = 1 \/ m = 2 \/ m = 3 \/ m = 4 \/ m = 5 \/ m = 6 \/ m = 7
              \/ m = 8 \/ m = 9 \/ m = 10 \/ m = 11 \/ m = 12) by lia;
  repeat (destruct C as [-> | C]); try subst m.

(** A month ends where the next one begins, and the last one ends with
    the year. *)
Lemma month_end y m :
  1 <= m <= 12 ->
  days_before_month y m + days_in_month y m =
    (if m =? 12 then year_length y else days_before_month y (m + 1)).
Proof.
  intros Hm. unfold days_before_month, days_in_month, year_length.
  month_cases m; destruct (is_leap y); reflexivity.
Qed.

Lemma days_before_month_mono y m m' :
  1 <= m -> m <= m' -> m' <= 12 ->
  days_before_month y m <= days_before_month y m'.
Proof.
  intros H1 H2 H3. unfold days_before_month.
  month_cases m; month_cases m'; try lia;
    destruct (is_leap y); vm_compute; discriminate.
Qed.

Lemma day_in_year y m d :
  calendar_day y m d -> 1 <= days_before_month y m + d <= year_length y.
Proof.
  intros (Hy & Hm & Hd).
  pose proof (days_before_month_bounds y m Hm).
  pose proof (month_end y m Hm) as He.
  destruct (Z.eqb_spec m 12) as [-> | Hne]; [lia | ].
  pose proof (days_before_month_mono y (m + 1) 12 ltac:(lia) ltac:(lia) ltac:(lia)).
  pose proof (month_end y 12 ltac:(lia)) as He12. cbn [Z.eqb Pos.eqb] in He12.
  assert (0 < days_in_month y 12).
  { unfold days_in_month. destruct ((12 =? 2) && is_leap y); vm_compute; reflexivity. }
  lia.
Qed.

(** Later in the calendar, larger ordinal. *)
Lemma ymd2ord_lt y1 m1 d1 y2 m2 d2 :
  calendar_day y1 m1 d1 -> calendar_day y2 m2 d2 ->
  y1 < y2 \/ (y1 = y2 /\ (m1 < m2 \/ (m1 = m2 /\ d1 < d2))) ->
  ymd2ord y1 m1 d1 < ymd2ord y2 m2 d2.
Proof.
  intros C1 C2 H. unfold ymd2ord.
  pose proof (day_in_year _ _ _ C1) as B1.
  pose proof (day_in_year _ _ _ C2) as B2.
  destruct H as [Hy | [-> [Hm | [-> Hd]]]].
  - pose proof (days_before_year_succ y1).
    pose proof (days_before_year_mono (y1 + 1) y2 ltac:(lia)). lia.
  - destruct C1 as (_ & Hm1 & Hd1). destruct C2 as (_ & Hm2 & Hd2).
    pose proof (month_end y2 m1 Hm1) as He.
    destruct (Z.eqb_spec m1 12) as [-> | Hne]; [lia | ].
    pose proof (days_before_month_mono y2 (m1 + 1) m2 ltac:(lia) ltac:(lia) ltac:(lia)).
    lia.
  - lia.
Qed.

(** Datetimes on days of the calendar compare as their ordinals, then as
    their times of day. *)
Lemma le_by_ordinal a b :
  calendar_day (year a) (month a) (day a) ->
  calendar_day (year b) (month b) (day b) ->
  le a b = true <->
  toordinal a < toordinal b
  \/ (toordinal a = toordinal b /\ tuple_le (time_fields a) (time_fields b) = true).
Proof.
  intros Ca Cb. unfold le, fields, toordinal.
  pose proof (ymd2ord_lt _ _ _ _ _ _ Ca Cb) as Hab.
  pose proof (ymd2ord_lt _ _ _ _ _ _ Cb Ca) as Hba.
  cbn [tuple_le].
  destruct (Z.ltb_spec (year a) (year b)) as [Hy | Hy].
  { split; [intros _; left; apply Hab; lia | reflexivity]. }
  destruct (Z.ltb_spec (year b) (year a)) as [Hy' | Hy'].
  { specialize (Hba ltac:(lia)). split; [discriminate | lia]. }
  assert (Ey : year a = year b) by lia.
  destruct (Z.ltb_spec (month a) (month b)) as [Hm | Hm].
  { split; [intros _; left; apply Hab; lia | reflexivity]. }
  destruct (Z.ltb_spec (month b) (month a)) as [Hm' | Hm'].
  { specialize (Hba ltac:(lia)). split; [discriminate | lia]. }
  assert (Em : month a = month b) by lia.
  destruct (Z.ltb_spec (day a) (day b)) as [Hd | Hd].
  { split; [intros _; left; apply Hab; lia | reflexivity]. }
  destruct (Z.ltb_spec (day b) (day a)) as [Hd' | Hd'].
  { specialize (Hba ltac:(lia)). split; [discriminate | lia]. }
  assert (Ed : day a = day b) by lia.
  rewrite Ey, Em, Ed. unfold time_fields. cbn [tuple_le].
  split; [intros H; right; split; [reflexivity | exact H] | ].
  intros [H | [_ H]]; [lia | exact H].
Qed.

Lemma tuple_le_from_midnight d t :
  midnight d -> time_of_day_valid t ->
  tuple_le (time_fields d) (time_fields t) = true.
Proof.
  intros (E1 & E2 & E3 & E4) (Hh & Hm & Hs & Hu). unfold time_fields.
  rewrite E1, E2, E3, E4. cbn [tuple_le].
  repeat match goal with
         | |- context [?a <? ?b] => destruct (Z.ltb_spec a b); try reflexivity; try lia
         end.
Qed.

Lemma tuple_le_to_midnight d t :
  midnight d -> time_of_day_valid t ->
  tuple_le (time_fields t) (time_fields d) = true <-> midnight t.
Proof.
  intros (E1 & E2 & E3 & E4) (Hh & Hm & Hs & Hu). unfold time_fields, midnight.
  rewrite E1, E2, E3, E4. cbn [tuple_le].
  repeat match goal with
         | |- context [?a <? ?b] => destruct (Z.ltb_spec a b)
         end;
    split; try discriminate; try reflexivity; try lia; try (intros _; lia).
Qed.

(** The test of the weekly report on a date at midnight, by ordinals. *)
Lemma in_window_by_ordinal ws we d :
  calendar_day (year ws) (month ws) (day ws) ->
  calendar_day (year we) (month we) (day we) ->
  calendar_day (year d) (month d) (day d) ->
  midnight d ->
  time_of_day_valid ws -> time_of_day_valid we ->
  toordinal ws < toordinal we ->
  le ws d && le d we = true <->
  toordinal ws <= toordinal d <= toordinal we
  /\ (toordinal d = toordinal ws -> midnight ws).
Proof.
  intros Cws Cwe Cd Hd Vws Vwe Hlt.
  rewrite andb_true_iff, (le_by_ordinal ws d Cws Cd), (le_by_ordinal d we Cd Cwe).
  pose proof (tuple_le_from_midnight d we Hd Vwe) as H1.
  pose proof (tuple_le_to_midnight d ws Hd Vws) as H2.
  rewrite H1, H2. split.
  - intros [[H | [H Hm]] [H' | [H' _]]]; split; try lia; intros; auto; lia.
  - intros [[Ha Hb] Hm]. split.
    + destruct (Z.eq_dec (toordinal d) (toordinal ws)) as [E | E].
      * right. split; [lia | auto].
      * left. lia.
    + destruct (Z.eq_dec (toordinal d) (toordinal we)) as [E | E].
      * right. split; [lia | reflexivity].
      * left. lia.
Qed.

(** ** The days that the weekly report counts *)

Lemma in_week_by_days today row s d :
  calendar_day (year today) (month today) (day today) ->
  time_of_day_valid today ->
  toordinal today - weekday today + 6 <= MAXORDINAL ->
  index row 3 = Ok s ->
  parse_date s = Ok d ->
  exists week_start week_end kept,
    week_window today = Ok (week_start, week_end)
    /\ weekday week_start = 0
    /\ toordinal week_start = toordinal today - weekday today
    /\ toordinal week_end = toordinal week_start + 6
    /\ in_week week_start week_end row = Ok kept
    /\ (kept = true <->
        toordinal week_start <= toordinal d <= toordinal week_end
        /\ (toordinal d = toordinal week_start -> midnight today)).
Proof.
  intros Hcal Hval Hmax Hrow Hparse.
  destruct (week_window_ok today Hcal Hmax)
    as (ws & we & Ew & Hmon & Hsun & Hin & Hend & Cws & Cwe & Fws & Fwe).
  destruct (parse_date_ok _ _ Hparse) as [Cd Md].
  exists ws, we, (le ws d && le d we).
  split; [exact Ew | split; [exact Hmon | ]].
  split; [unfold weekday in *; Z.div_mod_to_equations; lia | split; [exact Hend | ]].
  split; [unfold in_week; rewrite Hrow; cbn [bind]; rewrite Hparse; reflexivity | ].
  unfold time_fields in Fws, Fwe.
  injection Fws as Fh Fm Fs Fu. injection Fwe as Fh' Fm' Fs' Fu'.
  assert (Vws : time_of_day_valid ws) by (unfold time_of_day_valid in *; lia).
  assert (Vwe : time_of_day_valid we) by (unfold time_of_day_valid in *; lia).
  rewrite (in_window_by_ordinal ws we d Cws Cwe Cd Md Vws Vwe ltac:(lia)).
  unfold midnight. rewrite Fh, Fm, Fs, Fu. reflexivity.
Qed.

Lemma is_midnight_spec t : is_midnight t = true <-> midnight t.
Proof.
  unfold is_midnight, midnight. rewrite !andb_true_iff, !Z.eqb_eq. tauto.
Qed.

Lemma dated_within_by_day today ws we s :
  week_window today = Ok (ws, we) ->
  calendar_day (year today) (month today) (day today) ->
  time_of_day_valid today ->
  toordinal today - weekday today + 6 <= MAXORDINAL ->
  dated_within ws we s = counted_in_week today s.
Proof.
  intros Ew Hcal Hval Hmax.
  destruct (week_window_ok today Hcal Hmax)
    as (ws' & we' & Ew' & Hmon & Hsun & Hin & Hend & Cws & Cwe & Fws & Fwe).
  rewrite Ew in Ew'. injection Ew' as <- <-.
  unfold dated_within, counted_in_week. cbv zeta.
  destruct (parse_date (sale_date s)) as [d|e] eqn:Hd; [ | reflexivity].
  destruct (parse_date_ok _ _ Hd) as [Cd Md].
  unfold time_fields in Fws, Fwe.
  injection Fws as Fh Fm Fs Fu. injection Fwe as Fh' Fm' Fs' Fu'.
  assert (Vws : time_of_day_valid ws) by (unfold time_of_day_valid in *; lia).
  assert (Vwe : time_of_day_valid we) by (unfold time_of_day_valid in *; lia).
  assert (Ows : toordinal ws = toordinal today - weekday today)
    by (unfold weekday in *; Z.div_mod_to_equations; lia).
  assert (Mws : midnight ws <-> midnight today)
    by (unfold midnight; rewrite Fh, Fm, Fs, Fu; reflexivity).
  apply eq_true_iff_eq.
  rewrite (in_window_by_ordinal ws we d Cws Cwe Cd Md Vws Vwe ltac:(lia)).
  rewrite !andb_true_iff, orb_true_iff, negb_true_iff, !Z.leb_le, Z.eqb_neq.
  rewrite is_midnight_spec, Mws, Hend, Ows.
  destruct (Z.eq_dec (toordinal d) (toordinal today - weekday today)); tauto.
Qed.

(** ** The weekly report and the week of the calendar *)

(** A double within half a unit in the last place of the mean of [xs] is
    not the seventh of their sum, unless there are seven of them. *)
Lemma mean_not_seventh q xs :
  close q (exact_mean xs) ->
  xs <> [] -> List.length xs <> 7%nat -> total xs <> 0 ->
  ~ (q == total xs # 7)%Q.
Proof.
  intros Hc Hne Hn H0 Hq. unfold close in Hc. rewrite Hq in Hc.
  unfold exact_mean in Hc.
  assert (Hp : Z.pos (Pos.of_nat (List.length xs)) = Z.of_nat (List.length xs))
    by (destruct xs; [congruence | apply Zpos_of_nat_length]).
  assert (Hlen : Z.of_nat (List.length xs) <> 7) by lia.
  assert (Hpos : 1 <= Z.of_nat (List.length xs)) by (destruct xs; [congruence | simpl; lia]).
  set (t := total xs) in *. set (n := Z.of_nat (List.length xs)) in *.
  unfold Qle, Qabs, Qminus, Qplus, Qopp, Qmult, inject_Z in Hc.
  cbn [Qnum Qden] in Hc. rewrite !Pos2Z.inj_mul, Hp in Hc.
  replace (t * n + - t * 7) with (t * (n - 7)) in Hc by lia.
  rewrite Z.abs_mul in Hc.
  assert (Ha : 1 <= Z.abs t) by lia.
  assert (Hd : 1 <= Z.abs (n - 7)) by lia.
  change (2 ^ 53) with 9007199254740992 in Hc.
  set (a := Z.abs t) in *. set (d := Z.abs (n - 7)) in *.
  assert (1 <= a * n) by nia.
  nia.
Qed.

Section WeeklyReport.

Variable py_int : string -> result Z.


End WeeklyReport.

Section RecordThenWeekly.

Variable py_int : string -> result Z.
Variable year_text : Z -> list ascii.

Lemma weekly_command_run today header rows fs :
  fs SALES_DATA_FILE = Some (header :: rows) ->
  NetworkWeeklySalesAnalysisCommand_execute py_int today fs =
    lift (analyze_weekly_sales py_int today rows) fs.
Proof.
  intros H. unfold NetworkWeeklySalesAnalysisCommand_execute, io_bind.
  now rewrite (load_sales _ _ _ H).
Qed.

Lemma weekly_report_of ws we today rows weekly :
  week_window today = Ok (ws, we) ->
  weekly_sales py_int ws we rows = Ok weekly ->
  exists average,
    analyze_weekly_sales py_int today rows =
      Ok [banner "Weekly Sales Analysis for the Supermarket Network";
          PrintValue "Weekly Sales Total: " (PyInt (total weekly)) " LKR";
          PrintValue "Average Sales per Day: " average " LKR"].
Proof.
  intros Hw Hk. unfold analyze_weekly_sales. rewrite Hw. cbn [bind].
  rewrite Hk. cbn [bind]. rewrite sum_total. eexists. reflexivity.
Qed.



End RecordThenWeekly.

(** ** Rows that a report does not read, and rows that it cannot read *)

Lemma comprehension_skip {A B} (cond : A -> result bool) (elt : A -> result B)
    (l1 : list A) (x : A) (l2 : list A) :
  cond x = Ok false ->
  comprehension cond elt (l1 ++ x :: l2) = comprehension cond elt (l1 ++ l2).
Proof.
  intros Hx. induction l1 as [|a l1 IH]; cbn [app comprehension].
  - rewrite Hx. reflexivity.
  - rewrite IH. reflexivity.
Qed.

Lemma comprehension_stops {A B} (cond : A -> result bool) (elt : A -> result B)
    (l1 : list A) (ys : list B) (x : A) (l2 : list A) (e : exn) :
  comprehension cond elt l1 = Ok ys ->
  cond x = Raise e \/ (cond x = Ok true /\ elt x = Raise e) ->
  comprehension cond elt (l1 ++ x :: l2) = Raise e.
Proof.
  intros H1 Hx. rewrite comprehension_app, H1. cbn [bind comprehension].
  destruct Hx as [Hc | [Hc He]]; rewrite Hc; cbn [bind]; [reflexivity | ].
  rewrite He. reflexivity.
Qed.

(** X21. The branch report and the product report read the amount of a
    row only when the row is of the branch, or of the product, asked for:
    a row of another branch and another product changes neither report,
    whatever its other fields hold, be it an amount that is no number or
    no amount at all. *)
Theorem reports_skip_other_rows (py_int : string -> result Z)
    branch_id product_id rows1 row rows2 b p :
  index row 0 = Ok b -> b <> branch_id ->
  index row 1 = Ok p -> p <> product_id ->
  analyze_monthly_sales py_int branch_id (rows1 ++ row :: rows2)
    = analyze_monthly_sales py_int branch_id (rows1 ++ rows2)
  /\ analyze_price py_int product_id (rows1 ++ row :: rows2)
     = analyze_price py_int product_id (rows1 ++ rows2).
Proof.
  intros Hb Hnb Hp Hnp.
  assert (Fb : field_is 0 branch_id row = Ok false).
  { unfold field_is. rewrite Hb. cbn [bind]. f_equal. now apply String.eqb_neq. }
  assert (Fp : field_is 1 product_id row = Ok false).
  { unfold field_is. rewrite Hp. cbn [bind]. f_equal. now apply String.eqb_neq. }
  unfold analyze_monthly_sales, analyze_price.
  rewrite (comprehension_skip _ _ rows1 row rows2 Fb).
  rewrite (comprehension_skip _ _ rows1 row rows2 Fp).
  split; reflexivity.
Qed.

(** X22. A row with fewer than three fields after rows that hold sales
    makes the total report raise [IndexError], whatever follows it; a row
    with no field at all, as the CSV reader gives for an empty line, makes
    the branch report and the product report raise it too, for every
    branch and product. *)
Theorem short_row_raises_index_error (py_int : string -> result Z)
    key rows1 row rows2 sales :
  sales_snapshot py_int rows1 sales ->
  (List.length row <= 2)%nat ->
  analyze_total_sales_amount py_int (rows1 ++ row :: rows2)
    = Raise (IndexError "list index out of range")
  /\ (row = [] ->
      analyze_monthly_sales py_int key (rows1 ++ row :: rows2)
        = Raise (IndexError "list index out of range")
      /\ analyze_price py_int key (rows1 ++ row :: rows2)
         = Raise (IndexError "list index out of range")).
Proof.
  intros Hsnap Hlen.
  assert (Ha : amount_of py_int row = Raise (IndexError "list index out of range")).
  { unfold amount_of, index.
    destruct row as [|a [|b [|c row]]]; try reflexivity. cbn in Hlen. lia. }
  split.
  - unfold analyze_total_sales_amount.
    rewrite (comprehension_stops _ _ rows1 _ row rows2
               (IndexError "list index out of range")
               (all_amounts py_int _ _ Hsnap));
      [reflexivity | right; split; [reflexivity | exact Ha]].
  - intros ->. split.
    + unfold analyze_monthly_sales.
      rewrite (comprehension_stops _ _ rows1 _ [] rows2
                 (IndexError "list index out of range")
                 (comprehension_rows (sale_row py_int) _ _ (of_branch key) sale_amount
                    rows1 sales
                    (fun r s H => field_is_branch py_int r s key H)
                    (amount_of_row py_int) Hsnap));
        [reflexivity | left; reflexivity].
    + unfold analyze_price.
      rewrite (comprehension_stops _ _ rows1 _ [] rows2
                 (IndexError "list index out of range")
                 (comprehension_rows (sale_row py_int) _ _ (of_product key) sale_amount
                    rows1 sales
                    (fun r s H => field_is_product py_int r s key H)
                    (amount_of_row py_int) Hsnap));
        [reflexivity | left; reflexivity].
Qed.

(* ================================================================== *)
(** * The files of the small store                                     *)
(* ================================================================== *)

Lemma wednesday_calendar_day :
  calendar_day (year wednesday) (month wednesday) (day wednesday).
Proof. vm_compute. repeat split; discriminate. Qed.

Lemma wednesday_time_of_day : time_of_day_valid wednesday.
Proof. vm_compute. repeat split; discriminate. Qed.

Lemma wednesday_week_in_range :
  toordinal wednesday - weekday wednesday + 6 <= MAXORDINAL.
Proof. vm_compute. discriminate. Qed.

Lemma zfill_four_digit_years : four_digit_years (zfill 4).
Proof. intros y _. reflexivity. Qed.

Lemma branches_supported : supported "branches.csv".
Proof.
  exists "", "branches.csv". split; [simpl; auto | reflexivity].
Qed.

Lemma sales_supported : supported "sales.csv".
Proof.
  exists "", "sales.csv". split; [simpl; auto | reflexivity].
Qed.

Lemma demo_sales_registered :
  Forall (fun s => In (sale_branch s) (map branch_key demo_branches)) demo_sales.
Proof. repeat apply Forall_cons; try apply Forall_nil; simpl; auto. Qed.

(** ** Instances of the theorems on files and commands *)



Lemma login_user_checks_every_row_demo :
  exists found,
    login_user "kusal" "secret" demo_files =
      Done ([Print "<<<< User Login >>>>"], found) demo_files
    /\ found = true.
Proof.
  destruct (login_user_checks_every_row "kusal" "secret"
              [["Username"; "Password"]; ["kusal"; "secret"]] demo_files eq_refl)
    as (found & Hrun & Hfound).
  - repeat constructor.
  - exists found. split; [exact Hrun | ].
    apply Hfound. exists ["kusal"; "secret"].
    split; [simpl; auto | split; reflexivity].
Defined.

Lemma login_after_first_start_up_demo :
  exists fs' found,
    main_start_up no_files = Done tt fs'
    /\ login_user "Username" "Password" fs' =
         Done ([Print "<<<< User Login >>>>"], found) fs'
    /\ found = true.
Proof.
  destruct (login_after_first_start_up "Username" "Password" no_files eq_refl)
    as (fs' & found & Hstart & Hlogin & Hfound).
  exists fs', found. split; [exact Hstart | split; [exact Hlogin | ]].
  apply Hfound. split; reflexivity.
Defined.


Lemma parse_date_of_printed_date_demo :
  parse_date "2024-01-03" = Ok (mkDatetime 2024 1 3 0 0 0 0)
  /\ parse_date "01/03/2024" = Ok (mkDatetime 2024 1 3 0 0 0 0).
Proof.
  exact (parse_date_of_printed_date wednesday wednesday_calendar_day).
Defined.




Lemma all_branches_command_key_error_demo :
  AllBranchesMonthlySalesAnalysisCommand_execute int_decimal one_branch_files =
    Fail (Builtin (KeyError "2")) one_branch_files.
Proof.
  apply (all_branches_command_key_error int_decimal
           ["Branch ID"; "Product ID"; "Amount Sold"; "Date"]
           [["1"; "1"; "100"; "2024-01-05"]; ["1"; "2"; "50"; "01/06/2024"]]
           ["2"; "1"; "7"; "2024-01-01"]
           [["2"; "1"; "9"; "2023-12-31"]]
           ["Branch ID"; "Branch Name"; "Location"] first_branch_rows
           [mkSale "1" "1" 100 "2024-01-05"; mkSale "1" "2" 50 "01/06/2024"]
           first_branch "2" one_branch_files eq_refl eq_refl).
  - repeat constructor.
  - exact first_branch_snapshot.
  - repeat apply Forall_cons; try apply Forall_nil; simpl; auto.
  - reflexivity.
  - intros [H | []]; discriminate H.
Defined.

Lemma all_branches_bars_add_up_to_total_demo :
  exists ids heights,
    AllBranchesMonthlySalesAnalysisCommand_execute int_decimal demo_files =
      Done [banner "Monthly Sales Analysis for All Branches"; Bar ids heights]
           demo_files
    /\ TotalSalesAnalysisCommand_execute int_decimal demo_files =
         Done [banner "Total Sales Revenue Analysis";
               PrintValue "Overall Sales Revenue: " (PyInt (total heights)) " LKR"]
              demo_files.
Proof.
  apply (all_branches_bars_add_up_to_total int_decimal
           ["Branch ID"; "Product ID"; "Amount Sold"; "Date"] demo_rows
           ["Branch ID"; "Branch Name"; "Location"] demo_branch_rows
           demo_sales demo_branches demo_files eq_refl eq_refl
           demo_snapshot demo_branches_snapshot).
  - discriminate.
  - exact demo_sales_registered.
Defined.


(** ** Instances of the theorems on dates and on the week *)

Lemma parse_date_returns_midnight_demo :
  fields (mkDatetime 2024 1 6 0 0 0 0) = [2024; 1; 6; 0; 0; 0; 0]
  /\ 1 <= 6 <= days_in_month 2024 1.
Proof.
  destruct (parse_date_returns_midnight "01/06/2024"
              (mkDatetime 2024 1 6 0 0 0 0) eq_refl) as (_ & _ & Hd & Hf).
  split; [exact Hf | exact Hd].
Defined.

Lemma date_formats_exclude_each_other_demo :
  exists e, strptime "2024-01-05" FMT_m_d_Y = Raise e.
Proof.
  exact (date_formats_exclude_each_other "2024-01-05"
           (mkDatetime 2024 1 5 0 0 0 0) eq_refl).
Defined.

Lemma week_window_monday_to_sunday_demo :
  exists week_start week_end,
    week_window wednesday = Ok (week_start, week_end)
    /\ weekday week_start = 0 /\ weekday week_end = 6
    /\ time_fields week_start = [10; 30; 0; 0].
Proof.
  destruct (week_window_monday_to_sunday wednesday wednesday_calendar_day
              wednesday_week_in_range)
    as (ws & we & Ew & Hmon & Hsun & _ & _ & Fws & _).
  exists ws, we. repeat split; assumption.
Defined.




(** ** Instances of the theorems on rows *)

Lemma reports_skip_other_rows_demo :
  analyze_monthly_sales int_decimal "1"
    [["1"; "1"; "100"; "2024-01-05"]; ["2"; "9"; "ten"];
     ["1"; "2"; "50"; "01/06/2024"]]
  = Ok [banner "Monthly Sales Analysis for Branch 1"; Hist [100; 50]]
  /\ analyze_price int_decimal "1"
       [["1"; "1"; "100"; "2024-01-05"]; ["2"; "9"; "ten"];
        ["1"; "2"; "50"; "01/06/2024"]]
     = analyze_price int_decimal "1"
         [["1"; "1"; "100"; "2024-01-05"]; ["1"; "2"; "50"; "01/06/2024"]].
Proof.
  destruct (reports_skip_other_rows int_decimal "1" "1"
              [["1"; "1"; "100"; "2024-01-05"]] ["2"; "9"; "ten"]
              [["1"; "2"; "50"; "01/06/2024"]] "2" "9" eq_refl)
    as [Hm Hp].
  - discriminate.
  - reflexivity.
  - discriminate.
  - split; [exact (eq_trans Hm eq_refl) | exact Hp].
Defined.

Lemma short_row_raises_index_error_demo :
  analyze_total_sales_amount int_decimal (demo_rows ++ [[]; ["1"; "1"; "5"; "2024-01-02"]])
    = Raise (IndexError "list index out of range")
  /\ analyze_monthly_sales int_decimal "1"
       (demo_rows ++ [[]; ["1"; "1"; "5"; "2024-01-02"]])
     = Raise (IndexError "list index out of range").
Proof.
  destruct (short_row_raises_index_error int_decimal "1" demo_rows []
              [["1"; "1"; "5"; "2024-01-02"]] demo_sales demo_snapshot)
    as [Ht Hb].
  - simpl. lia.
  - split; [exact Ht | exact (proj1 (Hb eq_refl))].
Defined.

(** ** Instances of the theorems without a premise *)

Lemma load_data_accepts_four_suffixes_demo :
  load_data "notes.txt" demo_files =
    Fail (Builtin (ValueError "Unsupported file type")) demo_files
  /\ exists r, load_data "data/sales.csv" demo_files = Done r demo_files
               \/ load_data "data/sales.csv" demo_files = Fail StopIteration demo_files.
Proof.
  destruct (load_data_accepts_four_suffixes "notes.txt" demo_files) as [_ Hno].
  destruct (load_data_accepts_four_suffixes "data/sales.csv" demo_files) as [Hyes _].
  split.
  - apply Hno. intros (x & base & Hin & E). simpl in Hin.
    assert (H : endswith "notes.txt" base = true)
      by (apply endswith_spec; exists x; exact E).
    repeat (destruct Hin as [<- | Hin]; [discriminate H | ]). destruct Hin.
  - apply Hyes. exists "data/", "sales.csv". split; [simpl; auto | reflexivity].
Defined.

Lemma main_start_up_creates_missing_files_demo :
  exists fs',
    main_start_up no_files = Done tt fs'
    /\ fs' "products.csv" = Some [["Product ID"; "Product Name"]]
    /\ load_data "products.csv" fs' = Done [] fs'.
Proof.
  destruct (main_start_up_creates_missing_files no_files) as (fs' & Hrun & Hin & _).
  exists fs'. split; [exact Hrun | ].
  apply (Hin "products.csv"); [simpl; auto | reflexivity].
Defined.

Lemma register_branch_needs_its_file_demo :
  RegisterBranchCommand_execute "3" "C" "Z" no_files =
    Fail (FileNotFoundError BRANCH_DATA_FILE) no_files.
Proof.
  exact (proj2 (proj1 (register_branch_needs_its_file "3" "C" "Z" no_files) eq_refl)).
Defined.
